(** * KitchenMaster: the conversation-state workflow of the kitchen design agent

  A shallow embedding of [backend/app/agent/kitchen_agent.py] (the
  LangGraph workflow [KitchenDesignAgent]) and of the helpers of
  [backend/app/agent/tools.py] it calls, followed by the properties of
  the workflow that the specification states. Further parts embed the
  classifier call [GeminiReasoner.analyze_request] of [tools.py] and what
  the handler [chat] of [backend/app/api/chat.py] stores of a turn through
  [ConversationService.save_design_iteration], with further properties of
  a turn read off the code.

  Conventions of the embedding:
  - a Python [dict] with a fixed vocabulary of keys is a record whose
    fields are [entry]s (key absent / key bound), and a value that may be
    [None] is a [nullable]; [d.get(k)] and [d.get(k, default)] are [get]
    and [get_or];
  - dictionaries with free keys (materials) are [gmap string _];
  - Python floats are binary64 primitive floats, so that the arithmetic of
    the module packing rounds as it does in the program; a number that
    comes from JSON is an [int] or a [float] ([number]), and keeps its
    kind where the program stores or prints it;
  - exceptions are values of [exn]; pure fallible code lives in [Exc],
    code that calls the Reasoning or Image service lives in [M], which
    also records the calls made and the functions entered;
  - the graph is compiled with a checkpointer: a turn ([ainvoke]) starts
    from the channel values its thread holds, updated with the input, and
    then runs the nodes ([invoke]); the checkpoint is a parameter of the
    turn, and the state a turn returns is the checkpoint of the next. *)

From Stdlib Require Import ZArith Floats Ascii.
From stdpp Require Import base option list gmap strings pretty.

Set Warnings "-inexact-float".
Set Default Proof Using "Type".

(** ** Python values *)

Module Py.

(** [Optional[A]]: [None] or a value. *)
Definition nullable (A : Type) : Type := option A.

(** A dictionary key: absent ([None]) or bound to a value. *)
Definition entry (A : Type) : Type := option A.

(** [d.get(k)]: the value, [None] when the key is absent. *)
Definition get {A} (e : entry (nullable A)) : nullable A :=
  match e with Some v => v | None => None end.

(** [d.get(k, default)]: the default only replaces an absent key, a key
    bound to [None] yields [None]. *)
Definition get_or {A} (e : entry A) (d : A) : A :=
  match e with Some v => v | None => d end.

(** The exceptions the modelled code can raise. [ServiceError] stands for
    an exception of any other class, raised inside a call of the Gemini
    client. *)
Inductive exn : Type :=
| TypeError
| KeyError (key : string)
| AttributeError
| ValueError
| OverflowError
| ServiceError (description : string).

(** Pure code that may raise. *)
Definition Exc (A : Type) : Type := exn + A.

#[global] Instance Exc_ret : MRet Exc := λ A a, inr a.
#[global] Instance Exc_bind : MBind Exc :=
  λ A B f m, match m with inl e => inl e | inr a => f a end.
#[global] Instance Exc_throw : MThrow exn Exc := λ A e, inl e.

(** A number as JSON delivers it and Python keeps it: [4] is an [int],
    [4.0] a [float]. *)
Inductive number : Type :=
| Int (n : Z)
| Float (x : float).

(** Truth values of the Python values the code tests with [if x] and
    [not x]. *)
Definition truthy_str (s : string) : bool :=
  match s with EmptyString => false | _ => true end.
Definition truthy_float (x : float) : bool := negb (PrimFloat.eqb x 0%float).
Definition truthy_number (x : number) : bool :=
  match x with
  | Int n => negb (bool_decide (n = 0%Z))
  | Float x => truthy_float x
  end.
Definition truthy_list {A} (l : list A) : bool :=
  match l with [] => false | _ => true end.
Definition truthy_dict {A} (m : gmap string A) : bool :=
  negb (bool_decide (m = ∅)).
Definition truthy {A} (f : A → bool) (v : nullable A) : bool :=
  match v with Some a => f a | None => false end.

(** [str(x)] for an optional string, as an f-string renders it. *)
Definition str_of (v : nullable string) : string :=
  match v with Some s => s | None => "None" end.

(** [sep.join(l)]; [TypeError] when [l] is [None]. *)
Definition join (sep : string) (l : nullable (list string)) : Exc string :=
  match l with
  | Some l => mret (String.concat sep l)
  | None => mthrow TypeError
  end.

(** [int(x)] on a float: truncation towards zero. *)
Definition int (x : float) : Exc Z :=
  match Prim2SF x with
  | S754_zero _ => mret 0%Z
  | S754_infinity _ => mthrow OverflowError
  | S754_nan => mthrow ValueError
  | S754_finite s m e => mret (cond_Zopp s (Z.shiftl (Z.pos m) e))
  end.

(** [float(n)] on an integer, as the mixed product [n * x] converts it. *)
Definition float_of_int (n : Z) : Exc float :=
  let x := SF2Prim (binary_normalize prec emax n 0 false) in
  match Prim2SF x with
  | S754_infinity _ => mthrow OverflowError
  | _ => mret x
  end.

(** [n >= c] for an integer and a float: Python compares the two values
    exactly, without converting the integer. *)
Definition int_ge_float (n : Z) (c : float) : bool :=
  match Prim2SF c with
  | S754_zero _ => bool_decide (0 ≤ n)%Z
  | S754_infinity s => s
  | S754_nan => false
  | S754_finite s m e =>
    if bool_decide (0 ≤ e)%Z
    then bool_decide (cond_Zopp s (Z.pos m) * 2 ^ e ≤ n)%Z
    else bool_decide (cond_Zopp s (Z.pos m) ≤ n * 2 ^ (- e))%Z
  end.

(** [x >= c] for a number and a float. *)
Definition number_ge (x : number) (c : float) : bool :=
  match x with
  | Int n => int_ge_float n c
  | Float x => (c <=? x)%float
  end.

(** The float a number enters float arithmetic as. *)
Definition to_float (x : number) : Exc float :=
  match x with
  | Int n => float_of_int n
  | Float x => mret x
  end.

(** [d[k]] on a dictionary. *)
Definition subscript {A} (d : gmap string A) (k : string) : Exc A :=
  match d !! k with Some v => mret v | None => mthrow (KeyError k) end.

(** [d.get(k, default)] on an optional dictionary: [AttributeError] on
    [None]. *)
Definition dict_get (d : nullable (gmap string string)) (k dflt : string)
  : Exc string :=
  match d with
  | Some d => mret (default dflt (d !! k))
  | None => mthrow AttributeError
  end.

End Py.
Import Py.

(** The line feed of the program's multi-line texts. *)
Definition nl : string := "
".

(** ** The technical specification ([_generate_specs]) *)

Section Specs.

(** Python's formatting of a float inside an f-string ([repr]), a
    built-in of the language the program relies on. *)
Variable float_repr : float → string.

(** A number, or [None], inside an f-string. *)
Definition fmt_number (x : nullable number) : string :=
  match x with
  | Some (Int n) => pretty n
  | Some (Float x) => float_repr x
  | None => "None"
  end.

(** Lines 417-440 of [_generate_specs]: the list [modules] and the two
    storage counts. [linear_meters] has the declared type
    [Optional[float]] and holds what the classifier extracted, an integer
    or a float; comparing [None] with a float raises. An integer stays one
    until the first arithmetic step converts it. *)
Definition pack_modules (linear_meters : nullable number)
  : Exc (list string * Z * Z) :=
  remaining ← (match linear_meters with
               | Some x => mret x
               | None => mthrow TypeError
               end);
  let modules : list string := [] in
  '(modules, remaining) ←
    (if number_ge remaining 0.9
     then
       r ← to_float remaining;
       mret (modules ++ ["1x Módulo fregadero (90cm)"], Float (r - 0.9))
     else mret (modules, remaining));
  '(modules, remaining) ←
    (if number_ge remaining 0.6
     then
       r ← to_float remaining;
       mret (modules ++ ["1x Módulo estufa/parrilla (60cm)"], Float (r - 0.6))
     else mret (modules, remaining));
  '(modules, remaining) ←
    (if number_ge remaining 0.6
     then
       r ← to_float remaining;
       mret (modules ++ ["1x Módulo refrigerador (60cm)"], Float (r - 0.6))
     else mret (modules, remaining));
  remaining ← to_float remaining;
  storage_60 ← int (remaining / 0.6)%float;
  storage_60_f ← float_of_int storage_60;
  let remaining := (remaining - storage_60_f * 0.6)%float in
  storage_40 ← int (remaining / 0.4)%float;
  let modules :=
    if (0 <? storage_60)%Z
    then modules ++ [pretty storage_60 +:+ "x Módulo almacenamiento (60cm)"]
    else modules in
  let modules :=
    if (0 <? storage_40)%Z
    then modules ++ [pretty storage_40 +:+ "x Módulo almacenamiento (40cm)"]
    else modules in
  mret (modules, storage_60, storage_40).

Definition appliances : string :=
"- Campana extractora
- Estufa/Parrilla 4 quemadores
- Horno empotrable (opcional)
- Refrigerador
- Microondas empotrable (opcional)
- Lavavajillas (opcional)".

Definition cost_ranges : gmap string string :=
  <["low" := "$15,000 - $25,000 MXN"]>
  (<["medium" := "$25,000 - $45,000 MXN"]>
  (<["high" := "$45,000 - $80,000 MXN"]>
  (<["premium" := "$80,000 - $150,000+ MXN"]> ∅))).

(** The closing section of the document, from the heading of the cost
    estimate to the end, for a given band text. *)
Definition cost_section (band : string) : string :=
"

### Estimación de Inversión
Rango aproximado: " +:+ band +:+ "

*Nota: Los precios son aproximados y pueden variar según proveedor y ubicación.*".

Definition _generate_specs (linear_meters : nullable number)
    (shape style : nullable string)
    (materials : nullable (gmap string string)) : Exc string :=
  '(modules, _, _) ← pack_modules linear_meters;
  let module_distribution :=
    String.concat nl ((λ m, "- " +:+ m) <$> modules) in
  cabinets ← dict_get materials "cabinets" "MDF lacado";
  countertop ← dict_get materials "countertop" "Cuarzo";
  backsplash ← dict_get materials "backsplash" "Azulejo";
  mret (
"## Especificaciones Técnicas

### Dimensiones
- **Metros lineales:** " +:+ fmt_number linear_meters +:+ "m
- **Configuración:** " +:+ str_of shape +:+ "
- **Altura muebles bajos:** 85 cm
- **Altura muebles altos:** 80 cm
- **Profundidad muebles bajos:** 60 cm

### Materiales
- **Gabinetes:** " +:+ cabinets +:+ "
- **Cubierta:** " +:+ countertop +:+ "
- **Salpicadero:** " +:+ backsplash +:+ "
- **Herrajes:** Cierre suave, bisagras de 110°

### Distribución de Módulos
" +:+ module_distribution +:+ "

### Electrodomésticos Sugeridos
" +:+ appliances +:+
    cost_section (default "$30,000 - $50,000 MXN" (cost_ranges !! "medium"))).

End Specs.

(** ** The data model *)

(** A chat message, [{"role": ..., "content": ...}]. *)
Module Message.
Record t : Type := { role : entry string; content : entry string }.
End Message.

(** The [metadata] mapping of an artifact: the one [_generate_design]
    attaches to an image, the one [_edit_design] attaches
    ([{"version": v, "edit": True}]), or the empty mapping. *)
Inductive metadata : Type :=
| GeneratedMeta (linear_meters : nullable number) (shape style : nullable string)
    (version : Z)
| EditedMeta (version : Z)
| EmptyMeta.

Module Artifact.
Record t : Type := {
  type : string;
  title : string;
  image_data : entry string;
  content : entry string;
  meta : metadata }.
End Artifact.

(** An entry of [design_history]:
    [{"version": v, "params": {linear_meters, shape, style, materials}}]. *)
Module History.
Record t : Type := {
  version : Z;
  linear_meters : nullable number;
  shape : nullable string;
  style : nullable string;
  materials : nullable (gmap string string) }.
End History.

(** [KitchenState], and the partial dictionaries of updates the nodes
    return: every key may be absent. The keys that [run] reads back with
    [result.get(k)], and those a node may bind to [None], hold nullable
    values. *)
Record KitchenState : Type := {
  messages : entry (nullable (list Message.t));
  user_id : entry string;
  conversation_id : entry string;
  linear_meters : entry (nullable number);
  shape : entry (nullable string);
  style : entry (nullable string);
  materials : entry (nullable (gmap string string));
  colors : entry (nullable (list string));
  budget : entry (nullable string);
  current_image : entry (nullable string);
  design_version : entry (nullable Z);
  design_history : entry (nullable (list History.t));
  action : entry (nullable string);
  needs_clarification : entry bool;
  questions : entry (nullable (list string));
  response_text : entry string;
  artifacts : entry (list Artifact.t);
  error : entry (nullable string) }.

(** The empty dictionary [{}]. *)
Definition empty_dict : KitchenState :=
  {| messages := None; user_id := None; conversation_id := None;
     linear_meters := None; shape := None; style := None; materials := None;
     colors := None; budget := None; current_image := None;
     design_version := None; design_history := None; action := None;
     needs_clarification := None; questions := None; response_text := None;
     artifacts := None; error := None |}.

(** [d[k] = v], one definition per key the program assigns. *)
Definition set_messages v (d : KitchenState) : KitchenState :=
  {| messages := Some v; user_id := user_id d;
     conversation_id := conversation_id d; linear_meters := linear_meters d;
     shape := shape d; style := style d; materials := materials d;
     colors := colors d; budget := budget d; current_image := current_image d;
     design_version := design_version d; design_history := design_history d;
     action := action d; needs_clarification := needs_clarification d;
     questions := questions d; response_text := response_text d;
     artifacts := artifacts d; error := error d |}.
Definition set_linear_meters v (d : KitchenState) : KitchenState :=
  {| messages := messages d; user_id := user_id d;
     conversation_id := conversation_id d; linear_meters := Some v;
     shape := shape d; style := style d; materials := materials d;
     colors := colors d; budget := budget d; current_image := current_image d;
     design_version := design_version d; design_history := design_history d;
     action := action d; needs_clarification := needs_clarification d;
     questions := questions d; response_text := response_text d;
     artifacts := artifacts d; error := error d |}.
Definition set_shape v (d : KitchenState) : KitchenState :=
  {| messages := messages d; user_id := user_id d;
     conversation_id := conversation_id d; linear_meters := linear_meters d;
     shape := Some v; style := style d; materials := materials d;
     colors := colors d; budget := budget d; current_image := current_image d;
     design_version := design_version d; design_history := design_history d;
     action := action d; needs_clarification := needs_clarification d;
     questions := questions d; response_text := response_text d;
     artifacts := artifacts d; error := error d |}.
Definition set_style v (d : KitchenState) : KitchenState :=
  {| messages := messages d; user_id := user_id d;
     conversation_id := conversation_id d; linear_meters := linear_meters d;
     shape := shape d; style := Some v; materials := materials d;
     colors := colors d; budget := budget d; current_image := current_image d;
     design_version := design_version d; design_history := design_history d;
     action := action d; needs_clarification := needs_clarification d;
     questions := questions d; response_text := response_text d;
     artifacts := artifacts d; error := error d |}.
Definition set_materials v (d : KitchenState) : KitchenState :=
  {| messages := messages d; user_id := user_id d;
     conversation_id := conversation_id d; linear_meters := linear_meters d;
     shape := shape d; style := style d; materials := Some v; colors := colors
     d; budget := budget d; current_image := current_image d;
     design_version := design_version d; design_history := design_history d;
     action := action d; needs_clarification := needs_clarification d;
     questions := questions d; response_text := response_text d;
     artifacts := artifacts d; error := error d |}.
Definition set_colors v (d : KitchenState) : KitchenState :=
  {| messages := messages d; user_id := user_id d;
     conversation_id := conversation_id d; linear_meters := linear_meters d;
     shape := shape d; style := style d; materials := materials d;
     colors := Some v; budget := budget d; current_image := current_image d;
     design_version := design_version d; design_history := design_history d;
     action := action d; needs_clarification := needs_clarification d;
     questions := questions d; response_text := response_text d;
     artifacts := artifacts d; error := error d |}.
Definition set_budget v (d : KitchenState) : KitchenState :=
  {| messages := messages d; user_id := user_id d;
     conversation_id := conversation_id d; linear_meters := linear_meters d;
     shape := shape d; style := style d; materials := materials d;
     colors := colors d; budget := Some v; current_image := current_image d;
     design_version := design_version d; design_history := design_history d;
     action := action d; needs_clarification := needs_clarification d;
     questions := questions d; response_text := response_text d;
     artifacts := artifacts d; error := error d |}.
Definition set_current_image v (d : KitchenState) : KitchenState :=
  {| messages := messages d; user_id := user_id d;
     conversation_id := conversation_id d; linear_meters := linear_meters d;
     shape := shape d; style := style d; materials := materials d;
     colors := colors d; budget := budget d; current_image := Some v;
     design_version := design_version d; design_history := design_history d;
     action := action d; needs_clarification := needs_clarification d;
     questions := questions d; response_text := response_text d;
     artifacts := artifacts d; error := error d |}.
Definition set_design_version v (d : KitchenState) : KitchenState :=
  {| messages := messages d; user_id := user_id d;
     conversation_id := conversation_id d; linear_meters := linear_meters d;
     shape := shape d; style := style d; materials := materials d;
     colors := colors d; budget := budget d; current_image := current_image d;
     design_version := Some v; design_history := design_history d;
     action := action d; needs_clarification := needs_clarification d;
     questions := questions d; response_text := response_text d;
     artifacts := artifacts d; error := error d |}.
Definition set_design_history v (d : KitchenState) : KitchenState :=
  {| messages := messages d; user_id := user_id d;
     conversation_id := conversation_id d; linear_meters := linear_meters d;
     shape := shape d; style := style d; materials := materials d;
     colors := colors d; budget := budget d; current_image := current_image d;
     design_version := design_version d; design_history := Some v;
     action := action d; needs_clarification := needs_clarification d;
     questions := questions d; response_text := response_text d;
     artifacts := artifacts d; error := error d |}.
Definition set_action v (d : KitchenState) : KitchenState :=
  {| messages := messages d; user_id := user_id d;
     conversation_id := conversation_id d; linear_meters := linear_meters d;
     shape := shape d; style := style d; materials := materials d;
     colors := colors d; budget := budget d; current_image := current_image d;
     design_version := design_version d; design_history := design_history d;
     action := Some v; needs_clarification := needs_clarification d;
     questions := questions d; response_text := response_text d;
     artifacts := artifacts d; error := error d |}.
Definition set_needs_clarification v (d : KitchenState) : KitchenState :=
  {| messages := messages d; user_id := user_id d;
     conversation_id := conversation_id d; linear_meters := linear_meters d;
     shape := shape d; style := style d; materials := materials d;
     colors := colors d; budget := budget d; current_image := current_image d;
     design_version := design_version d; design_history := design_history d;
     action := action d; needs_clarification := Some v; questions := questions
     d; response_text := response_text d; artifacts := artifacts d;
     error := error d |}.
Definition set_questions v (d : KitchenState) : KitchenState :=
  {| messages := messages d; user_id := user_id d;
     conversation_id := conversation_id d; linear_meters := linear_meters d;
     shape := shape d; style := style d; materials := materials d;
     colors := colors d; budget := budget d; current_image := current_image d;
     design_version := design_version d; design_history := design_history d;
     action := action d; needs_clarification := needs_clarification d;
     questions := Some v; response_text := response_text d;
     artifacts := artifacts d; error := error d |}.
Definition set_response_text v (d : KitchenState) : KitchenState :=
  {| messages := messages d; user_id := user_id d;
     conversation_id := conversation_id d; linear_meters := linear_meters d;
     shape := shape d; style := style d; materials := materials d;
     colors := colors d; budget := budget d; current_image := current_image d;
     design_version := design_version d; design_history := design_history d;
     action := action d; needs_clarification := needs_clarification d;
     questions := questions d; response_text := Some v; artifacts := artifacts
     d; error := error d |}.
Definition set_artifacts v (d : KitchenState) : KitchenState :=
  {| messages := messages d; user_id := user_id d;
     conversation_id := conversation_id d; linear_meters := linear_meters d;
     shape := shape d; style := style d; materials := materials d;
     colors := colors d; budget := budget d; current_image := current_image d;
     design_version := design_version d; design_history := design_history d;
     action := action d; needs_clarification := needs_clarification d;
     questions := questions d; response_text := response_text d;
     artifacts := Some v; error := error d |}.
Definition set_error v (d : KitchenState) : KitchenState :=
  {| messages := messages d; user_id := user_id d;
     conversation_id := conversation_id d; linear_meters := linear_meters d;
     shape := shape d; style := style d; materials := materials d;
     colors := colors d; budget := budget d; current_image := current_image d;
     design_version := design_version d; design_history := design_history d;
     action := action d; needs_clarification := needs_clarification d;
     questions := questions d; response_text := response_text d;
     artifacts := artifacts d; error := Some v |}.

(** What the classifier returns: the JSON record the prompt of
    [GeminiReasoner.analyze_request] asks for. Every key may be missing
    and every value may be [null]. *)
Module Analysis.
Record t : Type := {
  action : entry (nullable string);
  linear_meters : entry (nullable number);
  shape : entry (nullable string);
  style : entry (nullable string);
  materials : entry (nullable (gmap string (nullable string)));
  colors : entry (nullable (list string));
  budget : entry (nullable string);
  questions_to_ask : entry (nullable (list string)) }.
End Analysis.

(** The [context] dictionary [_analyze_input] passes to the classifier. *)
Module Context.
Record t : Type := {
  linear_meters : nullable number;
  shape : nullable string;
  style : nullable string;
  materials : nullable (gmap string string);
  has_current_design : bool;
  design_version : nullable Z }.
End Context.

(** What [GeminiImageGenerator.generate_image] and [edit_image] return:
    [{"success": True, "images": [...], "prompt_used": ...}] or
    [{"success": False, "images": [], "error": str(e)}]. *)
Inductive ImageResult : Type :=
| ImageSuccess (images : list string) (prompt_used : string)
| ImageFailure (error : string).

Definition success (r : ImageResult) : bool :=
  match r with ImageSuccess _ _ => true | ImageFailure _ => false end.
Definition images (r : ImageResult) : entry (list string) :=
  match r with ImageSuccess l _ => Some l | ImageFailure _ => Some [] end.
Definition error_of (r : ImageResult) : entry string :=
  match r with ImageSuccess _ _ => None | ImageFailure e => Some e end.

(** ** Effects: the services called and the functions entered *)

(** The nodes of the graph of [_build_graph]. *)
Inductive node : Type :=
| analyze | clarify | generate | edit | respond | format_output.

Inductive event : Type :=
| Enter (n : node)
| AnalyzeRequest (user_message : string) (context : Context.t)
| GenerateImage (prompt : string)
| EditImage (base_image edit_prompt : string)
| StartChat (history : list Message.t)
| SendMessage (message : string).

(** A computation: the events it produced, and its value or the exception
    that ended it. *)
Definition M (A : Type) : Type := list event * Exc A.

#[global] Instance M_ret : MRet M := λ A a, ([], inr a).
#[global] Instance M_bind : MBind M :=
  λ A B f m,
    match m.2 with
    | inl e => (m.1, inl e)
    | inr a => ((m.1 ++ (f a).1)%list, (f a).2)
    end.
#[global] Instance M_throw : MThrow exn M := λ A e, ([], inl e).

Definition tell (e : event) : M () := ([e], inr ()).
Definition lift {A} (x : Exc A) : M A := ([], x).

(** The hosted models behind [GeminiReasoner] and [GeminiImageGenerator],
    as the agent sees them: the outcome of each request. The calls of the
    reasoner are not guarded, so each returns its answer or raises;
    [start_chat] replays the history it is given and [reply] is the
    [send_message] that follows it. The image calls catch every exception
    and report it as a failure. *)
Record Services : Type := {
  analyze_request : string → Context.t → Exc Analysis.t;
  start_chat : list Message.t → Exc ();
  reply : list Message.t → string → Exc string;
  generate_image : string → ImageResult;
  edit_image : string → string → ImageResult }.

(** ** The agent *)

Section Agent.

Variable float_repr : float → string.

(** [self.reasoner] and [self.image_generator]. *)
Variable svc : Services.

(** *** [tools.py]: the two image helpers *)

Definition shape_descriptions : gmap string string :=
  <["I" := "single wall linear"]>
  (<["L" := "L-shaped corner"]>
  (<["U" := "U-shaped three-wall"]>
  (<["G" := "G-shaped with peninsula"]>
  (<["parallel" := "galley parallel walls"]> ∅)))).

Definition style_atmospheres : gmap string string :=
  <["modern" := "clean lines, minimalist hardware, integrated appliances"]>
  (<["classic" := "ornate moldings, traditional hardware, warm wood tones"]>
  (<["rustic" := "natural wood, farmhouse sink, open shelving, vintage elements"]>
  (<["minimalist" := "handleless cabinets, hidden appliances, monochromatic palette"]>
  (<["industrial" := "exposed brick, metal accents, concrete elements, pendant lights"]>
  (<["scandinavian" := "light wood, white walls, natural light, simple forms"]>
  (<["contemporary" := "mixed materials, statement lighting, current trends"]> ∅)))))).

(** [table.get(key, default)] when the key itself may be [None] (which is
    never a key of the table). *)
Definition table_get (table : gmap string string) (key : nullable string)
    (dflt : string) : string :=
  default dflt (key ≫= (table !!.)).

Definition generate_kitchen_image (linear_meters : nullable number)
    (shape style : nullable string)
    (materials : nullable (gmap string string))
    (colors : nullable (list string)) : M ImageResult :=
  let materials :=
    if truthy truthy_dict materials then get_or materials ∅
    else <["cabinets" := "white lacquered MDF"]>
         (<["countertop" := "quartz"]>
         (<["backsplash" := "subway tiles"]> ∅)) in
  let colors :=
    if truthy truthy_list colors then get_or colors []
    else ["white"; "gray"; "wood tones"] in
  let additional_details := "" in
  cabinets ← lift (subscript materials "cabinets");
  countertop ← lift (subscript materials "countertop");
  backsplash ← lift (subscript materials "backsplash");
  let prompt :=
    table_get shape_descriptions shape "L-shaped" +:+ " kitchen design, "
    +:+ fmt_number float_repr linear_meters +:+ " linear meters total

Style: " +:+ str_of style +:+ " kitchen with "
    +:+ table_get style_atmospheres style "modern aesthetics" +:+ "
Cabinets: " +:+ cabinets +:+ "
Countertops: " +:+ countertop +:+ "
Backsplash: " +:+ backsplash +:+ "
Color scheme: " +:+ String.concat ", " colors +:+ "
" +:+ additional_details +:+ "

Features: functional layout, proper work triangle, adequate storage, integrated lighting" in
  tell (GenerateImage prompt);;
  mret (generate_image svc prompt).

Definition edit_kitchen_image (base_image edit_instructions : string)
  : M ImageResult :=
  tell (EditImage base_image edit_instructions);;
  mret (edit_image svc base_image edit_instructions).

(** *** [_route_action] *)

Definition _route_action (state : KitchenState) : node :=
  if get_or (needs_clarification state) false then clarify
  else
    let action := get_or (action state) (Some "respond") in
    if bool_decide (action = Some "generate") then generate
    else if bool_decide (action = Some "edit") then edit
    else respond.

(** *** [_analyze_input] *)

(** [{k: v for k, v in d.items() if v}]. *)
Definition truthy_items (d : gmap string (nullable string)) : gmap string string :=
  omap (λ v : nullable string,
          match v with
          | Some s => if truthy_str s then Some s else None
          | None => None
          end) d.

Definition _analyze_input (state : KitchenState) : M KitchenState :=
  tell (Enter analyze);;
  match get_or (messages state) (Some []) with
  | None | Some [] => mret (set_error (Some "No message provided") empty_dict)
  | Some ((first :: _) as messages) =>
    let last_message := List.last messages first in
    let user_message := get_or (Message.content last_message) "" in
    let context :=
      {| Context.linear_meters := get (linear_meters state);
         Context.shape := get (shape state);
         Context.style := get (style state);
         Context.materials := get (materials state);
         Context.has_current_design :=
           bool_decide (get (current_image state) ≠ None);
         Context.design_version := get_or (design_version state) (Some 0%Z) |} in
    tell (AnalyzeRequest user_message context);;
    analysis ← lift (analyze_request svc user_message context);
    let updates :=
      set_action (get_or (Analysis.action analysis) (Some "respond"))
      (set_needs_clarification
         (bool_decide (get (Analysis.action analysis) = Some "clarification"))
      (set_questions (get_or (Analysis.questions_to_ask analysis) (Some []))
         empty_dict)) in
    let updates :=
      if truthy truthy_number (get (Analysis.linear_meters analysis))
      then set_linear_meters (get (Analysis.linear_meters analysis)) updates
      else updates in
    let updates :=
      if truthy truthy_str (get (Analysis.shape analysis))
      then set_shape (get (Analysis.shape analysis)) updates
      else updates in
    let updates :=
      if truthy truthy_str (get (Analysis.style analysis))
      then set_style (get (Analysis.style analysis)) updates
      else updates in
    updates ←
      (if truthy truthy_dict (get (Analysis.materials analysis))
       then
         match get_or (materials state) (Some ∅) with
         | Some current_materials =>
           let current_materials :=
             truthy_items (get_or (get (Analysis.materials analysis)) ∅)
             ∪ current_materials in
           mret (set_materials (Some current_materials) updates)
         | None => mthrow AttributeError
         end
       else mret updates);
    let updates :=
      if truthy truthy_list (get (Analysis.colors analysis))
      then set_colors (get (Analysis.colors analysis)) updates
      else updates in
    let updates :=
      if truthy truthy_str (get (Analysis.budget analysis))
      then set_budget (get (Analysis.budget analysis)) updates
      else updates in
    let updates :=
      if bool_decide (get (action updates) = Some "generate")
      then
        if negb (truthy truthy_number (get (linear_meters updates)))
           && negb (truthy truthy_number (get (linear_meters state)))
        then
          set_questions
            (Some ["¿Cuántos metros lineales tiene disponibles para su cocina?"])
            (set_needs_clarification true updates)
        else updates
      else updates in
    mret updates
  end.

(** *** [_ask_clarification] *)

Definition shape_menu : string :=
"

**Configuraciones disponibles:**
- **Lineal (I):** Ideal para espacios estrechos
- **En L:** La más versátil, aprovecha esquinas
- **En U:** Máximo almacenamiento, espacios amplios
- **Paralela:** Perfecta para cocinas tipo pasillo
".

Definition _ask_clarification (state : KitchenState) : M KitchenState :=
  tell (Enter clarify);;
  let questions := get_or (questions state) (Some []) in
  let questions :=
    if negb (truthy truthy_list questions) then
      let missing : list string := [] in
      let missing :=
        if negb (truthy truthy_number (get (linear_meters state)))
        then missing ++ ["metros lineales disponibles"] else missing in
      let missing :=
        if negb (truthy truthy_str (get (shape state)))
        then missing ++ ["configuración deseada (L, U, lineal, etc.)"]
        else missing in
      let missing :=
        if negb (truthy truthy_str (get (style state)))
        then missing ++ ["estilo preferido"] else missing in
      if truthy_list missing
      then ["Para crear tu diseño ideal, necesito saber: "
            +:+ String.concat ", " missing
            +:+ ". ¿Podrías proporcionarme esta información?"]
      else ["¿Podrías darme más detalles sobre lo que te gustaría modificar?"]
    else get_or questions [] in
  let response_text := String.concat nl questions in
  let response_text :=
    if negb (truthy truthy_str (get (shape state)))
    then response_text +:+ shape_menu else response_text in
  mret (set_response_text response_text (set_artifacts [] empty_dict)).

(** *** [_generate_design] *)

Definition shape_names : gmap string string :=
  <["I" := "lineal"]>
  (<["L" := "en L"]>
  (<["U" := "en U"]>
  (<["G" := "en G"]>
  (<["parallel" := "paralela"]> ∅)))).

(** [x + 1] on the version counter; [None + 1] raises. *)
Definition succ_version (v : nullable Z) : Exc Z :=
  match v with Some n => mret (n + 1)%Z | None => mthrow TypeError end.

Definition _generate_design (state : KitchenState) : M KitchenState :=
  tell (Enter generate);;
  let linear_meters := get_or (linear_meters state) (Some (Float 3.0)) in
  let shape := get_or (shape state) (Some "L") in
  let style := get_or (style state) (Some "modern") in
  let materials :=
    get_or (materials state)
      (Some (<["cabinets" := "lacquered MDF"]>
             (<["countertop" := "quartz"]>
             (<["backsplash" := "ceramic tiles"]> ∅)))) in
  let colors := get_or (colors state) (Some ["white"; "gray"]) in
  result ← generate_kitchen_image linear_meters shape style materials colors;
  if negb (success result) then
    mret (set_response_text
            ("Lo siento, hubo un problema al generar la imagen: "
             +:+ get_or (error_of result) "Error desconocido"
             +:+ ". ¿Podrías intentarlo de nuevo?")
         (set_artifacts []
         (set_error (error_of result) empty_dict)))
  else
    match get_or (images result) [] with
    | [] =>
      mret (set_response_text
              "No se pudo generar la imagen. Por favor intenta de nuevo."
           (set_artifacts []
           (set_error (Some "No images generated") empty_dict)))
    | image_base64 :: _ =>
      new_version ← lift (succ_version (get_or (design_version state) (Some 0%Z)));
      specs ← lift (_generate_specs float_repr linear_meters shape style materials);
      cabinets ← lift (dict_get materials "cabinets" "MDF lacado");
      countertop ← lift (dict_get materials "countertop" "Cuarzo");
      backsplash ← lift (dict_get materials "backsplash" "Azulejo cerámico");
      palette ← lift (join ", " colors);
      let response_text :=
"## Diseño de Cocina - Versión " +:+ pretty new_version +:+ "

He creado un diseño de cocina **" +:+ str_of style
        +:+ "** con configuración **"
        +:+ str_of (match shape ≫= (shape_names !!.) with
                    | Some name => Some name
                    | None => shape
                    end)
        +:+ "** de **" +:+ fmt_number float_repr linear_meters
        +:+ " metros lineales**.

### Características principales:
- **Gabinetes:** " +:+ cabinets +:+ "
- **Cubierta:** " +:+ countertop +:+ "
- **Salpicadero:** " +:+ backsplash +:+ "
- **Paleta de colores:** " +:+ palette +:+ "

¿Te gustaría hacer alguna modificación? Puedo ajustar colores, materiales, agregar o quitar elementos, cambiar el estilo, etc." in
      let artifacts :=
        [ {| Artifact.type := "image";
             Artifact.title := "Diseño de Cocina v" +:+ pretty new_version;
             Artifact.image_data := Some image_base64;
             Artifact.content := None;
             Artifact.meta :=
               GeneratedMeta linear_meters shape style new_version |};
          {| Artifact.type := "specs";
             Artifact.title := "Especificaciones Técnicas";
             Artifact.image_data := None;
             Artifact.content := Some specs;
             Artifact.meta := EmptyMeta |} ] in
      match get_or (design_history state) (Some []) with
      | None => mthrow AttributeError
      | Some design_history =>
        let design_history :=
          design_history ++
          [ {| History.version := new_version;
               History.linear_meters := linear_meters;
               History.shape := shape;
               History.style := style;
               History.materials := materials |} ] in
        mret (set_response_text response_text
             (set_artifacts artifacts
             (set_current_image (Some image_base64)
             (set_design_version (Some new_version)
             (set_design_history (Some design_history) empty_dict)))))
      end
    end.

(** *** [_edit_design] *)

Definition _edit_design (state : KitchenState) : M KitchenState :=
  tell (Enter edit);;
  match get (current_image state) with
  | None | Some EmptyString => _generate_design state
  | Some current_image =>
    let messages := get_or (messages state) (Some []) in
    let edit_instructions :=
      match messages with
      | Some ((first :: _) as messages) =>
        get_or (Message.content (List.last messages first)) ""
      | _ => ""
      end in
    result ← edit_kitchen_image current_image edit_instructions;
    if negb (success result) then
      mret (set_response_text "Estoy regenerando el diseño con tus modificaciones..."
           (set_artifacts []
           (set_action (Some "generate") empty_dict)))
    else
      match get_or (images result) [] with
      | [] => _generate_design state
      | image_base64 :: _ =>
        new_version ← lift (succ_version (get_or (design_version state) (Some 0%Z)));
        let response_text :=
"## Diseño Actualizado - Versión " +:+ pretty new_version +:+ "

He aplicado las modificaciones solicitadas al diseño. 

¿Qué te parece? Puedo seguir ajustando cualquier detalle que necesites." in
        let artifacts :=
          [ {| Artifact.type := "image";
               Artifact.title := "Diseño de Cocina v" +:+ pretty new_version;
               Artifact.image_data := Some image_base64;
               Artifact.content := None;
               Artifact.meta := EditedMeta new_version |} ] in
        mret (set_response_text response_text
             (set_artifacts artifacts
             (set_current_image (Some image_base64)
             (set_design_version (Some new_version) empty_dict))))
      end
  end.

(** *** [_generate_response] and [_format_output] *)

Definition greeting : string :=
  "¡Hola! Soy KitchenMaster AI, tu experto en diseño de cocinas integrales. ¿En qué puedo ayudarte hoy?".

Definition _generate_response (state : KitchenState) : M KitchenState :=
  tell (Enter respond);;
  match get_or (messages state) (Some []) with
  | None | Some [] => mret (set_response_text greeting empty_dict)
  | Some ((first :: _) as messages) =>
    let chat_history :=
      (λ msg, {| Message.role := Some (get_or (Message.role msg) "user");
                 Message.content := Some (get_or (Message.content msg) "") |})
      <$> removelast messages in
    tell (StartChat chat_history);;
    lift (start_chat svc chat_history);;
    let last_message := get_or (Message.content (List.last messages first)) "" in
    tell (SendMessage last_message);;
    response ← lift (reply svc chat_history last_message);
    mret (set_response_text response (set_artifacts [] empty_dict))
  end.

Definition _format_output (state : KitchenState) : M KitchenState :=
  tell (Enter format_output);;
  mret (set_response_text (get_or (response_text state) "")
       (set_artifacts (get_or (artifacts state) []) empty_dict)).

(** *** The graph of [_build_graph] *)

(** A key written by a node replaces the stored value; a key the node
    leaves out keeps it. *)
Definition overwrite {A} (old new : entry A) : entry A :=
  match new with Some v => Some v | None => old end.

(** The reducer [operator.add] declared for [messages]. *)
Definition add_messages (old new : entry (nullable (list Message.t)))
  : entry (nullable (list Message.t)) :=
  match new with
  | None => old
  | Some new =>
    Some (match get old, new with
          | Some a, Some b => Some (a ++ b)
          | _, _ => new
          end)
  end.

Definition apply_updates (state updates : KitchenState) : KitchenState :=
  {| messages := add_messages (messages state) (messages updates);
     user_id := overwrite (user_id state) (user_id updates);
     conversation_id := overwrite (conversation_id state) (conversation_id updates);
     linear_meters := overwrite (linear_meters state) (linear_meters updates);
     shape := overwrite (shape state) (shape updates);
     style := overwrite (style state) (style updates);
     materials := overwrite (materials state) (materials updates);
     colors := overwrite (colors state) (colors updates);
     budget := overwrite (budget state) (budget updates);
     current_image := overwrite (current_image state) (current_image updates);
     design_version := overwrite (design_version state) (design_version updates);
     design_history := overwrite (design_history state) (design_history updates);
     action := overwrite (action state) (action updates);
     needs_clarification :=
       overwrite (needs_clarification state) (needs_clarification updates);
     questions := overwrite (questions state) (questions updates);
     response_text := overwrite (response_text state) (response_text updates);
     artifacts := overwrite (artifacts state) (artifacts updates);
     error := overwrite (error state) (error updates) |}.

(** [add_node]: the function behind each node. *)
Definition node_fn (n : node) : KitchenState → M KitchenState :=
  match n with
  | analyze => _analyze_input
  | clarify => _ask_clarification
  | generate => _generate_design
  | edit => _edit_design
  | respond => _generate_response
  | format_output => _format_output
  end.

(** The nodes of one run of the compiled graph, from the channel values
    [state] the run starts with: [analyze], the node [_route_action]
    selects, [format_output], then [END]. Each node receives the state with
    the updates of the nodes before it applied; a key bound to [None] stays
    a key of the state. *)
Definition invoke (state : KitchenState) : M KitchenState :=
  updates ← node_fn analyze state;
  let state := apply_updates state updates in
  updates ← node_fn (_route_action state) state;
  let state := apply_updates state updates in
  updates ← node_fn format_output state;
  mret (apply_updates state updates).

(** *** The checkpoint of a thread *)

(** [workflow.compile(checkpointer=self.memory)]: the channel values a run
    starts with are those the last run of the same thread has left
    ([checkpoint], the empty dictionary for a thread that has none),
    updated with the keys of the input. An input key replaces the stored
    value, also when it is bound to [None]. [messages] is declared with
    [operator.add]: its channel starts as the empty list and the input
    list is appended to what it holds, so a [None] raises [TypeError]
    before any node runs, and without the key the channel keeps what it
    holds. The channel holds a list at all times, so a checkpoint has a
    list under [messages], or nothing on a new thread. *)
Definition stored_messages (checkpoint : KitchenState) : list Message.t :=
  match get (messages checkpoint) with Some l => l | None => [] end.

Definition channels (checkpoint input : KitchenState) : Exc KitchenState :=
  let stored := stored_messages checkpoint in
  merged ←
    match messages input with
    | None => mret stored
    | Some (Some new) => mret (stored ++ new)
    | Some None => mthrow TypeError
    end;
  mret
    {| messages := Some (Some merged);
       user_id := overwrite (user_id checkpoint) (user_id input);
       conversation_id :=
         overwrite (conversation_id checkpoint) (conversation_id input);
       linear_meters := overwrite (linear_meters checkpoint) (linear_meters input);
       shape := overwrite (shape checkpoint) (shape input);
       style := overwrite (style checkpoint) (style input);
       materials := overwrite (materials checkpoint) (materials input);
       colors := overwrite (colors checkpoint) (colors input);
       budget := overwrite (budget checkpoint) (budget input);
       current_image := overwrite (current_image checkpoint) (current_image input);
       design_version :=
         overwrite (design_version checkpoint) (design_version input);
       design_history :=
         overwrite (design_history checkpoint) (design_history input);
       action := overwrite (action checkpoint) (action input);
       needs_clarification :=
         overwrite (needs_clarification checkpoint) (needs_clarification input);
       questions := overwrite (questions checkpoint) (questions input);
       response_text := overwrite (response_text checkpoint) (response_text input);
       artifacts := overwrite (artifacts checkpoint) (artifacts input);
       error := overwrite (error checkpoint) (error input) |}.

(** [self.graph.ainvoke(state, config)]: one turn of the thread [config]
    names. The state it returns is the checkpoint of the next turn of the
    thread. *)
Definition ainvoke (checkpoint input : KitchenState) : M KitchenState :=
  state ← lift (channels checkpoint input);
  invoke state.

(** *** [run] *)

Definition fresh_state (user_id conversation_id : string) : KitchenState :=
  {| messages := Some (Some []);
     user_id := Some user_id;
     conversation_id := Some conversation_id;
     linear_meters := Some None;
     shape := Some None;
     style := Some None;
     materials := Some (Some ∅);
     colors := Some (Some []);
     budget := Some None;
     current_image := Some None;
     design_version := Some (Some 0%Z);
     design_history := Some (Some []);
     action := Some None;
     needs_clarification := Some false;
     questions := Some (Some []);
     response_text := Some "";
     artifacts := Some [];
     error := Some None |}.

(** Whether a dictionary has a key at all ([existing_state or {...}]). *)
Definition has_keys (d : KitchenState) : bool :=
  bool_decide (is_Some (messages d)) || bool_decide (is_Some (user_id d))
  || bool_decide (is_Some (conversation_id d))
  || bool_decide (is_Some (linear_meters d)) || bool_decide (is_Some (shape d))
  || bool_decide (is_Some (style d)) || bool_decide (is_Some (materials d))
  || bool_decide (is_Some (colors d)) || bool_decide (is_Some (budget d))
  || bool_decide (is_Some (current_image d))
  || bool_decide (is_Some (design_version d))
  || bool_decide (is_Some (design_history d))
  || bool_decide (is_Some (action d))
  || bool_decide (is_Some (needs_clarification d))
  || bool_decide (is_Some (questions d))
  || bool_decide (is_Some (response_text d))
  || bool_decide (is_Some (artifacts d)) || bool_decide (is_Some (error d)).

(** The value [run] returns. *)
Record Reply : Type := {
  reply_text : string;
  reply_artifacts : list Artifact.t;
  reply_state : KitchenState }.

(** [run]. [checkpoint] is what [self.memory] holds for the thread
    [user_id:conversation_id] when the graph is invoked: [chat] keeps one
    agent for each user, so a later turn of a conversation finds the state
    its last turn returned, and the first turn (or the turn after a
    restart) the empty dictionary. *)
Definition run (user_message user_id conversation_id : string)
    (existing_state : nullable KitchenState) (checkpoint : KitchenState)
  : M Reply :=
  let state :=
    match existing_state with
    | Some s => if has_keys s then s else fresh_state user_id conversation_id
    | None => fresh_state user_id conversation_id
    end in
  new_messages ←
    match get_or (messages state) (Some []) with
    | Some l =>
      mret (l ++ [ {| Message.role := Some "user";
                      Message.content := Some user_message |} ])
    | None => mthrow TypeError
    end;
  let state := set_messages (Some new_messages) state in
  result ← ainvoke checkpoint state;
  mret {| reply_text := get_or (response_text result) "";
          reply_artifacts := get_or (artifacts result) [];
          reply_state :=
            set_linear_meters (get (linear_meters result))
            (set_shape (get (shape result))
            (set_style (get (style result))
            (set_materials (get (materials result))
            (set_colors (get (colors result))
            (set_budget (get (budget result))
            (set_current_image (get (current_image result))
            (set_design_version (get (design_version result))
            (set_design_history (get (design_history result))
            (set_messages (get (messages result)) empty_dict))))))))) |}.

End Agent.

(** ** [GeminiReasoner.analyze_request] ([tools.py]) *)

(** [s.find(c)] and [s.rfind(c)] for a one-character [c]: the lowest and
    the highest index of [c] in [s], or -1. A [string] holds the bytes of
    the UTF-8 text; the characters the program searches are ASCII, which
    UTF-8 never uses inside a longer sequence, so the slice between two
    of them holds the text Python's slice holds. *)
Fixpoint str_find (c : Ascii.ascii) (s : string) : Z :=
  match s with
  | EmptyString => (-1)%Z
  | String a s' =>
    if bool_decide (a = c) then 0%Z
    else
      let i := str_find c s' in
      if bool_decide (i = (-1)%Z) then (-1)%Z else (i + 1)%Z
  end.

Fixpoint str_rfind (c : Ascii.ascii) (s : string) : Z :=
  match s with
  | EmptyString => (-1)%Z
  | String a s' =>
    let i := str_rfind c s' in
    if bool_decide (i = (-1)%Z)
    then (if bool_decide (a = c) then 0%Z else (-1)%Z)
    else (i + 1)%Z
  end.

(** [s[i:j]] for indices that are not negative. *)
Definition str_slice (s : string) (i j : Z) : string :=
  String.substring (Z.to_nat i) (Z.to_nat (j - i)) s.

(** The double quote. *)
Definition dq : string := String (Ascii.ascii_of_nat 34) EmptyString.

(** The answer [analyze_request] returns when it finds no JSON in the
    reply, or [json.loads] rejects what it found. *)
Definition fallback_question : string :=
  "¿Podrías proporcionar más detalles sobre tu cocina ideal?".

Definition fallback_analysis : Analysis.t :=
  {| Analysis.action := Some (Some "question");
     Analysis.linear_meters := None;
     Analysis.shape := None;
     Analysis.style := None;
     Analysis.materials := None;
     Analysis.colors := None;
     Analysis.budget := None;
     Analysis.questions_to_ask := Some (Some [fallback_question]) |}.

Section Reasoner.

(** [str(context)] of the context dictionary, as the f-string renders
    it. *)
Variable context_repr : Context.t → string.

(** [send_message]: the reply of the Reasoning Service to a prompt, or
    the exception the call raises. *)
Variable send_message : string → Exc string.

(** [json.loads] on a text that starts with an opening brace: the object
    it holds, read at the keys the agent reads, or [None] when it raises
    [JSONDecodeError]. *)
Variable json_loads : string → option Analysis.t.

(** The f-string of lines 180-203. [context or 'Ninguno'] takes the
    context unless it is [None] or empty; the context the agent passes
    always has its six keys. *)
Definition analysis_prompt (user_message : string)
    (context : nullable Context.t) : string :=
  let context_text :=
    match context with
    | Some c => context_repr c
    | None => "Ninguno"
    end in
  "Analiza el siguiente mensaje del usuario y extrae los parámetros de diseño de cocina.
Si algún parámetro no se menciona, devuelve null para ese campo.

Mensaje del usuario: " +:+ dq +:+ user_message +:+ dq +:+
  "

Contexto previo: " +:+ context_text +:+
  "

Responde SOLO con un JSON válido con esta estructura:
{
    " +:+ dq +:+ "action" +:+ dq +:+ ": " +:+ dq +:+ "generate" +:+ dq +:+
  " | " +:+ dq +:+ "edit" +:+ dq +:+ " | " +:+ dq +:+ "question" +:+ dq +:+
  " | " +:+ dq +:+ "clarification" +:+ dq +:+
  ",
    " +:+ dq +:+ "linear_meters" +:+ dq +:+
  ": number | null,
    " +:+ dq +:+ "shape" +:+ dq +:+ ": " +:+ dq +:+ "I" +:+ dq +:+ " | " +:+
  dq +:+ "L" +:+ dq +:+ " | " +:+ dq +:+ "U" +:+ dq +:+ " | " +:+ dq +:+ "G" +:+
  dq +:+ " | " +:+ dq +:+ "parallel" +:+ dq +:+
  " | null,
    " +:+ dq +:+ "style" +:+ dq +:+ ": " +:+ dq +:+ "modern" +:+ dq +:+ " | " +:+
  dq +:+ "classic" +:+ dq +:+ " | " +:+ dq +:+ "rustic" +:+ dq +:+ " | " +:+
  dq +:+ "minimalist" +:+ dq +:+ " | " +:+ dq +:+ "industrial" +:+ dq +:+
  " | " +:+ dq +:+ "scandinavian" +:+ dq +:+ " | " +:+ dq +:+ "contemporary" +:+
  dq +:+
  " | null,
    " +:+ dq +:+ "materials" +:+ dq +:+
  ": {
        " +:+ dq +:+ "cabinets" +:+ dq +:+
  ": string | null,
        " +:+ dq +:+ "countertop" +:+ dq +:+
  ": string | null,
        " +:+ dq +:+ "backsplash" +:+ dq +:+
  ": string | null
    },
    " +:+ dq +:+ "colors" +:+ dq +:+
  ": [string] | null,
    " +:+ dq +:+ "budget" +:+ dq +:+ ": " +:+ dq +:+ "low" +:+ dq +:+ " | " +:+
  dq +:+ "medium" +:+ dq +:+ " | " +:+ dq +:+ "high" +:+ dq +:+ " | " +:+ dq +:+
  "premium" +:+ dq +:+
  " | null,
    " +:+ dq +:+ "edit_instructions" +:+ dq +:+
  ": string | null,
    " +:+ dq +:+ "questions_to_ask" +:+ dq +:+
  ": [string] | null,
    " +:+ dq +:+ "special_requirements" +:+ dq +:+
  ": string | null
}".

(** Lines 211-214: the text handed to [json.loads], from the first opening
    brace to the last closing brace of the reply. *)
Definition json_span (response : string) : option string :=
  let json_start := str_find "{"%char response in
  let json_end := (str_rfind "}"%char response + 1)%Z in
  if bool_decide (json_start ≠ (-1)%Z) && bool_decide (json_start < json_end)%Z
  then Some (str_slice response json_start json_end)
  else None.

(** [analyze_request]: the parsed object when the span is there and
    parses, the fallback otherwise; an exception of [send_message] is not
    caught. *)
Definition reasoner_analyze_request (user_message : string)
    (context : nullable Context.t) : Exc Analysis.t :=
  response ← send_message (analysis_prompt user_message context);
  mret (match json_span response ≫= json_loads with
        | Some analysis => analysis
        | None => fallback_analysis
        end).

End Reasoner.

(** The services of an agent whose classifier is [GeminiReasoner]. *)
Definition reasoner_services (context_repr : Context.t → string)
    (send_message : string → Exc string)
    (json_loads : string → option Analysis.t)
    (replay : list Message.t → Exc ())
    (chat : list Message.t → string → Exc string)
    (generate : string → ImageResult)
    (edit : string → string → ImageResult) : Services :=
  {| analyze_request := λ user_message context,
       reasoner_analyze_request context_repr send_message json_loads
         user_message (Some context);
     start_chat := replay;
     reply := chat;
     generate_image := generate;
     edit_image := edit |}.

(** ** What [chat] stores of a turn ([api/chat.py],
    [services/conversation.py]) *)

(** The [parameters] of a design iteration: the dictionary [chat] builds
    from the returned state, or the empty dictionary. *)
Inductive parameters : Type :=
| NoParameters
| DesignParameters (linear_meters : nullable number) (shape style : nullable string).

(** A row of the table [design_iterations]; the columns [id] and
    [created_at] have defaults that no code reads. [image_data] holds the
    text of the image, which [chat] stores as its bytes. *)
Module DesignIteration.
Record t : Type := {
  conversation_id : string;
  parent_iteration_id : nullable string;
  prompt_used : string;
  image_data : nullable string;
  image_url : nullable string;
  params : parameters;
  version : nullable Z }.
End DesignIteration.

(** [func.max] over a column: [NULL] entries are skipped, and the result
    is [NULL] when no value is left. *)
Definition sql_max (column : list (nullable Z)) : nullable Z :=
  foldr (λ v acc,
           match v, acc with
           | Some a, Some b => Some (Z.max a b)
           | Some a, None => Some a
           | None, _ => acc
           end) None column.

(** [ConversationService.save_design_iteration]: the rows after the
    commit, and the row added. The SELECT and the INSERT are two
    statements with an [await] between them, under no lock: [seen] holds
    the rows the SELECT read and [table] the rows the INSERT is added to,
    which are the same rows only when no other request has committed in
    between. The table has no unique constraint on the version.
    [max_version] is [result.scalar() or 0]. *)
Definition save_design_iteration (seen table : list DesignIteration.t)
    (conversation_id prompt : string) (image_data image_url : nullable string)
    (parameters : nullable parameters) (parent_id : nullable string)
  : list DesignIteration.t * DesignIteration.t :=
  let result :=
    sql_max (DesignIteration.version
             <$> filter (λ it, DesignIteration.conversation_id it = conversation_id)
                   seen) in
  let max_version :=
    match result with
    | Some v => if bool_decide (v = 0%Z) then 0%Z else v
    | None => 0%Z
    end in
  let iteration :=
    {| DesignIteration.conversation_id := conversation_id;
       DesignIteration.parent_iteration_id := parent_id;
       DesignIteration.prompt_used := prompt;
       DesignIteration.image_data := image_data;
       DesignIteration.image_url := image_url;
       DesignIteration.params :=
         match parameters with Some p => p | None => NoParameters end;
       DesignIteration.version := Some (max_version + 1)%Z |} in
  (table ++ [iteration], iteration).

Section Chat.

Variable float_repr : float → string.

(** A value read with [.get(key, "")] and printed by an f-string. *)
Definition printed_number (e : entry (nullable number)) : string :=
  match e with Some v => fmt_number float_repr v | None => "" end.

Definition printed (e : entry (nullable string)) : string :=
  match e with Some v => str_of v | None => "" end.

(** Lines 122-149 of [chat], on the value [run] returned: the rows of
    [design_iterations] afterwards, and the new title of the conversation
    if it is updated. The state written to Redis in between is the
    returned state as it is. [seen] and [table] are those of
    [save_design_iteration]. *)
Definition chat_persist (seen table : list DesignIteration.t)
    (conversation_id message : string) (result : Reply)
  : list DesignIteration.t * nullable string :=
  let state := reply_state result in
  let table :=
    if truthy truthy_str (get (current_image state))
    then (save_design_iteration seen table conversation_id message
            (get (current_image state)) None
            (Some (DesignParameters (get (linear_meters state))
                     (get (shape state)) (get (style state))))
            None).1
    else table in
  let new_title :=
    if bool_decide (get (design_version state) = Some 1%Z)
    then
      let linear_m := printed_number (linear_meters state) in
      let shape := printed (shape state) in
      let style := printed (style state) in
      Some ("Cocina " +:+ style +:+ " " +:+ shape +:+ " - " +:+ linear_m +:+ "m")
    else None in
  (table, new_title).

End Chat.

(** * Properties *)

(** ** Vocabulary of the statements *)

(** [doc] ends with [suffix]. *)
Definition ends_with (suffix doc : string) : Prop :=
  ∃ body, doc = body +:+ suffix.

(** The Image Service gave no image: it reported failure, or success with
    an empty sequence. *)
Definition no_image (r : ImageResult) : Prop :=
  success r = false ∨ images r = Some [].

(** The two texts [_generate_design] answers with when no image came, and
    the error it records with each. *)
Definition apology (text e : string) : Prop :=
  text = "Lo siento, hubo un problema al generar la imagen: " +:+ e
         +:+ ". ¿Podrías intentarlo de nuevo?"
  ∨ (text = "No se pudo generar la imagen. Por favor intenta de nuevo."
     ∧ e = "No images generated").

(** The materials [_generate_design] falls back on when the key is
    absent. *)
Definition defaults_materials : gmap string string :=
  <["cabinets" := "lacquered MDF"]>
  (<["countertop" := "quartz"]> (<["backsplash" := "ceramic tiles"]> ∅)).

(** What [_edit_design] returns when the edit call reports failure. *)
Definition edit_failure_text : string :=
  "Estoy regenerando el diseño con tus modificaciones...".

Definition edit_failure_updates : KitchenState :=
  set_response_text edit_failure_text
    (set_artifacts [] (set_action (Some "generate") empty_dict)).

(** The question [_analyze_input] asks when a generation lacks the linear
    size. *)
Definition size_question : string :=
  "¿Cuántos metros lineales tiene disponibles para su cocina?".

(** [if analysis.get(k): updates[k] = analysis[k]]: the binding the
    update dictionary receives for an extracted value. *)
Definition keep {A} (t : A → bool) (v : nullable A) : entry (nullable A) :=
  if truthy t v then Some v else None.

(** The update dictionary of [_analyze_input] in closed form, for a
    classifier answer [an] and the binding [mats] computed for
    [materials]. *)
Definition analysis_updates (st : KitchenState) (an : Analysis.t)
    (mats : entry (nullable (gmap string string))) : KitchenState :=
  let act := get_or (Analysis.action an) (Some "respond") in
  let ask_size :=
    bool_decide (act = Some "generate")
    && negb (truthy truthy_number (get (Analysis.linear_meters an)))
    && negb (truthy truthy_number (get (linear_meters st))) in
  {| messages := None; user_id := None; conversation_id := None;
     linear_meters := keep truthy_number (get (Analysis.linear_meters an));
     shape := keep truthy_str (get (Analysis.shape an));
     style := keep truthy_str (get (Analysis.style an));
     materials := mats;
     colors := keep truthy_list (get (Analysis.colors an));
     budget := keep truthy_str (get (Analysis.budget an));
     current_image := None; design_version := None; design_history := None;
     action := Some act;
     needs_clarification :=
       Some (if ask_size then true
             else bool_decide (get (Analysis.action an) = Some "clarification"));
     questions :=
       Some (if ask_size then Some [size_question]
             else get_or (Analysis.questions_to_ask an) (Some []));
     response_text := None; artifacts := None; error := None |}.

(** The request [_analyze_input] sends: the content of the last message
    and the context read from the state. *)
Definition last_content (first : Message.t) (rest : list Message.t) : string :=
  get_or (Message.content (List.last (first :: rest) first)) "".

Definition context_of (st : KitchenState) : Context.t :=
  {| Context.linear_meters := get (linear_meters st);
     Context.shape := get (shape st);
     Context.style := get (style st);
     Context.materials := get (materials st);
     Context.has_current_design := bool_decide (get (current_image st) ≠ None);
     Context.design_version := get_or (design_version st) (Some 0%Z) |}.

(** Additive merge of one parameter: a null (or absent) extracted value
    keeps the stored binding, the binding changes only to a non-null
    extracted value, and an extracted value that Python counts as true
    does replace it. *)
Definition additive {A} (t : A → bool) (extracted : nullable A)
    (old new : entry (nullable A)) : Prop :=
  (extracted = None → new = old)
  ∧ (new = old ∨ (extracted ≠ None ∧ new = Some extracted))
  ∧ (truthy t extracted = true → new = Some extracted).

(** Key-by-key merge of the materials: an extracted key with a non-empty
    value takes it, every other key keeps the stored value. *)
Definition merged_by_key (extracted : gmap string (nullable string))
    (stored merged : gmap string string) : Prop :=
  ∀ k, merged !! k
       = match extracted !! k with
         | Some (Some v) => if truthy_str v then Some v else stored !! k
         | _ => stored !! k
         end.

(** ** Inputs of the examples *)

(** The only float the examples format is [3.0], which Python prints as
    ["3.0"]. *)
Definition repr_3_0 : float → string := λ _, "3.0".

Definition user_says (text : string) : Message.t :=
  {| Message.role := Some "user"; Message.content := Some text |}.

(** The state [run] hands to the graph on the first turn of a
    conversation. *)
Definition first_turn (text : string) : KitchenState :=
  set_messages (Some [user_says text]) (fresh_state "u1" "c1").

(** A first turn on which the state already holds a linear size of 3.0 m,
    the shape L, and the given style and budget. *)
Definition sized (style budget : nullable string) (text : string)
  : KitchenState :=
  set_linear_meters (Some (Float 3.0))
  (set_shape (Some "L")
  (set_style style
  (set_budget budget (first_turn text)))).

(** The history entry of a first design of 3.0 m in L. *)
Definition first_design : History.t :=
  {| History.version := 1;
     History.linear_meters := Some (Float 3.0);
     History.shape := Some "L";
     History.style := Some "modern";
     History.materials := Some ∅ |}.

(** The state of a later turn, after one design was generated: version 1,
    one history entry, an image. *)
Definition designed (text : string) : KitchenState :=
  set_messages (Some [user_says "cocina de 3 metros en L"; user_says text])
  (set_linear_meters (Some (Float 3.0))
  (set_shape (Some "L")
  (set_style (Some "modern")
  (set_current_image (Some "IMG1")
  (set_design_version (Some 1%Z)
  (set_design_history (Some [first_design])
     (fresh_state "u1" "c1"))))))).

(** A classifier answer that holds an action, a linear size, a shape and
    a budget, and [null] for every other key. *)
Definition classified (action : nullable string) (linear_meters : nullable number)
    (shape budget : nullable string) : Analysis.t :=
  {| Analysis.action := Some action;
     Analysis.linear_meters := Some linear_meters;
     Analysis.shape := Some shape;
     Analysis.style := Some None;
     Analysis.materials := Some None;
     Analysis.colors := Some None;
     Analysis.budget := Some budget;
     Analysis.questions_to_ask := Some None |}.

(** Services that give the same answers to every request. *)
Definition services (an : Analysis.t) (generated edited : ImageResult)
  : Services :=
  {| analyze_request := λ _ _, inr an;
     start_chat := λ _, inr ();
     reply := λ _ _, inr "Claro.";
     generate_image := λ _, generated;
     edit_image := λ _ _, edited |}.

(** ** Vocabulary of the further properties *)

(** The updates of a node leave the design state alone. *)
Definition quiet (u : KitchenState) : Prop :=
  design_version u = None ∧ current_image u = None ∧ design_history u = None.

(** The updates of a node write no design parameter, no message and no
    identity. *)
Definition frame (u : KitchenState) : Prop :=
  messages u = None ∧ user_id u = None ∧ conversation_id u = None
  ∧ linear_meters u = None ∧ shape u = None ∧ style u = None
  ∧ materials u = None ∧ colors u = None ∧ budget u = None.

(** The updates [u] of a node run on [st] are those of a generation whose
    image arrived: the version read from [st] plus one, the first image,
    and the history of [st] with one entry of that version appended. *)
Definition generated (svc : Services) (st : KitchenState) (l : list event)
    (u : KitchenState) : Prop :=
  ∃ p img imgs pu n hist entry,
    GenerateImage p ∈ l
    ∧ generate_image svc p = ImageSuccess (img :: imgs) pu
    ∧ get_or (design_version st) (Some 0%Z) = Some n
    ∧ get_or (design_history st) (Some []) = Some hist
    ∧ History.version entry = (n + 1)%Z
    ∧ design_version u = Some (Some (n + 1)%Z)
    ∧ current_image u = Some (Some img)
    ∧ design_history u = Some (Some (hist ++ [entry])).

(** The updates [u] are those of an edit whose image arrived: the version
    plus one, the first image, and no write to the history. *)
Definition edited (svc : Services) (st : KitchenState) (l : list event)
    (u : KitchenState) : Prop :=
  ∃ base instr img imgs pu n,
    EditImage base instr ∈ l
    ∧ edit_image svc base instr = ImageSuccess (img :: imgs) pu
    ∧ get_or (design_version st) (Some 0%Z) = Some n
    ∧ design_version u = Some (Some (n + 1)%Z)
    ∧ current_image u = Some (Some img)
    ∧ design_history u = None.

#[global] Instance node_eq_dec : EqDecision node.
Proof. solve_decision. Defined.

(** The events a list of events holds, by kind. *)
Definition is_generation (e : event) : bool :=
  match e with GenerateImage _ => true | _ => false end.
Definition is_edit (e : event) : bool :=
  match e with EditImage _ _ => true | _ => false end.
Definition is_analysis (e : event) : bool :=
  match e with AnalyzeRequest _ _ => true | _ => false end.
Definition is_send (e : event) : bool :=
  match e with SendMessage _ => true | _ => false end.
Definition is_entry (n : node) (e : event) : bool :=
  match e with Enter m => bool_decide (m = n) | _ => false end.
Definition count (f : event → bool) (log : list event) : nat :=
  length (List.filter f log).

(** The logs [_generate_design] can leave, and those of the four branches
    of the router. *)
Definition generate_log (l : list event) : Prop :=
  l = [Enter generate] ∨ ∃ p, l = [Enter generate; GenerateImage p].

Definition branch_log (l : list event) : Prop :=
  l = [Enter clarify]
  ∨ l = [Enter respond]
  ∨ (∃ h, l = [Enter respond; StartChat h]
          ∨ ∃ m, l = [Enter respond; StartChat h; SendMessage m])
  ∨ generate_log l
  ∨ (∃ lg, generate_log lg ∧ l = Enter edit :: lg)
  ∨ (∃ b i, l = [Enter edit; EditImage b i])
  ∨ (∃ b i lg, generate_log lg ∧ l = Enter edit :: EditImage b i :: lg).

(** The three keys the image prompt reads from a non-empty materials
    dictionary, and the first of them a dictionary lacks. *)
Definition required_materials : list string :=
  ["cabinets"; "countertop"; "backsplash"].

Definition first_missing (m : gmap string string) : option string :=
  head (List.filter (λ k, bool_decide (m !! k = None)) required_materials).

(** The key whose absence stops [_generate_design] on a state, if any: the
    materials in effect are a non-empty dictionary that lacks it. *)
Definition missing_material (st : KitchenState) : option string :=
  match get_or (materials st) (Some defaults_materials) with
  | Some m => if truthy_dict m then first_missing m else None
  | None => None
  end.

(** [chat_history] of [_generate_response]: every message but the last,
    with the defaults of [msg.get] filled in. *)
Definition history_of (messages : list Message.t) : list Message.t :=
  (λ msg, {| Message.role := Some (get_or (Message.role msg) "user");
             Message.content := Some (get_or (Message.content msg) "") |})
  <$> removelast messages.

(** The question [_ask_clarification] falls back on when it is given no
    question and the state lacks none of the three parameters it checks. *)
Definition details_question : string :=
  "¿Podrías darme más detalles sobre lo que te gustaría modificar?".

(** The instructions [_edit_design] hands to the Image Service: the
    content of the last message, or the empty text without a message. *)
Definition edit_instructions_of (st : KitchenState) : string :=
  match get_or (messages st) (Some []) with
  | Some (first :: rest) => last_content first rest
  | _ => ""
  end.

(** The messages an input adds to the channel: its list, or nothing
    without the key. *)
Definition input_messages (input : KitchenState) : list Message.t :=
  match messages input with Some (Some new) => new | _ => [] end.

(** The state holds every key the context of the classifier reads. *)
Definition has_context (st : KitchenState) : Prop :=
  is_Some (linear_meters st) ∧ is_Some (shape st) ∧ is_Some (style st)
  ∧ is_Some (materials st) ∧ is_Some (current_image st)
  ∧ is_Some (design_version st).

(** The state [run] starts from: the one handed in, unless it is [None]
    or an empty dictionary. *)
Definition start_state (user_id conversation_id : string)
    (existing_state : nullable KitchenState) : KitchenState :=
  match existing_state with
  | Some s => if has_keys s then s else fresh_state user_id conversation_id
  | None => fresh_state user_id conversation_id
  end.

(** Whether a character occurs in a text. *)
Fixpoint occurs (c : Ascii.ascii) (s : string) : bool :=
  match s with
  | EmptyString => false
  | String a s' => bool_decide (a = c) || occurs c s'
  end.

(** The lists of standard modules [_generate_specs] can place: the sink,
    the cooktop and the refrigerator, in that order. *)
Definition standard_layouts : list (list string) :=
  [ [];
    ["1x Módulo fregadero (90cm)"];
    ["1x Módulo estufa/parrilla (60cm)"];
    ["1x Módulo fregadero (90cm)"; "1x Módulo estufa/parrilla (60cm)"];
    ["1x Módulo estufa/parrilla (60cm)"; "1x Módulo refrigerador (60cm)"];
    ["1x Módulo fregadero (90cm)"; "1x Módulo estufa/parrilla (60cm)";
     "1x Módulo refrigerador (60cm)"] ].

(** The line of a storage module of [width], present when its count is
    positive. *)
Definition storage_line (count : Z) (width : string) : list string :=
  if (0 <? count)%Z
  then [pretty count +:+ "x Módulo almacenamiento (" +:+ width +:+ ")"]
  else [].

(** ** Inputs of the further examples *)

(** Services of a turn classified as a generation of 3.0 m in L whose
    image arrives, as an edit whose image arrives, and as a question. *)
Definition generating : Services :=
  services (classified (Some "generate") (Some (Float 3.0)) (Some "L") None)
    (ImageSuccess ["IMG1"] "p") (ImageFailure "unused").

Definition editing : Services :=
  services (classified (Some "edit") None None None)
    (ImageFailure "unused") (ImageSuccess ["IMG2"] "p").

Definition asking : Services :=
  services (classified (Some "question") None None None)
    (ImageFailure "unused") (ImageFailure "unused").

(** Services of a turn classified as a generation that names the shape
    but no linear size. *)
Definition unsized : Services :=
  services (classified (Some "generate") None (Some "L") None)
    (ImageFailure "unused") (ImageFailure "unused").

(** Services of a first turn classified as an edit: the edit node hands
    over to the generation, whose image arrives. *)
Definition editing_first : Services :=
  services (classified (Some "edit") None None None)
    (ImageSuccess ["IMG1"] "p") (ImageFailure "unused").

(** A classifier whose reply holds no JSON. *)
Definition mute : Services :=
  reasoner_services (λ _, "{}") (λ _, inr "No entiendo.") (λ _, None)
    (λ _, inr ()) (λ _ _, inr "Claro.") (λ _, ImageFailure "unused")
    (λ _ _, ImageFailure "unused").

(** Services whose chat is out of reach: the classifier answers, the
    replay of the history passes, the message raises. *)
Definition unreachable : Services :=
  {| analyze_request := λ _ _, inr (classified (Some "question") None None None);
     start_chat := λ _, inr ();
     reply := λ _ _, inl (ServiceError "503 UNAVAILABLE");
     generate_image := λ _, ImageFailure "unused";
     edit_image := λ _ _, ImageFailure "unused" |}.

(** A classifier answer that names a new countertop, no cabinets, and
    nothing else. *)
Definition new_countertop : Analysis.t :=
  {| Analysis.action := Some (Some "question");
     Analysis.linear_meters := Some None;
     Analysis.shape := Some None;
     Analysis.style := Some None;
     Analysis.materials :=
       Some (Some (<["countertop" := Some "granito"]>
                  (<["cabinets" := None]> ∅)));
     Analysis.colors := Some None;
     Analysis.budget := Some None;
     Analysis.questions_to_ask := Some None |}.

(** The designed kitchen, with cabinets of oak and a countertop of quartz
    stored. *)
Definition furnished (text : string) : KitchenState :=
  set_materials
    (Some (<["cabinets" := "roble"]> (<["countertop" := "cuarzo"]> ∅)))
    (designed text).

(** The checkpoint that a first turn "hola", answered by the chat, leaves
    to its thread. *)
Definition greeted : KitchenState :=
  match (ainvoke repr_3_0 asking empty_dict (first_turn "hola")).2 with
  | inr final => final
  | inl _ => empty_dict
  end.

(** The state [run] hands to the graph on the second turn of that
    conversation: the messages it returned, and the new one. *)
Definition second_turn (text : string) : KitchenState :=
  set_messages (Some [user_says "hola"; user_says text])
    (fresh_state "u1" "c1").

(** ** Reasoning about [M] *)

Lemma bind_tell {B} (e : event) (f : () → M B) :
  tell e ≫= f = (e :: (f ()).1, (f ()).2).
Proof. reflexivity. Qed.

Lemma bind_lift {A B} (x : Exc A) (f : A → M B) :
  lift x ≫= f = match x with inl e => ([], inl e) | inr a => f a end.
Proof. destruct x as [e|a]; [done|]. cbv. by destruct (f a). Qed.

Lemma bind_ret {A B} (a : A) (f : A → M B) : mret a ≫= f = f a.
Proof. apply (bind_lift (inr a)). Qed.

Lemma bind_throw {A B} (e : exn) (f : A → M B) : mthrow e ≫= f = ([], inl e).
Proof. reflexivity. Qed.

Lemma bind_pair {A B} l (x : Exc A) (f : A → M B) :
  (l, x) ≫= f
  = match x with
    | inl e => (l, inl e)
    | inr a => (l ++ (f a).1, (f a).2)
    end.
Proof. by destruct x. Qed.

#[global] Arguments M_bind : simpl never.
#[global] Arguments mbind : simpl never.

(** Membership of an event in an explicit log. *)
Ltac in_log H :=
  cbn [fst snd app] in H;
  repeat match type of H with
         | _ ∈ _ :: _ => apply elem_of_cons in H as [H|H]
         | _ ∈ [] => by apply elem_of_nil in H
         end.

(** ** Texts *)

Lemma ends_with_refl s : ends_with s s.
Proof. by exists "". Qed.

Lemma ends_with_app s a d : ends_with s d → ends_with s (a +:+ d).
Proof.
  intros [body ->]. exists (a +:+ body).
  induction a as [|c a IH]; [done|].
  change (String c (a +:+ body +:+ s) = String c ((a +:+ body) +:+ s)).
  by f_equal.
Qed.

Ltac ends_with := repeat first [apply ends_with_refl | apply ends_with_app].

(** ** The technical specification (C3, C7) *)

Section SpecsFacts.

Variable float_repr : float → string.

(** The lookup the cost line performs always finds the medium band. *)
Lemma cost_lookup :
  default "$30,000 - $50,000 MXN" (cost_ranges !! "medium")
  = "$25,000 - $45,000 MXN".
Proof. reflexivity. Qed.

(** Whatever the inputs, the document closes with the cost section of the
    medium band: the lookup key is the constant ["medium"]. *)
Lemma generate_specs_cost_section linear_meters shape style materials doc :
  _generate_specs float_repr linear_meters shape style materials = inr doc →
  ends_with (cost_section "$25,000 - $45,000 MXN") doc.
Proof.
  unfold _generate_specs.
  destruct (pack_modules linear_meters) as [e|[[modules s60] s40]]; [done|].
  destruct materials as [m|]; [|done].
  cbn -[String.append cost_section cost_ranges].
  intros [= <-]. rewrite cost_lookup. ends_with.
Qed.

(** The style handed to the algorithm is never read. *)
Lemma generate_specs_ignores_style linear_meters shape materials style1 style2 :
  _generate_specs float_repr linear_meters shape style1 materials
  = _generate_specs float_repr linear_meters shape style2 materials.
Proof. reflexivity. Qed.

End SpecsFacts.

(** C7: the packing of 3.0 m is sink, cooktop, refrigerator, one 60 cm
    storage module and no 40 cm one; the packing of 1.0 m is the sink
    alone, with no storage module. *)
Theorem pack_modules_examples :
  pack_modules (Some (Float 3.0))
  = inr (["1x Módulo fregadero (90cm)";
          "1x Módulo estufa/parrilla (60cm)";
          "1x Módulo refrigerador (60cm)";
          "1x Módulo almacenamiento (60cm)"], 1%Z, 0%Z)
  ∧ pack_modules (Some (Float 1.0))
    = inr (["1x Módulo fregadero (90cm)"], 0%Z, 0%Z).
Proof. split; vm_compute; reflexivity. Qed.

(** Rounding matters: at 3.3 m the three subtractions leave
    1.1999999999999997, so one 60 cm module is placed, not two. *)
Example pack_modules_3_3 :
  pack_modules (Some (Float 3.3))
  = inr (["1x Módulo fregadero (90cm)";
          "1x Módulo estufa/parrilla (60cm)";
          "1x Módulo refrigerador (60cm)";
          "1x Módulo almacenamiento (60cm)";
          "1x Módulo almacenamiento (40cm)"], 1%Z, 1%Z).
Proof. vm_compute. reflexivity. Qed.

(** ** The nodes, case by case *)

Section AgentFacts.

Variable float_repr : float → string.
Variable svc : Services.

(** The prompt is built and the Image Service called, unless a non-empty
    materials dictionary lacks one of the three keys the prompt reads. *)
Lemma generate_kitchen_image_cases lm shape style materials colors :
  (∃ k, generate_kitchen_image float_repr svc lm shape style materials colors
        = ([], inl (KeyError k)))
  ∨ (∃ p, generate_kitchen_image float_repr svc lm shape style materials colors
          = ([GenerateImage p], inr (generate_image svc p))).
Proof.
  unfold generate_kitchen_image.
  set (m := if truthy truthy_dict materials then _ else _).
  unfold subscript.
  destruct (m !! "cabinets"); [|left; by eexists].
  destruct (m !! "countertop"); [|left; by eexists].
  destruct (m !! "backsplash"); [|left; by eexists].
  right. by eexists.
Qed.

Lemma generate_specs_needs_materials lm sh sty specs :
  _generate_specs float_repr lm sh sty None = inr specs → False.
Proof.
  unfold _generate_specs. by destruct (pack_modules lm) as [?|[[??]?]].
Qed.

(** [_generate_design], outcome by outcome. *)
Lemma generate_design_cases st :
  (∃ k, _generate_design float_repr svc st = ([Enter generate], inl (KeyError k)))
  ∨ (∃ p out,
       _generate_design float_repr svc st
       = ([Enter generate; GenerateImage p], out)
       ∧ match generate_image svc p with
         | ImageFailure e =>
           out = inr (set_response_text
                        ("Lo siento, hubo un problema al generar la imagen: "
                         +:+ e +:+ ". ¿Podrías intentarlo de nuevo?")
                     (set_artifacts [] (set_error (Some e) empty_dict)))
         | ImageSuccess [] _ =>
           out = inr (set_response_text
                        "No se pudo generar la imagen. Por favor intenta de nuevo."
                     (set_artifacts []
                     (set_error (Some "No images generated") empty_dict)))
         | ImageSuccess (img :: _) _ =>
           let linear_meters := get_or (linear_meters st) (Some (Float 3.0)) in
           let shape := get_or (shape st) (Some "L") in
           let style := get_or (style st) (Some "modern") in
           let materials := get_or (materials st) (Some defaults_materials) in
           match get_or (design_version st) (Some 0%Z) with
           | None => out = inl TypeError
           | Some n =>
             match _generate_specs float_repr linear_meters shape style materials with
             | inl e => out = inl e
             | inr specs =>
               match get_or (colors st) (Some ["white"; "gray"]) with
               | None => out = inl TypeError
               | Some _ =>
                 match get_or (design_history st) (Some []) with
                 | None => out = inl AttributeError
                 | Some hist =>
                   ∃ text title,
                     out = inr
                       (set_response_text text
                       (set_artifacts
                          [ {| Artifact.type := "image";
                               Artifact.title := title;
                               Artifact.image_data := Some img;
                               Artifact.content := None;
                               Artifact.meta :=
                                 GeneratedMeta linear_meters shape style (n + 1)%Z |};
                            {| Artifact.type := "specs";
                               Artifact.title := "Especificaciones Técnicas";
                               Artifact.image_data := None;
                               Artifact.content := Some specs;
                               Artifact.meta := EmptyMeta |} ]
                       (set_current_image (Some img)
                       (set_design_version (Some (n + 1)%Z)
                       (set_design_history
                          (Some (hist ++
                             [ {| History.version := (n + 1)%Z;
                                  History.linear_meters := linear_meters;
                                  History.shape := shape;
                                  History.style := style;
                                  History.materials := materials |} ]))
                          empty_dict)))))
                 end
               end
             end
           end
         end).
Proof.
  unfold _generate_design. rewrite bind_tell.
  fold defaults_materials.
  destruct (generate_kitchen_image_cases
              (get_or (linear_meters st) (Some (Float 3.0)))
              (get_or (shape st) (Some "L"))
              (get_or (style st) (Some "modern"))
              (get_or (materials st) (Some defaults_materials))
              (get_or (colors st) (Some ["white"; "gray"])))
    as [[k Hk]|[p Hp]].
  - left. exists k. cbn zeta. by rewrite Hk.
  - right. exists p. cbn zeta. rewrite Hp, bind_pair. cbn [fst snd app].
    destruct (generate_image svc p) as [[|img imgs] pu|e];
      cbn [success negb images error_of get_or];
      [by eexists| |by eexists].
    rewrite bind_lift.
    destruct (get_or (design_version st) (Some 0%Z)) as [n|];
      cbn [succ_version]; cbv [mret mthrow Exc_ret Exc_throw]; [|by eexists].
    rewrite bind_lift.
    destruct (_generate_specs _ _ _ _ _) as [?|specs] eqn:Hspecs; [by eexists|].
    destruct (get_or (materials st) (Some defaults_materials)) as [m|];
      [|by destruct (generate_specs_needs_materials _ _ _ _ Hspecs)].
    cbn [dict_get]. cbv [mret mthrow Exc_ret Exc_throw]. rewrite !bind_lift.
    destruct (get_or (colors st) (Some ["white"; "gray"])) as [cs|];
      cbn [join]; cbv [mret mthrow Exc_ret Exc_throw]; [|by eexists].
    destruct (get_or (design_history st) (Some [])) as [hist|]; [|by eexists].
    eexists. split; [reflexivity|]. by eexists _, _.
Qed.

Lemma generate_design_log st e :
  e ∈ (_generate_design float_repr svc st).1 →
  e = Enter generate ∨ ∃ p, e = GenerateImage p.
Proof.
  destruct (generate_design_cases st) as [[k ->]|(p0 & out0 & -> & _)];
    intros He; in_log He; eauto.
Qed.

(** [_analyze_input] without a message. *)
Lemma analyze_input_empty st :
  truthy truthy_list (get_or (messages st) (Some [])) = false →
  _analyze_input svc st
  = ([Enter analyze], inr (set_error (Some "No message provided") empty_dict)).
Proof.
  unfold _analyze_input. by destruct (get_or (messages st) (Some [])) as [[|??]|].
Qed.

(** [_analyze_input] with a message: one request to the classifier, and
    the updates in closed form. *)
Lemma analyze_input_cases st first rest :
  get_or (messages st) (Some []) = Some (first :: rest) →
  let msg := last_content first rest in
  _analyze_input svc st
  = ([Enter analyze; AnalyzeRequest msg (context_of st)],
     match analyze_request svc msg (context_of st) with
     | inl e => inl e
     | inr an =>
       if truthy truthy_dict (get (Analysis.materials an))
       then match get_or (materials st) (Some ∅) with
            | Some cm =>
              inr (analysis_updates st an
                     (Some (Some (truthy_items (get_or (get (Analysis.materials an)) ∅) ∪ cm))))
            | None => inl AttributeError
            end
       else inr (analysis_updates st an None)
     end).
Proof.
  intros Hm msg. unfold _analyze_input. rewrite Hm, bind_tell.
  fold (last_content first rest). fold msg. fold (context_of st).
  cbn zeta. rewrite bind_tell. cbn [fst snd]. rewrite bind_lift.
  destruct (analyze_request svc msg (context_of st)) as [e|an]; [done|].
  unfold analysis_updates, keep.
  destruct (truthy truthy_number (get (Analysis.linear_meters an))) eqn:Elm;
  destruct (truthy truthy_str (get (Analysis.shape an)));
  destruct (truthy truthy_str (get (Analysis.style an)));
  destruct (truthy truthy_list (get (Analysis.colors an)));
  destruct (truthy truthy_str (get (Analysis.budget an)));
  (destruct (truthy truthy_dict (get (Analysis.materials an)));
   [destruct (get_or (materials st) (Some ∅)); [|by rewrite bind_throw] |]);
  rewrite bind_ret; cbn -[truthy]; rewrite ?Elm;
  destruct (bool_decide (get_or (Analysis.action an) (Some "respond") = Some "generate"));
  try destruct (truthy truthy_number (get (linear_meters st))); reflexivity.
Qed.

(** [_analyze_input] returns whenever the classifier answers and the
    stored materials are a dictionary (or absent), as they are in every
    state [run] builds. *)
Lemma analyze_input_returns st stored :
  get_or (materials st) (Some ∅) = Some stored →
  (∀ msg, ∃ an, analyze_request svc msg (context_of st) = inr an) →
  ∃ log u, _analyze_input svc st = (log, inr u).
Proof.
  intros Hst Han.
  destruct (get_or (messages st) (Some [])) as [[|first rest]|] eqn:Hm.
  - rewrite analyze_input_empty by (by rewrite Hm). by eexists _, _.
  - rewrite (analyze_input_cases _ _ _ Hm), Hst. cbn zeta.
    destruct (Han (last_content first rest)) as [an ->].
    destruct (truthy truthy_dict _); by eexists _, _.
  - rewrite analyze_input_empty by (by rewrite Hm). by eexists _, _.
Qed.

(** The updates of an analysis that returned after its request: the
    classifier answered, and they are its answer in closed form. *)
Lemma analyze_input_answer st first rest u :
  get_or (messages st) (Some []) = Some (first :: rest) →
  (_analyze_input svc st).2 = inr u →
  ∃ an mats,
    analyze_request svc (last_content first rest) (context_of st) = inr an
    ∧ u = analysis_updates st an mats
    ∧ (if truthy truthy_dict (get (Analysis.materials an))
       then ∃ cm, get_or (materials st) (Some ∅) = Some cm
                  ∧ mats = Some (Some (truthy_items
                                         (get_or (get (Analysis.materials an)) ∅)
                                       ∪ cm))
       else mats = None).
Proof.
  intros Hm. rewrite (analyze_input_cases _ _ _ Hm). cbn [snd].
  destruct (analyze_request svc _ _) as [e|an]; [done|].
  destruct (truthy truthy_dict (get (Analysis.materials an))) eqn:Et.
  - destruct (get_or (materials st) (Some ∅)) as [cm|]; [|done].
    intros [= <-]. eexists an, _. rewrite Et. split; [done|].
    split; [done|]. by exists cm.
  - intros [= <-]. eexists an, _. rewrite Et. done.
Qed.

(** The same, from a request found in the log of an analysis that
    returned. *)
Lemma analyze_input_request st log u msg ctx :
  _analyze_input svc st = (log, inr u) →
  AnalyzeRequest msg ctx ∈ log →
  ∃ first rest an mats,
    get_or (messages st) (Some []) = Some (first :: rest)
    ∧ msg = last_content first rest
    ∧ ctx = context_of st
    ∧ log = [Enter analyze; AnalyzeRequest msg ctx]
    ∧ analyze_request svc msg ctx = inr an
    ∧ u = analysis_updates st an mats
    ∧ (if truthy truthy_dict (get (Analysis.materials an))
       then ∃ cm, get_or (materials st) (Some ∅) = Some cm
                  ∧ mats = Some (Some (truthy_items
                                         (get_or (get (Analysis.materials an)) ∅)
                                       ∪ cm))
       else mats = None).
Proof.
  intros Ha Hin.
  destruct (get_or (messages st) (Some [])) as [[|first rest]|] eqn:Hm.
  1,3: rewrite analyze_input_empty in Ha by (by rewrite Hm);
       injection Ha as <- <-; in_log Hin; done.
  pose proof (analyze_input_answer _ _ _ u Hm) as Hu.
  rewrite Ha in Hu. destruct (Hu eq_refl) as (an & mats & Han & Hu' & Hmats).
  rewrite (analyze_input_cases _ _ _ Hm) in Ha. injection Ha as <- _.
  in_log Hin; [done|]. injection Hin as -> ->.
  by exists first, rest, an, mats.
Qed.

Lemma analyze_input_inv st l o :
  _analyze_input svc st = (l, o) →
  (∀ e, e ∈ l → e = Enter analyze ∨ ∃ m c, e = AnalyzeRequest m c)
  ∧ ∀ u, o = inr u →
      design_version u = None ∧ current_image u = None
      ∧ design_history u = None ∧ response_text u = None
      ∧ artifacts u = None.
Proof.
  destruct (get_or (messages st) (Some [])) as [[|first rest]|] eqn:Hm.
  - rewrite analyze_input_empty by (by rewrite Hm). intros [= <- <-].
    split; [|by intros u [= <-]]. intros e He. in_log He. by left.
  - rewrite (analyze_input_cases _ _ _ Hm). intros [= <- <-].
    split; [intros e He; in_log He; [by left|right; by eexists _, _]|].
    intros u. destruct (analyze_request svc _ _) as [e|an]; [done|].
    destruct (truthy truthy_dict _);
      [destruct (get_or (materials st) (Some ∅))|]; by intros [= <-].
  - rewrite analyze_input_empty by (by rewrite Hm). intros [= <- <-].
    split; [|by intros u [= <-]]. intros e He. in_log He. by left.
Qed.

(** [_edit_design], outcome by outcome. *)
Lemma edit_design_cases st :
  match get (current_image st) with
  | None | Some EmptyString =>
    _edit_design float_repr svc st
    = (Enter edit :: (_generate_design float_repr svc st).1,
       (_generate_design float_repr svc st).2)
  | Some img =>
    ∃ instr,
      match edit_image svc img instr with
      | ImageFailure _ =>
        _edit_design float_repr svc st
        = ([Enter edit; EditImage img instr],
           inr (set_response_text edit_failure_text
               (set_artifacts [] (set_action (Some "generate") empty_dict))))
      | ImageSuccess [] _ =>
        _edit_design float_repr svc st
        = (Enter edit :: EditImage img instr
             :: (_generate_design float_repr svc st).1,
           (_generate_design float_repr svc st).2)
      | ImageSuccess (new_image :: _) _ =>
        ∃ out,
          _edit_design float_repr svc st = ([Enter edit; EditImage img instr], out)
          ∧ match get_or (design_version st) (Some 0%Z) with
            | None => out = inl TypeError
            | Some n =>
              ∃ text title,
                out = inr
                  (set_response_text text
                  (set_artifacts
                     [ {| Artifact.type := "image";
                          Artifact.title := title;
                          Artifact.image_data := Some new_image;
                          Artifact.content := None;
                          Artifact.meta := EditedMeta (n + 1)%Z |} ]
                  (set_current_image (Some new_image)
                  (set_design_version (Some (n + 1)%Z) empty_dict))))
            end
      end
  end.
Proof.
  unfold _edit_design. rewrite bind_tell.
  destruct (get (current_image st)) as [[|a img]|]; [done| |done].
  cbn zeta. unfold edit_kitchen_image.
  rewrite bind_tell. cbv [mret M_ret]. cbn [fst snd].
  rewrite bind_pair. cbn [app].
  match goal with |- context [EditImage _ ?i] => exists i end.
  destruct (edit_image svc _ _) as [[|new_image imgs] pu|e];
    cbn [success negb images get_or]; [done| |done].
  destruct (get_or (design_version st) (Some 0%Z)) as [n|];
    cbn [succ_version]; cbv [mret mthrow Exc_ret Exc_throw]; rewrite bind_lift;
    (eexists; split; [reflexivity|]); [|done].
  by eexists _, _.
Qed.

Lemma edit_design_edit_event st img instr :
  EditImage img instr ∈ (_edit_design float_repr svc st).1 →
  ∃ out,
    _edit_design float_repr svc st
    = (Enter edit :: EditImage img instr
         :: match edit_image svc img instr with
            | ImageSuccess [] _ => (_generate_design float_repr svc st).1
            | _ => []
            end, out)
    ∧ match edit_image svc img instr with
      | ImageFailure _ => out = inr edit_failure_updates
      | ImageSuccess [] _ => out = (_generate_design float_repr svc st).2
      | ImageSuccess (new_image :: _) _ =>
        match get_or (design_version st) (Some 0%Z) with
        | None => out = inl TypeError
        | Some n =>
          ∃ text artifacts,
            out = inr (set_response_text text
                      (set_artifacts artifacts
                      (set_current_image (Some new_image)
                      (set_design_version (Some (n + 1)%Z) empty_dict))))
        end
      end.
Proof.
  pose proof (edit_design_cases st) as Hc.
  pose proof (generate_design_log st) as Hg.
  destruct (get (current_image st)) as [[|a img0]|].
  - rewrite Hc. intros Hin. in_log Hin; [done|].
    by destruct (Hg _ Hin) as [?|[??]].
  - destruct Hc as [instr0 Hc].
    destruct (edit_image svc (String a img0) instr0)
      as [[|new_image imgs] pu|e] eqn:Hr.
    + rewrite Hc. intros Hin. in_log Hin; [done| |].
      * injection Hin as -> ->. rewrite Hr. by eexists.
      * by destruct (Hg _ Hin) as [?|[??]].
    + destruct Hc as (out0 & Hc & Hout). rewrite Hc.
      intros Hin. in_log Hin; [done|]. injection Hin as -> ->. rewrite Hr.
      eexists. split; [done|].
      destruct (get_or (design_version st) (Some 0%Z)); [|done].
      destruct Hout as (text & title & ->). by eexists _, _.
    + rewrite Hc. intros Hin. in_log Hin; [done|]. injection Hin as -> ->.
      rewrite Hr. by eexists.
  - rewrite Hc. intros Hin. in_log Hin; [done|].
    by destruct (Hg _ Hin) as [?|[??]].
Qed.

Lemma ask_clarification_eq st :
  ∃ text,
    _ask_clarification st
    = ([Enter clarify], inr (set_response_text text (set_artifacts [] empty_dict))).
Proof. unfold _ask_clarification. rewrite bind_tell. by eexists. Qed.

(** [_generate_response], outcome by outcome: the greeting, an exception
    of the replay, an exception of the message, or the reply. *)
Lemma generate_response_cases st :
  _generate_response svc st
  = ([Enter respond], inr (set_response_text greeting empty_dict))
  ∨ ∃ history message,
      (∃ e, start_chat svc history = inl e
            ∧ _generate_response svc st
              = ([Enter respond; StartChat history], inl e))
      ∨ (∃ e, reply svc history message = inl e
              ∧ _generate_response svc st
                = ([Enter respond; StartChat history; SendMessage message],
                   inl e))
      ∨ (∃ text, reply svc history message = inr text
                 ∧ _generate_response svc st
                   = ([Enter respond; StartChat history; SendMessage message],
                      inr (set_response_text text
                          (set_artifacts [] empty_dict)))).
Proof.
  unfold _generate_response. rewrite bind_tell.
  destruct (get_or (messages st) (Some [])) as [[|first rest]|];
    [by left| |by left].
  right. exists (history_of (first :: rest)),
    (get_or (Message.content (List.last (first :: rest) first)) "").
  unfold history_of. cbv zeta.
  rewrite bind_tell. cbn [fst snd]. rewrite bind_lift.
  destruct (start_chat svc _) as [e|[]] eqn:Hs;
    [left; exists e; split; reflexivity|].
  right. rewrite bind_tell. cbn [fst snd]. rewrite bind_lift.
  destruct (reply svc _ _) as [e|text] eqn:Hr;
    [left; exists e|right; exists text]; split; reflexivity.
Qed.

Lemma generate_response_log st (e : event) :
  e ∈ (_generate_response svc st).1 →
  e = Enter respond ∨ (∃ h, e = StartChat h) ∨ ∃ m, e = SendMessage m.
Proof.
  destruct (generate_response_cases st)
    as [->|(h & m & [(x & _ & ->)|[(x & _ & ->)|(x & _ & ->)]])];
    intros Hin; in_log Hin; eauto.
Qed.

Lemma format_output_eq st :
  _format_output st
  = ([Enter format_output],
     inr (set_response_text (get_or (response_text st) "")
         (set_artifacts (get_or (artifacts st) []) empty_dict))).
Proof. reflexivity. Qed.

Lemma node_enter n st :
  ∃ l, (node_fn float_repr svc n st).1 = Enter n :: l.
Proof.
  destruct n; cbn [node_fn].
  - unfold _analyze_input. rewrite bind_tell. by eexists.
  - unfold _ask_clarification. rewrite bind_tell. by eexists.
  - unfold _generate_design. rewrite bind_tell. by eexists.
  - unfold _edit_design. rewrite bind_tell. by eexists.
  - unfold _generate_response. rewrite bind_tell. by eexists.
  - by eexists.
Qed.

Lemma node_edit_event n st img instr :
  EditImage img instr ∈ (node_fn float_repr svc n st).1 → n = edit.
Proof.
  destruct n; cbn [node_fn]; [| | |done| |].
  - destruct (_analyze_input svc st) as [l o] eqn:Ha.
    destruct (analyze_input_inv _ _ _ Ha) as [Hl _].
    intros Hin. by destruct (Hl _ Hin) as [?|(?&?&?)].
  - destruct (ask_clarification_eq st) as [text ->].
    intros Hin. in_log Hin; done.
  - intros Hin. by destruct (generate_design_log _ _ Hin) as [?|[??]].
  - intros Hin.
    by destruct (generate_response_log _ _ Hin) as [?|[[??]|[??]]].
  - rewrite format_output_eq. intros Hin. in_log Hin; done.
Qed.

Lemma route_action_range st :
  _route_action st ∈ [clarify; generate; edit; respond].
Proof.
  unfold _route_action.
  repeat case_match; set_solver.
Qed.

Lemma route_clarify st u :
  needs_clarification u = Some true →
  _route_action (apply_updates st u) = clarify.
Proof. intros H. unfold _route_action. cbn. by rewrite H. Qed.

(** One run of the graph, unfolded. *)
Lemma invoke_eq st :
  invoke float_repr svc st
  = match _analyze_input svc st with
    | (l1, inl e) => (l1, inl e)
    | (l1, inr u1) =>
      let st1 := apply_updates st u1 in
      match node_fn float_repr svc (_route_action st1) st1 with
      | (l2, inl e) => (l1 ++ l2, inl e)
      | (l2, inr u2) =>
        let st2 := apply_updates st1 u2 in
        (l1 ++ l2 ++ [Enter format_output],
         inr (apply_updates st2
                (set_response_text (get_or (response_text st2) "")
                (set_artifacts (get_or (artifacts st2) []) empty_dict))))
      end
    end.
Proof.
  unfold invoke. cbn [node_fn].
  destruct (_analyze_input svc st) as [l1 [e|u1]]; [done|].
  rewrite bind_pair. cbn zeta.
  destruct (node_fn _ _ (_route_action _) _) as [l2 [e|u2]];
    rewrite bind_pair; [done|].
  rewrite format_output_eq, bind_pair. cbv [mret M_ret]. cbn [fst snd]. done.
Qed.

(** One turn of a thread: the reducer, then the nodes. *)
Lemma ainvoke_eq checkpoint input :
  ainvoke float_repr svc checkpoint input
  = match channels checkpoint input with
    | inl e => ([], inl e)
    | inr st => invoke float_repr svc st
    end.
Proof.
  unfold ainvoke. rewrite bind_lift.
  by destruct (channels checkpoint input).
Qed.

(** The channel values of a turn that started. *)
Lemma channels_inv checkpoint input st :
  channels checkpoint input = inr st →
  messages input ≠ Some None
  ∧ messages st
    = Some (Some (stored_messages checkpoint ++ input_messages input))
  ∧ user_id st = overwrite (user_id checkpoint) (user_id input)
    ∧ conversation_id st
      = overwrite (conversation_id checkpoint) (conversation_id input)
    ∧ linear_meters st = overwrite (linear_meters checkpoint) (linear_meters input)
    ∧ shape st = overwrite (shape checkpoint) (shape input)
    ∧ style st = overwrite (style checkpoint) (style input)
    ∧ materials st = overwrite (materials checkpoint) (materials input)
    ∧ colors st = overwrite (colors checkpoint) (colors input)
    ∧ budget st = overwrite (budget checkpoint) (budget input)
    ∧ current_image st = overwrite (current_image checkpoint) (current_image input)
    ∧ design_version st
      = overwrite (design_version checkpoint) (design_version input)
    ∧ design_history st
      = overwrite (design_history checkpoint) (design_history input).
Proof.
  unfold channels, input_messages.
  cbv [mbind mret mthrow Exc_bind Exc_ret Exc_throw].
  destruct (messages input) as [[new|]|]; intros [= <-];
    cbn; rewrite ?app_nil_r; by split_and!.
Qed.

(** The channels raise on an input whose [messages] is [None], and only
    then. *)
Lemma channels_raises checkpoint input e :
  channels checkpoint input = inl e →
  e = TypeError ∧ messages input = Some None.
Proof.
  unfold channels. cbv [mbind mret mthrow Exc_bind Exc_ret Exc_throw].
  by destruct (messages input) as [[new|]|]; intros [= <-].
Qed.

(** What the analysis leaves alone besides the design state. *)
Lemma analyze_input_keys st l u :
  _analyze_input svc st = (l, inr u) →
  messages u = None ∧ user_id u = None ∧ conversation_id u = None.
Proof.
  intros Ha.
  destruct (get_or (messages st) (Some [])) as [[|first rest]|] eqn:Hmsg.
  1,3: rewrite analyze_input_empty in Ha by (by rewrite Hmsg);
       by injection Ha as _ <-.
  pose proof (analyze_input_answer _ _ _ u Hmsg) as Hu.
  rewrite Ha in Hu. by destruct (Hu eq_refl) as (an & mats & _ & -> & _).
Qed.

(** The part of a turn around an edit request. *)
Lemma invoke_edit_event st log out img instr :
  invoke float_repr svc st = (log, out) →
  EditImage img instr ∈ log →
  ∃ l1 u1 l2 o2,
    _analyze_input svc st = (l1, inr u1)
    ∧ _edit_design float_repr svc (apply_updates st u1) = (l2, o2)
    ∧ EditImage img instr ∈ l2
    ∧ (log, out)
      = match o2 with
        | inl e => (l1 ++ l2, inl e)
        | inr u2 =>
          let st2 := apply_updates (apply_updates st u1) u2 in
          (l1 ++ l2 ++ [Enter format_output],
           inr (apply_updates st2
                  (set_response_text (get_or (response_text st2) "")
                  (set_artifacts (get_or (artifacts st2) []) empty_dict))))
        end.
Proof.
  rewrite invoke_eq.
  destruct (_analyze_input svc st) as [l1 o1] eqn:Ha.
  destruct (analyze_input_inv _ _ _ Ha) as [Hl1 _].
  assert (Hno1 : EditImage img instr ∉ l1)
    by (intros Hin; by destruct (Hl1 _ Hin) as [?|(?&?&?)]).
  destruct o1 as [e1|u1]; [by intros [= <- <-]|].
  cbn zeta.
  destruct (node_fn _ _ _ _) as [l2 o2] eqn:Hn.
  intros Hrun Hin.
  assert (Hin2 : EditImage img instr ∈ l2).
  { destruct o2; injection Hrun as <- <-;
      repeat (apply elem_of_app in Hin as [Hin|Hin]); try done.
    in_log Hin. done. }
  assert (Hedit : _route_action (apply_updates st u1) = edit).
  { apply (node_edit_event _ (apply_updates st u1) img instr). by rewrite Hn. }
  rewrite Hedit in Hn. cbn [node_fn] in Hn.
  eexists l1, u1, l2, o2. split; [done|]. split; [done|]. split; [done|].
  by destruct o2.
Qed.

(** ** Generation failure (C8) *)

Lemma generate_failure_node st log out p :
  _generate_design float_repr svc st = (log, out) →
  GenerateImage p ∈ log →
  no_image (generate_image svc p) →
  ∃ text e,
    apology text e
    ∧ out = inr (set_response_text text
                (set_artifacts [] (set_error (Some e) empty_dict))).
Proof.
  destruct (generate_design_cases st) as [[k ->]|(p0 & out0 & -> & Hout)].
  - intros [= <- <-] Hin. in_log Hin. done.
  - intros [= <- <-] Hin Hno. in_log Hin; [done|]. injection Hin as ->.
    destruct (generate_image svc p0) as [[|img imgs] pu|e].
    + eexists _, _. split; [by right|done].
    + by destruct Hno.
    + eexists _, _. split; [by left|done].
Qed.

Lemma edit_failure_any st log out p :
  _edit_design float_repr svc st = (log, out) →
  GenerateImage p ∈ log →
  no_image (generate_image svc p) →
  ∃ text e,
    apology text e
    ∧ out = inr (set_response_text text
                (set_artifacts [] (set_error (Some e) empty_dict))).
Proof.
  pose proof (edit_design_cases st) as Hc.
  destruct (_generate_design float_repr svc st) as [lg og] eqn:Hg.
  assert (Hgen : GenerateImage p ∈ lg → no_image (generate_image svc p) →
    ∃ text e, apology text e
      ∧ og = inr (set_response_text text
                 (set_artifacts [] (set_error (Some e) empty_dict))))
    by exact (generate_failure_node st lg og p Hg).
  cbn [fst snd] in Hc.
  destruct (get (current_image st)) as [[|a img]|].
  - rewrite Hc. intros [= <- <-] Hin. in_log Hin; [done|]. auto.
  - destruct Hc as [instr Hc].
    destruct (edit_image svc _ instr) as [[|new_image imgs] pu|e].
    + rewrite Hc. intros [= <- <-] Hin. in_log Hin; [done|done|]. auto.
    + destruct Hc as (out0 & -> & _). intros [= <- <-] Hin. in_log Hin; done.
    + rewrite Hc. intros [= <- <-] Hin. in_log Hin; done.
  - rewrite Hc. intros [= <- <-] Hin. in_log Hin; [done|]. auto.
Qed.

Lemma node_failure_any n st log out p :
  node_fn float_repr svc n st = (log, out) →
  GenerateImage p ∈ log →
  no_image (generate_image svc p) →
  ∃ text e,
    apology text e
    ∧ out = inr (set_response_text text
                (set_artifacts [] (set_error (Some e) empty_dict))).
Proof.
  destruct n; cbn [node_fn].
  - intros Ha Hin. destruct (analyze_input_inv _ _ _ Ha) as [Hl _].
    by destruct (Hl _ Hin) as [?|(?&?&?)].
  - destruct (ask_clarification_eq st) as [text ->].
    intros [= <- <-] Hin. in_log Hin; done.
  - apply generate_failure_node.
  - apply edit_failure_any.
  - intros Hr Hin.
    assert (Hin' : GenerateImage p ∈ (_generate_response svc st).1)
      by (by rewrite Hr).
    by destruct (generate_response_log _ _ Hin') as [?|[[??]|[??]]].
  - rewrite format_output_eq. intros [= <- <-] Hin. in_log Hin; done.
Qed.

(** C8: in every turn in which the Image Service is asked to generate and
    gives no image (failure, or success with zero images), the turn ends
    normally with one of the two fixed apology texts, an empty artifact
    list and the error recorded, and the design state is untouched:
    [design_version], [current_image] and [design_history] are those the
    turn started with. *)
Theorem generate_failure_turn st log out p :
  invoke float_repr svc st = (log, out) →
  GenerateImage p ∈ log →
  no_image (generate_image svc p) →
  ∃ final text e,
    out = inr final
    ∧ apology text e
    ∧ response_text final = Some text
    ∧ artifacts final = Some []
    ∧ error final = Some (Some e)
    ∧ design_version final = design_version st
    ∧ current_image final = current_image st
    ∧ design_history final = design_history st.
Proof.
  rewrite invoke_eq.
  destruct (_analyze_input svc st) as [l1 o1] eqn:Ha.
  destruct (analyze_input_inv _ _ _ Ha) as [Hl1 Hu1].
  assert (Hno1 : GenerateImage p ∉ l1)
    by (intros Hin; by destruct (Hl1 _ Hin) as [?|(?&?&?)]).
  destruct o1 as [e1|u1]; [by intros [= <- <-]|].
  destruct (Hu1 u1 eq_refl) as (Hv & Hi & Hh & _).
  cbn zeta.
  destruct (node_fn _ _ _ _) as [l2 o2] eqn:Hn.
  intros Hrun Hin Hno.
  assert (Hin2 : GenerateImage p ∈ l2).
  { destruct o2; injection Hrun as <- <-;
      repeat (apply elem_of_app in Hin as [Hin|Hin]); try done.
    in_log Hin. done. }
  destruct (node_failure_any _ _ _ _ _ Hn Hin2 Hno) as (text & e & Hap & ->).
  injection Hrun as <- <-.
  eexists _, text, e. split; [reflexivity|]. split; [done|].
  cbn. rewrite Hv, Hi, Hh. done.
Qed.

(** ** Edit outcomes (C1, C2) *)

(** C2 (as implemented): when the edit call reports failure
    the turn does not re-enter the Design Generator. The edit node returns
    the text "Estoy regenerando..." with no artifact and [action] set to
    ["generate"], the graph goes on to [format_output] and ends: no
    [generate] node is entered and no image is requested, so the turn
    differs from the one of an empty success, which calls
    [_generate_design]. *)
Theorem edit_failure_turn st log out img instr :
  invoke float_repr svc st = (log, out) →
  EditImage img instr ∈ log →
  success (edit_image svc img instr) = false →
  ∃ final,
    out = inr final
    ∧ log = ((_analyze_input svc st).1
             ++ [Enter edit; EditImage img instr; Enter format_output])
    ∧ (Enter generate ∉ log)
    ∧ (∀ p, GenerateImage p ∉ log)
    ∧ response_text final = Some edit_failure_text
    ∧ artifacts final = Some []
    ∧ action final = Some (Some "generate")
    ∧ design_version final = design_version st
    ∧ current_image final = current_image st.
Proof.
  intros Hrun Hin Hfail.
  destruct (invoke_edit_event _ _ _ _ _ Hrun Hin)
    as (l1 & u1 & l2 & o2 & Ha & He & Hin2 & Heq).
  destruct (analyze_input_inv _ _ _ Ha) as [Hl1 Hu1].
  destruct (Hu1 u1 eq_refl) as (Hv & Hi & Hh & _).
  assert (Hin2' : EditImage img instr
                  ∈ (_edit_design float_repr svc (apply_updates st u1)).1)
    by (by rewrite He).
  destruct (edit_design_edit_event _ _ _ Hin2') as (out2 & He2 & Hout).
  rewrite He in He2. injection He2 as -> ->.
  destruct (edit_image svc img instr) as [imgs pu|e]; [done|]. subst out2.
  injection Heq as -> ->. rewrite Ha. cbn [fst].
  eexists. split; [reflexivity|]. split; [done|].
  assert (Hlog : ∀ e', e' ∈ (l1 ++ [Enter edit; EditImage img instr]
                                ++ [Enter format_output]) →
                       e' ≠ Enter generate ∧ ∀ p, e' ≠ GenerateImage p).
  { intros e' He'. apply elem_of_app in He' as [He'|He'].
    - by destruct (Hl1 _ He') as [->|(?&?&->)].
    - cbn in He'. in_log He'; by subst. }
  split; [intros Hg; by destruct (Hlog _ Hg)|].
  split; [intros p Hg; by destruct (Hlog _ Hg) as [_ Hp]; destruct (Hp p)|].
  cbn. by rewrite Hv, Hi.
Qed.

(** The sibling path: on a success with no image the edit node does call
    [_generate_design], in the same turn. *)
Lemma edit_empty_success_regenerates st img instr pu :
  EditImage img instr ∈ (_edit_design float_repr svc st).1 →
  edit_image svc img instr = ImageSuccess [] pu →
  _edit_design float_repr svc st
  = (Enter edit :: EditImage img instr
       :: (_generate_design float_repr svc st).1,
     (_generate_design float_repr svc st).2)
  ∧ Enter generate ∈ (_edit_design float_repr svc st).1.
Proof.
  intros Hin Hr.
  destruct (edit_design_edit_event _ _ _ Hin) as (out & He & Hout).
  rewrite Hr in He, Hout. subst out. split; [done|].
  rewrite He. cbn [fst]. do 2 apply list_elem_of_further.
  destruct (node_enter generate st) as [l Hl]. cbn [node_fn] in Hl.
  rewrite Hl. apply list_elem_of_here.
Qed.

(** C1 (as implemented): a successful edit increments the
    version and replaces the image but appends nothing to the history. From
    a state in which [design_version] equals the length of [design_history]
    the turn ends with the version one above the length of the history. *)
Theorem edit_success_skips_history st log out img instr new_image imgs pu hist :
  invoke float_repr svc st = (log, out) →
  EditImage img instr ∈ log →
  edit_image svc img instr = ImageSuccess (new_image :: imgs) pu →
  get_or (design_version st) (Some 0%Z) = Some (Z.of_nat (length hist)) →
  get_or (design_history st) (Some []) = Some hist →
  ∃ final,
    out = inr final
    ∧ current_image final = Some (Some new_image)
    ∧ design_version final = Some (Some (Z.of_nat (length hist) + 1)%Z)
    ∧ get_or (design_history final) (Some []) = Some hist.
Proof.
  intros Hrun Hin Hok Hver Hhist.
  destruct (invoke_edit_event _ _ _ _ _ Hrun Hin)
    as (l1 & u1 & l2 & o2 & Ha & He & Hin2 & Heq).
  destruct (analyze_input_inv _ _ _ Ha) as [Hl1 Hu1].
  destruct (Hu1 u1 eq_refl) as (Hv & Hi & Hh & _).
  assert (Hin2' : EditImage img instr
                  ∈ (_edit_design float_repr svc (apply_updates st u1)).1)
    by (by rewrite He).
  destruct (edit_design_edit_event _ _ _ Hin2') as (out2 & He2 & Hout).
  rewrite He in He2. injection He2 as _ ->.
  rewrite Hok in Hout.
  assert (Hver1 : get_or (design_version (apply_updates st u1)) (Some 0%Z)
                  = Some (Z.of_nat (length hist)))
    by (cbn; by rewrite Hv).
  rewrite Hver1 in Hout. destruct Hout as (text & arts & ->).
  injection Heq as -> ->.
  eexists. split; [reflexivity|]. cbn. by rewrite Hh.
Qed.

(** The sibling path: a successful generation appends one history entry
    as it increments the version, so the two stay equal. *)
Lemma generate_success_appends_history st log u p img imgs pu hist :
  _generate_design float_repr svc st = (log, inr u) →
  GenerateImage p ∈ log →
  generate_image svc p = ImageSuccess (img :: imgs) pu →
  get_or (design_version st) (Some 0%Z) = Some (Z.of_nat (length hist)) →
  get_or (design_history st) (Some []) = Some hist →
  ∃ entry,
    design_history (apply_updates st u) = Some (Some (hist ++ [entry]))
    ∧ design_version (apply_updates st u)
      = Some (Some (Z.of_nat (length (hist ++ [entry])))).
Proof.
  destruct (generate_design_cases st) as [[k ->]|(p0 & out0 & -> & Hout)].
  - intros [= <- ?]; done.
  - intros [= <- ->] Hin Hok Hver Hhist. in_log Hin; [done|].
    injection Hin as ->.
    rewrite Hok, Hver, Hhist in Hout. cbn zeta in Hout.
    destruct (_generate_specs _ _ _ _ _) as [?|specs]; [done|].
    destruct (get_or (colors st) _); [|done].
    destruct Hout as (text & title & [= ->]).
    eexists. split; [reflexivity|]. cbn.
    rewrite length_app. cbn. do 2 f_equal. lia.
Qed.

(** ** The default linear size (C10) *)

(** C10 (as implemented): the default of
    [state.get("linear_meters", 3.0)] only replaces an absent key. With the
    key bound to [None], as in the state [run] builds for a new
    conversation, a generation whose image arrives ends in [TypeError]
    (raised by [remaining >= 0.9] in [_generate_specs]): no 3.0 is
    substituted. *)
Theorem generate_null_size_raises st log out p img imgs pu :
  linear_meters st = Some None →
  _generate_design float_repr svc st = (log, out) →
  GenerateImage p ∈ log →
  generate_image svc p = ImageSuccess (img :: imgs) pu →
  out = inl TypeError.
Proof.
  intros Hlm.
  destruct (generate_design_cases st) as [[k ->]|(p0 & out0 & -> & Hout)].
  - intros [= <- <-] Hin. in_log Hin. done.
  - intros [= <- <-] Hin Hok. in_log Hin; [done|]. injection Hin as ->.
    rewrite Hok, Hlm in Hout. cbn in Hout.
    by destruct (get_or (design_version st) (Some 0%Z)).
Qed.

(** With the key absent the default applies: the artifacts and the
    document report 3.0. *)
Lemma generate_default_size st log u p img imgs pu :
  linear_meters st = None →
  _generate_design float_repr svc st = (log, inr u) →
  GenerateImage p ∈ log →
  generate_image svc p = ImageSuccess (img :: imgs) pu →
  ∃ specs n title,
    _generate_specs float_repr (Some (Float 3.0)) (get_or (shape st) (Some "L"))
      (get_or (style st) (Some "modern"))
      (get_or (materials st) (Some defaults_materials)) = inr specs
    ∧ artifacts u
      = Some [ {| Artifact.type := "image";
                  Artifact.title := title;
                  Artifact.image_data := Some img;
                  Artifact.content := None;
                  Artifact.meta :=
                    GeneratedMeta (Some (Float 3.0)) (get_or (shape st) (Some "L"))
                      (get_or (style st) (Some "modern")) n |};
               {| Artifact.type := "specs";
                  Artifact.title := "Especificaciones Técnicas";
                  Artifact.image_data := None;
                  Artifact.content := Some specs;
                  Artifact.meta := EmptyMeta |} ].
Proof.
  intros Hlm.
  destruct (generate_design_cases st) as [[k ->]|(p0 & out0 & -> & Hout)].
  - intros [= <- ?]; done.
  - intros [= <- ->] Hin Hok. in_log Hin; [done|]. injection Hin as ->.
    rewrite Hok, Hlm in Hout. cbn [get_or] in Hout. cbn zeta in Hout.
    destruct (get_or (design_version st) (Some 0%Z)) as [n|]; [|done].
    destruct (_generate_specs _ _ _ _ _) as [?|specs]; [done|].
    destruct (get_or (colors st) _); [|done].
    destruct (get_or (design_history st) _); [|done].
    destruct Hout as (text & title & [= ->]). by eexists _, _, _.
Qed.

(** ** Clarification (C6) *)

(** C6: when the classifier's action is ["clarification"] the router
    selects [clarify]; when it is ["generate"] and neither the extraction
    nor the stored state holds a linear size (null, absent, or zero), the
    router selects [clarify] too and the questions are the single fixed
    question about the linear size. A turn routed to [clarify] runs the
    clarify node and [format_output], and nothing else. *)
Theorem clarification_precedence st log u msg ctx :
  _analyze_input svc st = (log, inr u) →
  AnalyzeRequest msg ctx ∈ log →
  ∃ an,
    analyze_request svc msg ctx = inr an
    ∧ let st' := apply_updates st u in
      (get (Analysis.action an) = Some "clarification" →
       _route_action st' = clarify)
      ∧ (get (Analysis.action an) = Some "generate" →
         truthy truthy_number (get (Analysis.linear_meters an)) = false →
         truthy truthy_number (get (linear_meters st)) = false →
         _route_action st' = clarify
         ∧ questions st' = Some (Some [size_question]))
      ∧ (_route_action st' = clarify →
         ∃ final,
           invoke float_repr svc st
           = (log ++ [Enter clarify; Enter format_output], inr final)).
Proof.
  intros Ha Hin.
  destruct (analyze_input_request _ _ _ _ _ Ha Hin)
    as (first & rest & an & mats & Hm & _ & _ & _ & Han & Hu' & _).
  exists an. split; [done|]. intros st'.
  assert (Hturn : _route_action st' = clarify →
     ∃ final, invoke float_repr svc st
              = (log ++ [Enter clarify; Enter format_output], inr final)).
  { intros Hr. rewrite invoke_eq, Ha. cbn zeta. fold st'. rewrite Hr.
    cbn [node_fn]. destruct (ask_clarification_eq st') as [text ->].
    by eexists. }
  split; [|split; [|done]].
  - intros Hact. apply route_clarify. rewrite Hu'. cbn.
    rewrite Hact. by destruct (_ && _).
  - intros Hact Hlm Hst.
    assert (Hact' : get_or (Analysis.action an) (Some "respond") = Some "generate")
      by (by destruct (Analysis.action an) as [?|]).
    split.
    + apply route_clarify. rewrite Hu'. cbn. by rewrite Hact', Hlm, Hst.
    + unfold st'. rewrite Hu'. cbn. by rewrite Hact', Hlm, Hst.
Qed.

(** ** Parameter merge (C5) *)

Lemma additive_keep {A} (t : A → bool) v old :
  additive t v old (overwrite old (keep t v)).
Proof.
  unfold additive, keep, truthy.
  destruct v as [a|]; [destruct (t a)|]; cbn; naive_solver.
Qed.

Lemma merged_lookup extracted stored :
  merged_by_key extracted stored (truthy_items extracted ∪ stored).
Proof.
  intros k. rewrite lookup_union. unfold truthy_items. rewrite lookup_omap.
  destruct (extracted !! k) as [[v|]|]; cbv [mbind option_bind];
    [destruct (truthy_str v)|..]; by destruct (stored !! k).
Qed.

(** C5: the merge of an extraction into the state is additive. For the
    linear size, shape, style, colours and budget, a null or absent
    extracted value leaves the stored binding as it was, and the binding
    changes only to a non-null extracted value. Materials are merged key by
    key: whenever the extraction holds a non-empty materials dictionary the
    stored one is replaced by the merge, in which an extracted key with a
    non-empty value takes it and every other key keeps the stored value;
    without one (absent, null or empty) the stored binding is kept. *)
Theorem merge_is_additive st log u msg ctx :
  _analyze_input svc st = (log, inr u) →
  AnalyzeRequest msg ctx ∈ log →
  ∃ an,
    analyze_request svc msg ctx = inr an
    ∧ let st' := apply_updates st u in
      additive truthy_number (get (Analysis.linear_meters an)) (linear_meters st) (linear_meters st')
      ∧ additive truthy_str (get (Analysis.shape an)) (shape st) (shape st')
      ∧ additive truthy_str (get (Analysis.style an)) (style st) (style st')
      ∧ additive truthy_list (get (Analysis.colors an)) (colors st) (colors st')
      ∧ additive truthy_str (get (Analysis.budget an)) (budget st) (budget st')
      ∧ (truthy truthy_dict (get (Analysis.materials an)) = false →
         materials st' = materials st)
      ∧ (truthy truthy_dict (get (Analysis.materials an)) = true →
         ∃ extracted stored merged,
           get (Analysis.materials an) = Some extracted
           ∧ get_or (materials st) (Some ∅) = Some stored
           ∧ materials st' = Some (Some merged)
           ∧ merged_by_key extracted stored merged).
Proof.
  intros Ha Hin.
  destruct (analyze_input_request _ _ _ _ _ Ha Hin)
    as (first & rest & an & mats & Hm & _ & _ & _ & Han & Hu' & Hmats).
  exists an. split; [done|]. intros st'.
  assert (Hfields :
    additive truthy_number (get (Analysis.linear_meters an)) (linear_meters st) (linear_meters st')
    ∧ additive truthy_str (get (Analysis.shape an)) (shape st) (shape st')
    ∧ additive truthy_str (get (Analysis.style an)) (style st) (style st')
    ∧ additive truthy_list (get (Analysis.colors an)) (colors st) (colors st')
    ∧ additive truthy_str (get (Analysis.budget an)) (budget st) (budget st')
    ∧ materials st' = overwrite (materials st) mats).
  { unfold st'. rewrite Hu'. cbn.
    repeat split; try apply additive_keep. }
  destruct Hfields as (? & ? & ? & ? & ? & Hmat).
  do 5 (split; [done|]).
  destruct (truthy truthy_dict (get (Analysis.materials an))) eqn:Et.
  - split; [done|]. intros _.
    destruct Hmats as (stored & Hst & ->).
    destruct (get (Analysis.materials an)) as [extracted|]; [|done].
    exists extracted, stored, (truthy_items extracted ∪ stored).
    split; [done|]. split; [done|]. split; [exact Hmat|]. apply merged_lookup.
  - split; [|done]. intros _. by rewrite Hmat, Hmats.
Qed.

(** ** The specification document of a generation (C3, C9) *)

(** The specs artifact of a successful generation holds the document
    [_generate_specs] computes from the linear size, the shape and the
    materials in effect. *)
Lemma specs_artifact_document st log u a :
  _generate_design float_repr svc st = (log, inr u) →
  a ∈ get_or (artifacts u) [] → Artifact.type a = "specs" →
  ∃ doc, Artifact.content a = Some doc
         ∧ _generate_specs float_repr
             (get_or (linear_meters st) (Some (Float 3.0)))
             (get_or (shape st) (Some "L")) None
             (get_or (materials st) (Some defaults_materials)) = inr doc.
Proof.
  destruct (generate_design_cases st) as [[k ->]|(p0 & out0 & -> & Hout)];
    [intros [= _ ?]; done|].
  intros [= _ ->].
  destruct (generate_image svc p0) as [[|img imgs] pu|e].
  - injection Hout as ->. intros Hin. cbn in Hin. in_log Hin.
  - cbn zeta in Hout.
    destruct (get_or (design_version st) (Some 0%Z)); [|done].
    destruct (_generate_specs _ _ _ _ _) as [?|specs] eqn:Hs; [done|].
    destruct (get_or (colors st) _); [|done].
    destruct (get_or (design_history st) _); [|done].
    destruct Hout as (text & title & [= ->]).
    intros Hin Hty. cbn in Hin. in_log Hin; subst a; [done|].
    by exists specs.
  - injection Hout as ->. intros Hin. cbn in Hin. in_log Hin.
Qed.

(** C3 (as implemented): whatever budget tier the state holds,
    the specification document of a generation closes with the cost
    section of the medium band. The budget is not passed to
    [_generate_specs] and the lookup key is the constant ["medium"]. *)
Theorem specs_cost_ignores_budget st log u a :
  _generate_design float_repr svc st = (log, inr u) →
  a ∈ get_or (artifacts u) [] → Artifact.type a = "specs" →
  ∃ doc, Artifact.content a = Some doc
         ∧ ends_with (cost_section "$25,000 - $45,000 MXN") doc.
Proof.
  intros Hg Hin Hty.
  destruct (specs_artifact_document _ _ _ _ Hg Hin Hty) as (doc & Hc & Hs).
  exists doc. split; [done|]. by eapply generate_specs_cost_section.
Qed.

(** C9 (amended): the specification algorithm is deterministic: two
    generations from states with identical linear size, shape, materials
    and budget produce the same specification document, byte for byte. *)
Theorem specs_document_deterministic st1 st2 log1 log2 u1 u2 a1 a2 :
  linear_meters st1 = linear_meters st2 →
  shape st1 = shape st2 →
  materials st1 = materials st2 →
  budget st1 = budget st2 →
  _generate_design float_repr svc st1 = (log1, inr u1) →
  _generate_design float_repr svc st2 = (log2, inr u2) →
  a1 ∈ get_or (artifacts u1) [] → Artifact.type a1 = "specs" →
  a2 ∈ get_or (artifacts u2) [] → Artifact.type a2 = "specs" →
  Artifact.content a1 = Artifact.content a2
  ∧ ∃ doc, Artifact.content a1 = Some doc.
Proof.
  intros Hlm Hsh Hmat _ Hg1 Hg2 Hin1 Hty1 Hin2 Hty2.
  destruct (specs_artifact_document _ _ _ _ Hg1 Hin1 Hty1) as (doc1 & Hc1 & Hs1).
  destruct (specs_artifact_document _ _ _ _ Hg2 Hin2 Hty2) as (doc2 & Hc2 & Hs2).
  rewrite Hlm, Hsh, Hmat, Hs2 in Hs1. injection Hs1 as <-.
  split; [by rewrite Hc1, Hc2|by exists doc2].
Qed.

End AgentFacts.

(** * Further properties *)

(** A turn is one call of [ainvoke]. The statements about [invoke] hold of
    the nodes of a turn from the channel values they start with, whatever
    the checkpoint and the input that produced them. *)

(** ** The module packing on every input *)

Lemma int_raises x e : int x = inl e → e = ValueError ∨ e = OverflowError.
Proof.
  unfold int. destruct (Prim2SF x); intros [= <-]; auto.
Qed.

Lemma float_of_int_raises n e : float_of_int n = inl e → e = OverflowError.
Proof.
  unfold float_of_int. by destruct (Prim2SF _); intros [= <-].
Qed.

(** Tries the layouts of a list as the witness of the standard part. *)
Ltac pick_layout ls :=
  lazymatch ls with
  | ?l :: ?ls' =>
    first [ exists l; split;
            [ unfold standard_layouts;
              repeat first [apply list_elem_of_here | apply list_elem_of_further]
            | repeat case_match; reflexivity ]
          | pick_layout ls' ]
  end.

(** Splits on the next test or conversion of the packing, in the order of
    the program; a test met again takes the value it had. *)
Ltac packing_step :=
  match goal with
  | H : ?c = _ |- context [if ?c then _ else _] => rewrite H
  | |- context [if int_ge_float ?n ?c then _ else _] =>
    destruct (int_ge_float n c) eqn:?
  | |- context [if (?a <=? ?b)%float then _ else _] =>
    destruct (a <=? b)%float eqn:?
  | |- context [match int ?y with inl _ => _ | inr _ => _ end] =>
    destruct (int y) eqn:?
  | |- context [match float_of_int ?n with inl _ => _ | inr _ => _ end] =>
    destruct (float_of_int n) eqn:?
  end.

Ltac packing :=
  repeat (cbv beta iota zeta; cbn [number_ge to_float]; cbv [mret Exc_ret];
          packing_step);
  cbv beta iota zeta.

(** X14: for every number, integer or float, the module list is one of
    six lists of standard modules, always in the order sink, cooktop,
    refrigerator, followed by the storage lines of the positive counts:
    the refrigerator is never listed without the cooktop, while the sink
    is not required for the cooktop (see [pack_modules_0_7]). On a number
    the packing raises nothing but [ValueError] and [OverflowError], the
    errors of [int] on a NaN or an infinity and of the conversion of an
    integer too large for a float. *)
Theorem pack_modules_layout x :
  match pack_modules (Some x) with
  | inr (modules, storage_60, storage_40) =>
    ∃ standard,
      standard ∈ standard_layouts
      ∧ modules
        = standard ++ storage_line storage_60 "60cm"
          ++ storage_line storage_40 "40cm"
  | inl e => e = ValueError ∨ e = OverflowError
  end.
Proof.
  unfold pack_modules, storage_line.
  cbv [mbind mret Exc_bind Exc_ret].
  destruct x as [n|x]; packing;
    try (by eauto using int_raises, float_of_int_raises);
    cbn [app];
    let ls := eval unfold standard_layouts in standard_layouts in
    pick_layout ls.
Qed.

(** A size below 0.9 m that holds a cooktop: the sink is skipped and the
    cooktop placed. *)
Example pack_modules_0_7 :
  pack_modules (Some (Float 0.7))
  = inr (["1x Módulo estufa/parrilla (60cm)"], 0%Z, 0%Z).
Proof. vm_compute. reflexivity. Qed.

(** ** The reply of the classifier ([analyze_request]) *)

Lemma str_app_cons a s t : String a s +:+ t = String a (s +:+ t).
Proof. reflexivity. Qed.

Lemma str_app_assoc s t u : (s +:+ t) +:+ u = s +:+ t +:+ u.
Proof.
  induction s as [|a s IH]; [done|]. rewrite !str_app_cons. by rewrite IH.
Qed.

Lemma occurs_app c s t : occurs c (s +:+ t) = occurs c s || occurs c t.
Proof.
  induction s as [|a s IH]; [done|].
  rewrite str_app_cons. cbn [occurs]. rewrite IH. by rewrite orb_assoc.
Qed.

Lemma str_find_range c s :
  (str_find c s = (-1)%Z ∧ occurs c s = false)
  ∨ ((0 ≤ str_find c s < Z.of_nat (String.length s))%Z ∧ occurs c s = true).
Proof.
  induction s as [|a s IH]; [by left|].
  cbn [str_find occurs String.length].
  case_bool_decide as Ha; [right; split; [lia|done]|].
  cbn [orb]. destruct IH as [[-> ->]|[Hr ->]].
  - left. by rewrite bool_decide_eq_true_2.
  - right. rewrite bool_decide_eq_false_2 by lia. split; [lia|done].
Qed.

Lemma str_rfind_range c s :
  (str_rfind c s = (-1)%Z ∧ occurs c s = false)
  ∨ ((0 ≤ str_rfind c s < Z.of_nat (String.length s))%Z ∧ occurs c s = true).
Proof.
  induction s as [|a s IH]; [by left|].
  cbn [str_rfind occurs String.length].
  destruct IH as [[-> ->]|[Hr ->]].
  - rewrite bool_decide_eq_true_2 by done. rewrite orb_false_r.
    case_bool_decide; [right; split; [lia|done]|by left].
  - right. rewrite bool_decide_eq_false_2 by lia. rewrite orb_true_r.
    split; [lia|done].
Qed.

Lemma str_find_app c pre rest :
  occurs c pre = false →
  str_find c (pre +:+ String c rest) = Z.of_nat (String.length pre).
Proof.
  induction pre as [|a pre IH]; intros Hno.
  - change (str_find c (String c rest) = 0%Z). cbn [str_find].
    by rewrite bool_decide_eq_true_2.
  - rewrite str_app_cons. cbn [occurs] in Hno. apply orb_false_elim in Hno as [Ha Hno].
    cbn [str_find String.length]. rewrite Ha, (IH Hno).
    rewrite bool_decide_eq_false_2 by lia. lia.
Qed.

Lemma str_find_le c pre rest :
  (0 ≤ str_find c (pre +:+ String c rest) ≤ Z.of_nat (String.length pre))%Z.
Proof.
  induction pre as [|a pre IH].
  - change (0 ≤ str_find c (String c rest) ≤ 0)%Z. cbn [str_find].
    rewrite bool_decide_eq_true_2 by done. lia.
  - rewrite str_app_cons. cbn [str_find String.length].
    case_bool_decide; [lia|]. rewrite bool_decide_eq_false_2 by lia. lia.
Qed.

Lemma str_rfind_app c pre post :
  occurs c post = false →
  str_rfind c (pre +:+ String c post) = Z.of_nat (String.length pre).
Proof.
  intros Hno. induction pre as [|a pre IH].
  - change (str_rfind c (String c post) = 0%Z). cbn [str_rfind].
    destruct (str_rfind_range c post) as [[-> _]|[_ Ho]]; [|congruence].
    by rewrite !bool_decide_eq_true_2.
  - rewrite str_app_cons. cbn [str_rfind String.length]. rewrite IH.
    rewrite bool_decide_eq_false_2 by lia. lia.
Qed.

Lemma str_rfind_ge c pre post :
  (Z.of_nat (String.length pre) ≤ str_rfind c (pre +:+ String c post))%Z.
Proof.
  induction pre as [|a pre IH].
  - change (0 ≤ str_rfind c (String c post))%Z.
    destruct (str_rfind_range c (String c post)) as [[_ Ho]|[? _]]; [|lia].
    cbn [occurs] in Ho. by rewrite bool_decide_eq_true_2 in Ho.
  - rewrite str_app_cons. cbn [str_rfind String.length].
    rewrite bool_decide_eq_false_2 by lia. lia.
Qed.

Lemma first_occurrence c s :
  occurs c s = true →
  ∃ pre rest, s = pre +:+ String c rest ∧ occurs c pre = false.
Proof.
  induction s as [|a s IH]; [done|]. cbn [occurs].
  case_bool_decide as Ha.
  - intros _. subst a. by exists EmptyString, s.
  - cbn [orb]. intros Ho. destruct (IH Ho) as (pre & rest & -> & Hno).
    exists (String a pre), rest. split; [done|]. cbn [occurs].
    by rewrite bool_decide_eq_false_2, Hno.
Qed.

Lemma last_occurrence c s :
  occurs c s = true →
  ∃ pre post, s = pre +:+ String c post ∧ occurs c post = false.
Proof.
  induction s as [|a s IH]; [done|]. cbn [occurs].
  destruct (occurs c s) eqn:Ho.
  - intros _. destruct (IH eq_refl) as (pre & post & -> & Hno).
    by exists (String a pre), post.
  - rewrite orb_false_r. intros Ha. apply bool_decide_eq_true_1 in Ha as ->.
    by exists EmptyString, s.
Qed.

(** Two occurrences of different characters in one text, the first
    before the second. *)
Lemma split_between a b pre rest pre' post :
  pre +:+ String a rest = pre' +:+ String b post →
  String.length pre < String.length pre' →
  ∃ mid, pre' = pre +:+ String a mid ∧ rest = mid +:+ String b post.
Proof.
  revert pre'. induction pre as [|x pre IH]; intros [|y pre'] Heq Hlt;
    cbn [String.length] in Hlt; try lia.
  - change (String a rest = String y (pre' +:+ String b post)) in Heq.
    injection Heq as -> ->. by exists pre'.
  - rewrite !str_app_cons in Heq. injection Heq as -> Heq.
    destruct (IH pre' Heq) as (mid & -> & ->); [lia|]. by exists mid.
Qed.

Lemma str_substring_app pre s post :
  String.substring (String.length pre) (String.length s) (pre +:+ s +:+ post) = s.
Proof.
  induction pre as [|a pre IH]; [|done].
  change (String.substring 0 (String.length s) (s +:+ post) = s).
  induction s as [|a s IH]; [by destruct post|].
  rewrite str_app_cons. cbn [String.length String.substring]. by rewrite IH.
Qed.

Lemma str_length_app s t :
  String.length (s +:+ t) = String.length s + String.length t.
Proof.
  induction s as [|a s IH]; [done|].
  rewrite str_app_cons. cbn [String.length]. by rewrite IH.
Qed.

(** X12: the text [analyze_request] hands to [json.loads] is the span
    from the first opening brace of the reply to its last closing brace,
    both included, whatever surrounds it; there is no such text exactly
    when the reply holds no opening brace followed by a closing brace. *)
Theorem json_span_spec response :
  match json_span response with
  | Some s =>
    ∃ pre mid post,
      response = pre +:+ s +:+ post
      ∧ s = "{" +:+ mid +:+ "}"
      ∧ occurs "{" pre = false
      ∧ occurs "}" post = false
  | None =>
    ∀ pre mid post, response ≠ pre +:+ "{" +:+ mid +:+ "}" +:+ post
  end.
Proof.
  unfold json_span. cbn zeta.
  case_bool_decide as Hs; cbn [andb]; [case_bool_decide as Hlt; cbn|].
  - destruct (str_find_range "{" response) as [[? _]|[Hf Ho]]; [done|].
    destruct (str_rfind_range "}" response) as [[Hr _]|[Hr Ho']]; [lia|].
    destruct (first_occurrence _ _ Ho) as (pre & rest & Hpre & Hno).
    destruct (last_occurrence _ _ Ho') as (pre' & post & Hpost & Hno').
    pose proof (str_find_app "{" pre rest Hno) as Efind.
    pose proof (str_rfind_app "}" pre' post Hno') as Erfind.
    rewrite <- Hpre in Efind. rewrite <- Hpost in Erfind.
    rewrite Efind, Erfind in Hlt |- *.
    assert (Hne : String.length pre ≠ String.length pre').
    { intros Hlen. rewrite Hpre in Hpost.
      clear -Hpost Hlen. revert pre' Hpost Hlen.
      induction pre as [|x pre IH]; intros [|y pre'] Hpost Hlen;
        cbn [String.length] in Hlen; try lia.
      - change (String "{" rest = String "}" post) in Hpost. done.
      - rewrite !str_app_cons in Hpost. injection Hpost as _ Hpost.
        apply (IH pre' Hpost). lia. }
    rewrite Hpre in Hpost.
    destruct (split_between _ _ _ _ _ _ Hpost) as (mid & -> & ->); [lia|].
    exists pre, mid, post.
    assert (Hspan : str_slice response (Z.of_nat (String.length pre))
                      (Z.of_nat (String.length (pre +:+ String "{" mid)) + 1)
                    = "{" +:+ mid +:+ "}").
    { unfold str_slice. rewrite Hpre, Nat2Z.id.
      replace (Z.to_nat _) with (String.length ("{" +:+ mid +:+ "}")).
      - rewrite <- (str_substring_app pre ("{" +:+ mid +:+ "}") post) at 2.
        do 2 f_equal. change ("{" +:+ mid +:+ "}") with (String "{" (mid +:+ "}")).
        by rewrite str_app_cons, str_app_assoc.
      - rewrite !str_length_app. cbn [String.length]. lia. }
    rewrite Hspan. split; [|done]. rewrite Hpre. f_equal.
    change ("{" +:+ mid +:+ "}") with (String "{" (mid +:+ "}")).
    by rewrite str_app_cons, str_app_assoc.
  - intros pre mid post ->. apply Hlt.
    pose proof (str_find_le "{" pre (mid +:+ "}" +:+ post)) as Hf.
    pose proof (str_rfind_ge "}" (pre +:+ "{" +:+ mid) post) as Hr.
    rewrite str_length_app in Hr.
    assert (E : (pre +:+ "{" +:+ mid) +:+ String "}" post
                = pre +:+ String "{" (mid +:+ "}" +:+ post))
      by (by rewrite str_app_assoc).
    rewrite E in Hr.
    change (pre +:+ "{" +:+ mid +:+ "}" +:+ post)
      with (pre +:+ String "{" (mid +:+ "}" +:+ post)).
    lia.
  - intros pre mid post ->.
    pose proof (str_find_le "{" pre (mid +:+ "}" +:+ post)) as Hf.
    change (pre +:+ "{" +:+ mid +:+ "}" +:+ post)
      with (pre +:+ String "{" (mid +:+ "}" +:+ post)) in Hs.
    lia.
Qed.

(** ** The design state over a turn *)

Section DesignStateFacts.

Variable float_repr : float → string.
Variable svc : Services.

Lemma generate_design_step st l u :
  _generate_design float_repr svc st = (l, inr u) →
  frame u ∧ (quiet u ∨ generated svc st l u).
Proof.
  destruct (generate_design_cases float_repr svc st)
    as [[k ->]|(p & out & -> & Hout)]; [intros [= _ ?]; done|].
  intros [= <- ->].
  destruct (generate_image svc p) as [[|img imgs] pu|e] eqn:Hr.
  - injection Hout as ->. split; [done|]. by left.
  - cbn zeta in Hout.
    destruct (get_or (design_version st) (Some 0%Z)) as [n|] eqn:Hv; [|done].
    destruct (_generate_specs _ _ _ _ _) as [?|specs]; [done|].
    destruct (get_or (colors st) _); [|done].
    destruct (get_or (design_history st) _) as [hist|] eqn:Hh; [|done].
    destruct Hout as (text & title & [= ->]). split; [done|]. right.
    eexists p, img, imgs, pu, n, hist, _.
    split; [apply list_elem_of_further, list_elem_of_here|].
    do 3 (split; [done|]). split; [|by split_and!]. reflexivity.
  - injection Hout as ->. split; [done|]. by left.
Qed.

Lemma edit_design_step st l u :
  _edit_design float_repr svc st = (l, inr u) →
  frame u ∧ (quiet u ∨ generated svc st l u ∨ edited svc st l u).
Proof.
  pose proof (edit_design_cases float_repr svc st) as Hc.
  assert (Hgen : ∀ pre lg u,
    _generate_design float_repr svc st = (lg, inr u) →
    frame u ∧ (quiet u ∨ generated svc st (pre ++ lg) u ∨ edited svc st (pre ++ lg) u)).
  { intros pre lg u' Hg. destruct (generate_design_step _ _ _ Hg) as [Hf Hs].
    split; [done|]. destruct Hs as [?|Hs]; [by left|]. right. left.
    destruct Hs as (p & img & imgs & pu & n & hist & entry & Hin & Hrest).
    eexists p, img, imgs, pu, n, hist, entry. split; [|done].
    apply elem_of_app. by right. }
  destruct (_generate_design float_repr svc st) as [lg og] eqn:Hg.
  cbn [fst snd] in Hc.
  destruct (get (current_image st)) as [[|a img]|].
  - rewrite Hc. intros [= <- ->]. by apply (Hgen [Enter edit]).
  - destruct Hc as [instr Hc].
    destruct (edit_image svc _ instr) as [[|new_image imgs] pu|e] eqn:Hr.
    + rewrite Hc. intros [= <- ->].
      by apply (Hgen [Enter edit; EditImage (String a img) instr]).
    + destruct Hc as (out & -> & Hout). intros [= <- ->].
      destruct (get_or (design_version st) (Some 0%Z)) as [n|] eqn:Hv; [|done].
      destruct Hout as (text & title & [= ->]). split; [done|]. right. right.
      eexists _, instr, new_image, imgs, pu, n.
      split; [apply list_elem_of_further, list_elem_of_here|]. done.
    + rewrite Hc. intros [= <- <-]. split; [done|]. by left.
  - rewrite Hc. intros [= <- ->]. by apply (Hgen [Enter edit]).
Qed.

(** What a branch may write. *)
Lemma branch_step n st l u :
  n ≠ analyze →
  node_fn float_repr svc n st = (l, inr u) →
  frame u ∧ (quiet u ∨ generated svc st l u ∨ edited svc st l u).
Proof.
  intros Hn. destruct n; cbn [node_fn]; [done|..].
  - destruct (ask_clarification_eq st) as [text ->].
    intros [= <- <-]. split; [done|]. by left.
  - intros Hg. destruct (generate_design_step _ _ _ Hg) as [Hf Hs].
    split; [done|]. destruct Hs; auto.
  - apply edit_design_step.
  - destruct (generate_response_cases svc st)
      as [->|(h & m & [(x & _ & ->)|[(x & _ & ->)|(x & _ & ->)]])];
      intros [= <- <-]; (split; [done|]); by left.
  - rewrite format_output_eq. intros [= <- <-]. split; [done|]. by left.
Qed.

Lemma route_not_analyze st : _route_action st ≠ analyze.
Proof.
  intros E. pose proof (route_action_range st) as H. rewrite E in H.
  in_log H; done.
Qed.

(** A returning turn, in its three steps. *)
Lemma invoke_returns st log final :
  invoke float_repr svc st = (log, inr final) →
  ∃ l1 u1 l2 u2,
    _analyze_input svc st = (l1, inr u1)
    ∧ node_fn float_repr svc (_route_action (apply_updates st u1))
        (apply_updates st u1) = (l2, inr u2)
    ∧ log = l1 ++ l2 ++ [Enter format_output]
    ∧ final
      = apply_updates (apply_updates (apply_updates st u1) u2)
          (set_response_text
             (get_or (response_text (apply_updates (apply_updates st u1) u2)) "")
          (set_artifacts
             (get_or (artifacts (apply_updates (apply_updates st u1) u2)) [])
             empty_dict)).
Proof.
  rewrite invoke_eq.
  destruct (_analyze_input svc st) as [l1 [e|u1]]; [done|]. cbn zeta.
  destruct (node_fn _ _ _ _) as [l2 [e|u2]] eqn:Hn; [done|].
  intros [= <- <-]. by eexists _, _, _, _.
Qed.

(** X1: a turn that returns either leaves [design_version],
    [current_image] and [design_history] as they were, or raises the
    version by exactly one and stores an image; in that case the history
    is either unchanged (an edit) or extended by one entry that carries the
    new version (a generation). No turn lowers the version, drops the
    image or removes a history entry. *)
Theorem turn_design_step st log final :
  invoke float_repr svc st = (log, inr final) →
  (design_version final = design_version st
   ∧ current_image final = current_image st
   ∧ design_history final = design_history st)
  ∨ ∃ n img,
      get_or (design_version st) (Some 0%Z) = Some n
      ∧ design_version final = Some (Some (n + 1)%Z)
      ∧ current_image final = Some (Some img)
      ∧ (design_history final = design_history st
         ∨ ∃ hist entry,
             get_or (design_history st) (Some []) = Some hist
             ∧ design_history final = Some (Some (hist ++ [entry]))
             ∧ History.version entry = (n + 1)%Z).
Proof.
  intros Hrun.
  destruct (invoke_returns _ _ _ Hrun) as (l1 & u1 & l2 & u2 & Ha & Hn & -> & ->).
  destruct (analyze_input_inv svc _ _ _ Ha) as [_ Hu1].
  destruct (Hu1 u1 eq_refl) as (Hv & Hi & Hh & _).
  destruct (branch_step _ _ _ _ (route_not_analyze _) Hn) as [_ Hs].
  destruct Hs as [(Hqv & Hqi & Hqh)|[Hg|He]].
  - left. cbn. by rewrite Hv, Hi, Hh, Hqv, Hqi, Hqh.
  - right.
    destruct Hg as (p & img & imgs & pu & n & hist & entry & _ & _ & Hn0 & Hh0
                    & Hve & Hgv & Hgi & Hgh).
    exists n, img. cbn in Hn0, Hh0. rewrite Hv in Hn0. rewrite Hh in Hh0.
    cbn. rewrite Hgv, Hgi, Hgh. split; [done|]. split; [done|]. split; [done|].
    right. by exists hist, entry.
  - right.
    destruct He as (b & i & img & imgs & pu & n & _ & _ & Hn0 & Hev & Hei & Heh).
    exists n, img. cbn in Hn0. rewrite Hv in Hn0.
    cbn. rewrite Hev, Hei, Heh, Hh. split; [done|]. split; [done|].
    split; [done|]. by left.
Qed.

(** X3: no node writes the messages, the user or the conversation
    identifier. A turn that returns holds in [messages] what the reducer
    made of them before the first node ran, the messages of the checkpoint
    followed by those of the input, and the two identifiers of the input,
    or of the checkpoint where the input has none. The design parameters
    it ends with are those the analysis merged: the branches write none of
    them. In particular the defaults [_generate_design] falls back on are
    not stored. *)
Theorem turn_frame checkpoint input log final :
  ainvoke float_repr svc checkpoint input = (log, inr final) →
  ∃ st l1 u1,
    channels checkpoint input = inr st
    ∧ _analyze_input svc st = (l1, inr u1)
    ∧ messages final
      = Some (Some (stored_messages checkpoint ++ input_messages input))
    ∧ user_id final = overwrite (user_id checkpoint) (user_id input)
    ∧ conversation_id final
      = overwrite (conversation_id checkpoint) (conversation_id input)
    ∧ linear_meters final = linear_meters (apply_updates st u1)
    ∧ shape final = shape (apply_updates st u1)
    ∧ style final = style (apply_updates st u1)
    ∧ materials final = materials (apply_updates st u1)
    ∧ colors final = colors (apply_updates st u1)
    ∧ budget final = budget (apply_updates st u1).
Proof.
  rewrite ainvoke_eq.
  destruct (channels checkpoint input) as [e|st] eqn:Hch; [done|].
  intros Hrun.
  destruct (channels_inv _ _ _ Hch) as (_ & Hmsgs & Hui & Hci & _).
  destruct (invoke_returns _ _ _ Hrun) as (l1 & u1 & l2 & u2 & Ha & Hn & -> & ->).
  destruct (branch_step _ _ _ _ (route_not_analyze _) Hn)
    as [(Hm & Hu & Hc & Hlm & Hsh & Hsty & Hmat & Hcol & Hb) _].
  exists st, l1, u1. do 2 (split; [done|]).
  destruct (analyze_input_keys _ _ _ _ Ha) as (Hm1 & Hu1 & Hc1).
  cbn. rewrite Hm, Hu, Hc, Hlm, Hsh, Hsty, Hmat, Hcol, Hb, Hm1, Hu1, Hc1.
  cbn. by rewrite Hmsgs, Hui, Hci.
Qed.

End DesignStateFacts.

(** ** The calls of a turn *)

Section ServiceFacts.

Variable float_repr : float → string.
Variable svc : Services.

Lemma generate_design_log_shape st :
  generate_log (_generate_design float_repr svc st).1.
Proof.
  destruct (generate_design_cases float_repr svc st)
    as [[k ->]|(p & out & -> & _)]; [by left|right; by exists p].
Qed.

Lemma route_log_shape st :
  branch_log (node_fn float_repr svc (_route_action st) st).1.
Proof.
  pose proof (route_action_range st) as Hr.
  pose proof (generate_design_log_shape st) as Hg.
  in_log Hr; rewrite Hr; cbn [node_fn].
  - destruct (ask_clarification_eq st) as [text ->]. by left.
  - do 3 right. by left.
  - pose proof (edit_design_cases float_repr svc st) as Hc.
    destruct (get (current_image st)) as [[|a img]|].
    + rewrite Hc. do 4 right. left. by eexists.
    + destruct Hc as [instr Hc].
      destruct (edit_image svc _ instr) as [[|new_image imgs] pu|e].
      * rewrite Hc. do 6 right. by eexists _, _, _.
      * destruct Hc as (out & -> & _). do 5 right. left. by eexists _, _.
      * rewrite Hc. do 5 right. left. by eexists _, _.
    + rewrite Hc. do 4 right. left. by eexists.
  - destruct (generate_response_cases svc st)
      as [->|(h & m & [(x & _ & ->)|[(x & _ & ->)|(x & _ & ->)]])].
    + right. by left.
    + do 2 right. left. exists h. by left.
    + do 2 right. left. exists h. right. by exists m.
    + do 2 right. left. exists h. right. by exists m.
Qed.

Lemma analyze_log_shape st :
  (_analyze_input svc st).1 = [Enter analyze]
  ∨ ∃ m c, (_analyze_input svc st).1 = [Enter analyze; AnalyzeRequest m c].
Proof.
  destruct (get_or (messages st) (Some [])) as [[|first rest]|] eqn:Hm.
  1,3: left; by rewrite analyze_input_empty by (by rewrite Hm).
  right. rewrite (analyze_input_cases _ _ _ _ Hm). by eexists _, _.
Qed.

(** The log of a turn: the analysis, then nothing more if it raised, or
    the log of one branch and, if the branch returned, [format_output]. *)
Lemma invoke_log_shape st log out :
  invoke float_repr svc st = (log, out) →
  ∃ la lb,
    ((la = [Enter analyze]) ∨ ∃ m c, la = [Enter analyze; AnalyzeRequest m c])
    ∧ (lb = [] ∨ branch_log lb ∨ ∃ lb', branch_log lb' ∧ lb = lb' ++ [Enter format_output])
    ∧ log = la ++ lb.
Proof.
  rewrite invoke_eq.
  pose proof (analyze_log_shape st) as Ha.
  destruct (_analyze_input svc st) as [l1 [e|u1]]; cbn [fst] in Ha.
  - intros [= <- _]. exists l1, []. split; [done|]. split; [by left|].
    by rewrite app_nil_r.
  - cbn zeta. pose proof (route_log_shape (apply_updates st u1)) as Hb.
    destruct (node_fn _ _ _ _) as [l2 [e|u2]]; cbn [fst] in Hb;
      intros [= <- _]; eexists l1, _; (split; [done|]); (split; [|done]).
    + right. by left.
    + right. right. by eexists.
Qed.

(** X9: the calls the agent makes in one turn, whether it returns or
    raises: at most one [analyze_request], at most one
    [generate_kitchen_image] request, at most one [edit_kitchen_image]
    request and at most one [send_message] of its own. A turn that
    requests an image sends no chat message and enters neither the clarify
    nor the respond node; a generation request comes with exactly one
    entry into the generator and an edit request with exactly one entry
    into the edit node. *)
Theorem turn_service_calls st log out :
  invoke float_repr svc st = (log, out) →
  count is_analysis log ≤ 1
  ∧ count is_generation log ≤ 1
  ∧ count is_edit log ≤ 1
  ∧ count is_send log ≤ 1
  ∧ (0 < count is_generation log + count is_edit log →
     count is_send log = 0 ∧ count (is_entry clarify) log = 0
     ∧ count (is_entry respond) log = 0)
  ∧ (0 < count is_generation log → count (is_entry generate) log = 1)
  ∧ (0 < count is_edit log → count (is_entry edit) log = 1).
Proof.
  intros Hrun.
  destruct (invoke_log_shape _ _ _ Hrun) as (la & lb & Ha & Hb & ->).
  assert (Hgl : ∀ lg, generate_log lg →
            lg = [Enter generate] ∨ ∃ p, lg = [Enter generate; GenerateImage p])
    by done.
  assert (Hbl : ∀ l, branch_log l →
    count is_analysis l = 0 ∧ count is_generation l ≤ 1 ∧ count is_edit l ≤ 1
    ∧ count is_send l ≤ 1
    ∧ (0 < count is_generation l + count is_edit l →
       count is_send l = 0 ∧ count (is_entry clarify) l = 0
       ∧ count (is_entry respond) l = 0)
    ∧ (0 < count is_generation l → count (is_entry generate) l = 1)
    ∧ (0 < count is_edit l → count (is_entry edit) l = 1)
    ∧ count (is_entry format_output) l = 0).
  { intros l Hl.
    destruct Hl as [->|[->|[(h & [->|[m ->]])|[Hg|[(lg & Hg & ->)|[(b & i & ->)
                   |(b & i & lg & Hg & ->)]]]]]];
      try (destruct (Hgl _ Hg) as [->|[p ->]]);
      cbn; repeat split; intros; try lia; done. }
  assert (Hcount : ∀ f l1 l2, count f (l1 ++ l2) = count f l1 + count f l2).
  { intros f l1 l2. unfold count. by rewrite List.filter_app, length_app. }
  assert (Hla : count is_analysis la ≤ 1 ∧ count is_generation la = 0
                ∧ count is_edit la = 0 ∧ count is_send la = 0
                ∧ count (is_entry clarify) la = 0
                ∧ count (is_entry respond) la = 0
                ∧ count (is_entry generate) la = 0
                ∧ count (is_entry edit) la = 0).
  { destruct Ha as [->|(m & c & ->)]; cbn; repeat split; lia. }
  destruct Hla as (Ha1 & Ha2 & Ha3 & Ha4 & Ha5 & Ha6 & Ha7 & Ha8).
  rewrite !Hcount, Ha2, Ha3, Ha4, Ha5, Ha6, Ha7, Ha8.
  destruct Hb as [->|[Hb|(lb' & Hb & ->)]].
  - cbn. repeat split; intros; lia.
  - destruct (Hbl _ Hb) as (? & ? & ? & ? & ? & ? & ? & ?).
    intuition lia.
  - destruct (Hbl _ Hb) as (? & ? & ? & ? & ? & ? & ? & ?).
    assert (Hf : ∀ f, f (Enter format_output) = false →
                      count f [Enter format_output] = 0)
      by (intros f Hf; unfold count; cbn; by rewrite Hf).
    rewrite !Hcount, !Hf by done.
    intuition lia.
Qed.

(** X7: without a stored image (none, or the empty text) the edit node
    is the generator: it returns what [_generate_design] returns on the
    same state and sends no edit request. *)
Theorem edit_without_image_is_generate st :
  truthy truthy_str (get (current_image st)) = false →
  _edit_design float_repr svc st
  = (Enter edit :: (_generate_design float_repr svc st).1,
     (_generate_design float_repr svc st).2)
  ∧ count is_edit (_edit_design float_repr svc st).1 = 0.
Proof.
  intros Hi. pose proof (edit_design_cases float_repr svc st) as Hc.
  assert (He : _edit_design float_repr svc st
               = (Enter edit :: (_generate_design float_repr svc st).1,
                  (_generate_design float_repr svc st).2))
    by (by destruct (get (current_image st)) as [[|a img]|]).
  split; [done|]. rewrite He. cbn [fst].
  by destruct (generate_design_log_shape st) as [->|[p ->]].
Qed.

(** The image helper stops on the first key a non-empty materials
    dictionary lacks, before any request; otherwise it makes one request. *)
Lemma generate_kitchen_image_missing lm sh sty mats cols :
  match (match mats with
         | Some m => if truthy_dict m then first_missing m else None
         | None => None
         end) with
  | Some k =>
    generate_kitchen_image float_repr svc lm sh sty mats cols
    = ([], inl (KeyError k))
  | None =>
    ∃ p, generate_kitchen_image float_repr svc lm sh sty mats cols
         = ([GenerateImage p], inr (generate_image svc p))
  end.
Proof.
  unfold generate_kitchen_image, first_missing, required_materials, subscript.
  destruct mats as [m|]; cbn [truthy get_or]; [|by eexists].
  destruct (truthy_dict m); [|by eexists].
  cbn [List.filter].
  destruct (m !! "cabinets") as [c1|] eqn:H1; [|done].
  destruct (m !! "countertop") as [c2|] eqn:H2; [|done].
  destruct (m !! "backsplash") as [c3|] eqn:H3; [|done].
  by eexists.
Qed.

(** X8: [_generate_design] raises [KeyError] exactly when the materials
    in effect are a non-empty dictionary that lacks one of the keys
    cabinets, countertop and backsplash: the error names the first missing
    key in that order and no request reaches the Image Service. In every
    other case exactly one generation request is made. *)
Theorem generate_missing_material st :
  match missing_material st with
  | Some k =>
    _generate_design float_repr svc st = ([Enter generate], inl (KeyError k))
  | None =>
    ∃ p out,
      _generate_design float_repr svc st
      = ([Enter generate; GenerateImage p], out)
  end.
Proof.
  unfold missing_material, _generate_design. rewrite bind_tell.
  fold defaults_materials. cbn zeta.
  pose proof (generate_kitchen_image_missing
                (get_or (linear_meters st) (Some (Float 3.0)))
                (get_or (shape st) (Some "L"))
                (get_or (style st) (Some "modern"))
                (get_or (materials st) (Some defaults_materials))
                (get_or (colors st) (Some ["white"; "gray"]))) as Hk.
  destruct (match get_or (materials st) (Some defaults_materials) with
            | Some m => if truthy_dict m then first_missing m else None
            | None => None
            end) as [k|].
  - by rewrite Hk.
  - destruct Hk as [p Hp].
    destruct (generate_design_cases float_repr svc st)
      as [[k Hk]|(p' & out & Hd & _)]; [|by eexists _, _].
    exfalso. revert Hk. unfold _generate_design. rewrite bind_tell.
    fold defaults_materials. cbn zeta. by rewrite Hp, bind_pair.
Qed.

End ServiceFacts.

(** ** The outcome of a generation *)

Section GenerationFacts.

Variable float_repr : float → string.
Variable svc : Services.

(** A generation request in the log of a branch that returned was made by
    [_generate_design], run on the state of the branch, and the updates of
    the branch are its updates. *)
Lemma node_generate_event n st l u p :
  node_fn float_repr svc n st = (l, inr u) →
  GenerateImage p ∈ l →
  ∃ lg, _generate_design float_repr svc st = (lg, inr u) ∧ GenerateImage p ∈ lg.
Proof.
  destruct n; cbn [node_fn].
  - intros Ha Hin. destruct (analyze_input_inv _ _ _ _ Ha) as [Hl _].
    by destruct (Hl _ Hin) as [?|(?&?&?)].
  - destruct (ask_clarification_eq st) as [text ->].
    intros [= <- <-] Hin. in_log Hin; done.
  - intros Hg Hin. by exists l.
  - pose proof (edit_design_cases float_repr svc st) as Hc.
    destruct (_generate_design float_repr svc st) as [lg og] eqn:Hg.
    cbn [fst snd] in Hc.
    destruct (get (current_image st)) as [[|a img]|].
    + rewrite Hc. intros [= <- ->] Hin. in_log Hin; [done|]. by exists lg.
    + destruct Hc as [instr Hc].
      destruct (edit_image svc _ instr) as [[|new_image imgs] pu|e].
      * rewrite Hc. intros [= <- ->] Hin. in_log Hin; [done|done|].
        by exists lg.
      * destruct Hc as (out0 & -> & _). intros [= <- <-] Hin.
        in_log Hin; done.
      * rewrite Hc. intros [= <- <-] Hin. in_log Hin; done.
    + rewrite Hc. intros [= <- ->] Hin. in_log Hin; [done|]. by exists lg.
  - intros Hr Hin.
    assert (Hin' : GenerateImage p ∈ (_generate_response svc st).1)
      by (by rewrite Hr).
    by destruct (generate_response_log _ _ _ Hin') as [?|[[??]|[??]]].
  - rewrite format_output_eq. intros [= <- <-] Hin. in_log Hin; done.
Qed.

(** The updates of a generation whose image arrived. *)
Lemma generate_design_success st lg u p img imgs pu :
  _generate_design float_repr svc st = (lg, inr u) →
  GenerateImage p ∈ lg →
  generate_image svc p = ImageSuccess (img :: imgs) pu →
  let lm := get_or (linear_meters st) (Some (Float 3.0)) in
  let sh := get_or (shape st) (Some "L") in
  let sty := get_or (style st) (Some "modern") in
  let mats := get_or (materials st) (Some defaults_materials) in
  ∃ n specs hist text title,
    get_or (design_version st) (Some 0%Z) = Some n
    ∧ _generate_specs float_repr lm sh sty mats = inr specs
    ∧ get_or (design_history st) (Some []) = Some hist
    ∧ u = set_response_text text
          (set_artifacts
             [ {| Artifact.type := "image";
                  Artifact.title := title;
                  Artifact.image_data := Some img;
                  Artifact.content := None;
                  Artifact.meta := GeneratedMeta lm sh sty (n + 1)%Z |};
               {| Artifact.type := "specs";
                  Artifact.title := "Especificaciones Técnicas";
                  Artifact.image_data := None;
                  Artifact.content := Some specs;
                  Artifact.meta := EmptyMeta |} ]
          (set_current_image (Some img)
          (set_design_version (Some (n + 1)%Z)
          (set_design_history
             (Some (hist ++
                [ {| History.version := (n + 1)%Z;
                     History.linear_meters := lm;
                     History.shape := sh;
                     History.style := sty;
                     History.materials := mats |} ]))
             empty_dict)))).
Proof.
  destruct (generate_design_cases float_repr svc st)
    as [[k ->]|(p0 & out0 & -> & Hout)].
  - intros [= <- ?]; done.
  - intros [= <- ->] Hin Hok. in_log Hin; [done|]. injection Hin as ->.
    rewrite Hok in Hout. cbn zeta in Hout |- *.
    destruct (get_or (design_version st) (Some 0%Z)) as [n|]; [|done].
    destruct (_generate_specs _ _ _ _ _) as [?|specs]; [done|].
    destruct (get_or (colors st) _); [|done].
    destruct (get_or (design_history st) _) as [hist|]; [|done].
    destruct Hout as (text & title & [= ->]).
    by eexists n, specs, hist, text, title.
Qed.

(** X2: in a turn that returns and in which the Image Service answers a
    generation request with at least one image, the returned state, the
    image artifact and the new history entry agree: the version is the
    previous one plus one in all three, the stored image is the first image
    of the answer, the artifact metadata and the history entry hold the
    linear size, shape and style of the returned state (3.0, L and modern
    where the state has no such key), and the second artifact is the
    document [_generate_specs] computes from them. *)
Theorem generate_success_turn st log final p img imgs pu :
  invoke float_repr svc st = (log, inr final) →
  GenerateImage p ∈ log →
  generate_image svc p = ImageSuccess (img :: imgs) pu →
  let lm := get_or (linear_meters final) (Some (Float 3.0)) in
  let sh := get_or (shape final) (Some "L") in
  let sty := get_or (style final) (Some "modern") in
  let mats := get_or (materials final) (Some defaults_materials) in
  ∃ n specs hist title,
    get_or (design_version st) (Some 0%Z) = Some n
    ∧ get_or (design_history st) (Some []) = Some hist
    ∧ _generate_specs float_repr lm sh sty mats = inr specs
    ∧ design_version final = Some (Some (n + 1)%Z)
    ∧ current_image final = Some (Some img)
    ∧ artifacts final
      = Some [ {| Artifact.type := "image";
                  Artifact.title := title;
                  Artifact.image_data := Some img;
                  Artifact.content := None;
                  Artifact.meta := GeneratedMeta lm sh sty (n + 1)%Z |};
               {| Artifact.type := "specs";
                  Artifact.title := "Especificaciones Técnicas";
                  Artifact.image_data := None;
                  Artifact.content := Some specs;
                  Artifact.meta := EmptyMeta |} ]
    ∧ design_history final
      = Some (Some (hist ++
           [ {| History.version := (n + 1)%Z;
                History.linear_meters := lm;
                History.shape := sh;
                History.style := sty;
                History.materials := mats |} ])).
Proof.
  intros Hrun Hin Hok.
  destruct (invoke_returns _ _ _ _ _ Hrun)
    as (l1 & u1 & l2 & u2 & Ha & Hn & -> & ->).
  destruct (analyze_input_inv _ _ _ _ Ha) as [Hl1 Hu1].
  destruct (Hu1 u1 eq_refl) as (Hv & Hi & Hh & _).
  assert (Hin2 : GenerateImage p ∈ l2).
  { repeat (apply elem_of_app in Hin as [Hin|Hin]); try done.
    - by destruct (Hl1 _ Hin) as [?|(?&?&?)].
    - in_log Hin. done. }
  destruct (node_generate_event _ _ _ _ _ Hn Hin2) as (lg & Hg & Hing).
  destruct (generate_design_success _ _ _ _ _ _ _ Hg Hing Hok)
    as (n & specs & hist & text & title & Hn0 & Hspecs & Hh0 & ->).
  cbn in Hn0, Hh0. rewrite Hv in Hn0. rewrite Hh in Hh0.
  exists n, specs, hist, title. cbn.
  split; [done|]. split; [done|]. split; [exact Hspecs|]. done.
Qed.

End GenerationFacts.

(** ** Routing, conversation and clarification *)

Section BranchFacts.

Variable float_repr : float → string.
Variable svc : Services.

(** The nodes a node enters: itself, and [generate] from [edit]. *)
Lemma node_entry n st m :
  Enter m ∈ (node_fn float_repr svc n st).1 →
  m = n ∨ (n = edit ∧ m = generate).
Proof.
  assert (Hgen : ∀ e, e ∈ (_generate_design float_repr svc st).1 →
                      e = Enter m → m = generate).
  { intros e He ->.
    destruct (generate_design_log float_repr svc _ _ He) as [[= ->]|[? ?]];
      done. }
  destruct n; cbn [node_fn].
  - destruct (_analyze_input svc st) as [l o] eqn:Ha.
    destruct (analyze_input_inv _ _ _ _ Ha) as [Hl _].
    intros Hin. destruct (Hl _ Hin) as [[= ->]|(?&?&?)]; [by left|done].
  - destruct (ask_clarification_eq st) as [text ->].
    intros Hin. in_log Hin. injection Hin as ->. by left.
  - intros Hin. left. by apply (Hgen _ Hin).
  - pose proof (edit_design_cases float_repr svc st) as Hc.
    assert (Hed : ∀ pre, (∀ e, e ∈ pre → e = Enter m → m = edit) →
              Enter m ∈ pre ++ (_generate_design float_repr svc st).1 →
              m = edit ∨ edit = edit ∧ m = generate).
    { intros pre Hpre Hin. apply elem_of_app in Hin as [Hin|Hin].
      - left. by apply (Hpre _ Hin).
      - right. split; [done|]. by apply (Hgen _ Hin). }
    assert (Hpre : ∀ (pre : list event) (e : event), e ∈ pre → e = Enter m →
              (∀ e' : event,
                 e' ∈ pre → e' = Enter edit ∨ ∃ b i, e' = EditImage b i) →
              m = edit).
    { intros pre e He -> Hall.
      destruct (Hall _ He) as [[= ->]|(?&?&?)]; done. }
    destruct (get (current_image st)) as [[|a img]|].
    + rewrite Hc. apply (Hed [Enter edit]).
      intros e He Heq. apply (Hpre _ _ He Heq).
      intros e' He'. in_log He'. by left.
    + destruct Hc as [instr Hc].
      destruct (edit_image svc _ instr) as [[|new_image imgs] pu|e].
      * rewrite Hc. apply (Hed [Enter edit; EditImage (String a img) instr]).
        intros e He Heq. apply (Hpre _ _ He Heq).
        intros e' He'. in_log He'; [by left|right; by eexists _, _].
      * destruct Hc as (out0 & -> & _). intros Hin. left.
        apply (Hpre _ _ Hin eq_refl).
        intros e' He'. in_log He'; [by left|right; by eexists _, _].
      * rewrite Hc. intros Hin. left. apply (Hpre _ _ Hin eq_refl).
        intros e' He'. in_log He'; [by left|right; by eexists _, _].
    + rewrite Hc. apply (Hed [Enter edit]).
      intros e He Heq. apply (Hpre _ _ He Heq).
      intros e' He'. in_log He'. by left.
  - intros Hin.
    destruct (generate_response_log _ _ _ Hin) as [[= ->]|[[??]|[??]]];
      [by left|done..].
  - rewrite format_output_eq. intros Hin. in_log Hin.
    injection Hin as ->. by left.
Qed.

(** The branch of a returning turn whose log enters [m], for a branch [m]
    that only the router reaches. *)
Lemma invoke_branch st log final m :
  invoke float_repr svc st = (log, inr final) →
  Enter m ∈ log →
  m = clarify ∨ m = respond →
  ∃ l1 u1 l2 u2,
    _analyze_input svc st = (l1, inr u1)
    ∧ node_fn float_repr svc m (apply_updates st u1) = (l2, inr u2)
    ∧ log = l1 ++ l2 ++ [Enter format_output]
    ∧ final
      = apply_updates (apply_updates (apply_updates st u1) u2)
          (set_response_text
             (get_or (response_text (apply_updates (apply_updates st u1) u2)) "")
          (set_artifacts
             (get_or (artifacts (apply_updates (apply_updates st u1) u2)) [])
             empty_dict)).
Proof.
  intros Hrun Hin Hm.
  destruct (invoke_returns _ _ _ _ _ Hrun)
    as (l1 & u1 & l2 & u2 & Ha & Hn & -> & ->).
  destruct (analyze_input_inv _ _ _ _ Ha) as [Hl1 _].
  assert (Hr : _route_action (apply_updates st u1) = m).
  { repeat (apply elem_of_app in Hin as [Hin|Hin]).
    - destruct (Hl1 _ Hin) as [[= ->]|(?&?&?)]; [|done]. by destruct Hm.
    - assert (Hin' : Enter m ∈ (node_fn float_repr svc
                (_route_action (apply_updates st u1)) (apply_updates st u1)).1)
        by (by rewrite Hn).
      destruct (node_entry _ _ _ Hin') as [->|[_ ->]]; [done|by destruct Hm].
    - in_log Hin. injection Hin as ->. by destruct Hm. }
  rewrite Hr in Hn. by eexists l1, u1, l2, u2.
Qed.

(** What the analysis leaves alone besides the design state. *)
Lemma analyze_input_messages st l u :
  _analyze_input svc st = (l, inr u) → messages u = None.
Proof. intros Ha. by destruct (analyze_input_keys _ _ _ _ Ha). Qed.

(** [_generate_response] on a state with a message: the replay of the
    history, then the message, each of which may raise. *)
Lemma generate_response_message st first rest :
  get_or (messages st) (Some []) = Some (first :: rest) →
  let h := history_of (first :: rest) in
  let msg := last_content first rest in
  _generate_response svc st
  = match start_chat svc h with
    | inl e => ([Enter respond; StartChat h], inl e)
    | inr _ =>
      ([Enter respond; StartChat h; SendMessage msg],
       match reply svc h msg with
       | inl e => inl e
       | inr text => inr (set_response_text text (set_artifacts [] empty_dict))
       end)
    end.
Proof.
  intros Hm. unfold _generate_response. rewrite Hm, bind_tell.
  unfold history_of, last_content. cbv zeta.
  rewrite bind_tell. cbn [fst snd]. rewrite bind_lift.
  destruct (start_chat svc _) as [e|[]]; [done|].
  rewrite bind_tell. cbn [fst snd]. rewrite bind_lift.
  by destruct (reply svc _ _).
Qed.

(** X4: the routing of a turn with a message, beyond C6. A
    classification [edit] goes to the edit node whatever the state holds;
    [generate] goes to the generator as soon as the extraction or the
    state holds a linear size; every other action but [clarification]
    (also a null or missing one) goes to the conversational reply. The
    flag [needs_clarification] the turn leaves is set exactly when the
    router chose [clarify]: a flag left by an earlier turn does not
    survive the analysis. *)
Theorem route_after_analysis st log u msg ctx :
  _analyze_input svc st = (log, inr u) →
  AnalyzeRequest msg ctx ∈ log →
  ∃ an,
    analyze_request svc msg ctx = inr an
    ∧ let act := get (Analysis.action an) in
      let st' := apply_updates st u in
      (act = Some "edit" → _route_action st' = edit)
      ∧ (act = Some "generate" →
         truthy truthy_number (get (Analysis.linear_meters an)) = true
         ∨ truthy truthy_number (get (linear_meters st)) = true →
         _route_action st' = generate)
      ∧ (act ≠ Some "clarification" → act ≠ Some "generate" →
         act ≠ Some "edit" →
         _route_action st' = respond)
      ∧ needs_clarification st'
        = Some (bool_decide (_route_action st' = clarify)).
Proof.
  intros Ha Hin.
  destruct (analyze_input_request _ _ _ _ _ _ Ha Hin)
    as (first & rest & an & mats & Hm & _ & _ & _ & Han & Hu' & _).
  exists an. split; [done|]. intros act st'.
  unfold st', _route_action. rewrite Hu'. cbn. unfold act.
  destruct (Analysis.action an) as [[a|]|]; cbn.
  2,3: repeat split; try done; by rewrite bool_decide_eq_false_2.
  destruct (decide (a = "generate")) as [->|Hg].
  { rewrite (bool_decide_eq_true_2 (Some "generate" = Some "generate")) by done.
    rewrite (bool_decide_eq_false_2 (Some "generate" = Some "clarification"))
      by done. cbn.
    destruct (truthy truthy_number (get (Analysis.linear_meters an)));
    destruct (truthy truthy_number (get (linear_meters st))); cbn;
      repeat split; try done; intros; by intuition. }
  rewrite (bool_decide_eq_false_2 (Some a = Some "generate")) by congruence.
  cbn.
  destruct (decide (a = "clarification")) as [->|Hc].
  { rewrite (bool_decide_eq_true_2 (Some "clarification" = Some "clarification"))
      by done. repeat split; try done. }
  rewrite (bool_decide_eq_false_2 (Some a = Some "clarification")) by congruence.
  destruct (decide (a = "edit")) as [->|He].
  { rewrite (bool_decide_eq_true_2 (Some "edit" = Some "edit")) by done.
    repeat split; try done. }
  rewrite (bool_decide_eq_false_2 (Some a = Some "edit")) by congruence.
  repeat split; try done; congruence.
Qed.

(** X5: a turn that enters the respond node with a message in the
    channel and returns consists of one classification and one chat
    exchange. The messages of the turn are those of the checkpoint
    followed by those of the input: the message sent to the chat is the
    last of them, the very message that was classified, and the history
    handed to [start_chat] is all the others, so what the checkpoint holds
    comes before what the input holds. Both chat calls returned, the
    reply is the response text with no artifact, and the design state is
    the one of the channels. *)
Theorem converse_turn checkpoint input first rest log final :
  stored_messages checkpoint ++ input_messages input = first :: rest →
  ainvoke float_repr svc checkpoint input = (log, inr final) →
  Enter respond ∈ log →
  ∃ st text,
    channels checkpoint input = inr st
    ∧ let msg := last_content first rest in
      let h := history_of (first :: rest) in
      log = [Enter analyze; AnalyzeRequest msg (context_of st);
             Enter respond; StartChat h; SendMessage msg; Enter format_output]
      ∧ start_chat svc h = inr ()
      ∧ reply svc h msg = inr text
      ∧ response_text final = Some text
      ∧ artifacts final = Some []
      ∧ design_version final = design_version st
      ∧ current_image final = current_image st
      ∧ design_history final = design_history st.
Proof.
  intros Hmsgs. rewrite ainvoke_eq.
  destruct (channels checkpoint input) as [e|st] eqn:Hch; [done|].
  intros Hrun Hin.
  destruct (channels_inv _ _ _ Hch) as (_ & Hst & _).
  rewrite Hmsgs in Hst.
  assert (Hm : get_or (messages st) (Some []) = Some (first :: rest))
    by (by rewrite Hst).
  destruct (invoke_branch _ _ _ _ Hrun Hin (or_intror eq_refl))
    as (l1 & u1 & l2 & u2 & Ha & Hn & -> & ->).
  destruct (analyze_input_inv _ _ _ _ Ha) as [_ Hu1].
  destruct (Hu1 u1 eq_refl) as (Hv & Hi & Hh & _).
  pose proof (analyze_input_messages _ _ _ Ha) as Hmu.
  cbn [node_fn] in Hn.
  rewrite (generate_response_message _ first rest) in Hn
    by (cbn; by rewrite Hmu).
  cbn zeta in Hn.
  destruct (start_chat svc _) as [e|[]] eqn:Hs; [done|].
  destruct (reply svc _ _) as [e|text] eqn:Hr; [done|].
  injection Hn as <- <-.
  rewrite (analyze_input_cases _ _ _ _ Hm) in Ha. injection Ha as <- _.
  exists st, text. split; [done|]. cbn zeta.
  split; [done|]. split; [done|]. split; [done|].
  cbn. by rewrite Hv, Hi, Hh.
Qed.

(** [_ask_clarification], with the lines of its text. *)
Lemma ask_clarification_lines st :
  ∃ lines,
    _ask_clarification st
    = ([Enter clarify],
       inr (set_response_text
              (if truthy truthy_str (get (shape st))
               then String.concat nl lines
               else String.concat nl lines +:+ shape_menu)
           (set_artifacts [] empty_dict)))
    ∧ match get_or (questions st) (Some []) with
      | Some ((q :: qs) as asked) => lines = asked
      | _ =>
        ∃ line, lines = [line]
          ∧ (truthy truthy_number (get (linear_meters st)) = true →
             truthy truthy_str (get (shape st)) = true →
             truthy truthy_str (get (style st)) = true →
             line = details_question)
      end.
Proof.
  unfold _ask_clarification. rewrite bind_tell. cbn zeta. cbn [fst snd].
  destruct (get_or (questions st) (Some [])) as [[|q qs]|]; cbn [truthy truthy_list negb get_or].
  2: { eexists. split; [|reflexivity].
       by destruct (truthy truthy_str (get (shape st))). }
  all: destruct (truthy truthy_number (get (linear_meters st)));
       destruct (truthy truthy_str (get (shape st)));
       destruct (truthy truthy_str (get (style st)));
       cbn [negb app truthy_list];
       (eexists; split; [reflexivity|]); eexists; (split; [reflexivity|]);
       done.
Qed.

(** X6: a turn that enters the clarify node makes no further call; its
    text is the lines asked, joined by line feeds, followed by the menu of
    shapes when the state holds no shape. The lines are the questions
    stored by the analysis when there are any, and otherwise one sentence,
    which is the fixed request for details when the state holds a linear
    size, a shape and a style. No artifact is returned and the design
    state is untouched. *)
Theorem clarification_turn st log final :
  invoke float_repr svc st = (log, inr final) →
  Enter clarify ∈ log →
  ∃ lines,
    response_text final
    = Some (if truthy truthy_str (get (shape final))
            then String.concat nl lines
            else String.concat nl lines +:+ shape_menu)
    ∧ artifacts final = Some []
    ∧ match get_or (questions final) (Some []) with
      | Some ((q :: qs) as asked) => lines = asked
      | _ =>
        ∃ line, lines = [line]
          ∧ (truthy truthy_number (get (linear_meters final)) = true →
             truthy truthy_str (get (shape final)) = true →
             truthy truthy_str (get (style final)) = true →
             line = details_question)
      end
    ∧ log = (_analyze_input svc st).1 ++ [Enter clarify; Enter format_output]
    ∧ design_version final = design_version st
    ∧ current_image final = current_image st
    ∧ design_history final = design_history st.
Proof.
  intros Hrun Hin.
  destruct (invoke_branch _ _ _ _ Hrun Hin (or_introl eq_refl))
    as (l1 & u1 & l2 & u2 & Ha & Hn & -> & ->).
  destruct (analyze_input_inv _ _ _ _ Ha) as [_ Hu1].
  destruct (Hu1 u1 eq_refl) as (Hv & Hi & Hh & _).
  cbn [node_fn] in Hn.
  destruct (ask_clarification_lines (apply_updates st u1))
    as (lines & Hc & Hlines).
  rewrite Hc in Hn. injection Hn as <- <-.
  exists lines. rewrite Ha. cbn. cbn in Hlines.
  rewrite Hv, Hi, Hh. done.
Qed.

(** ** Turns without a message (C4) *)


End BranchFacts.

(** ** Edit requests and turns that raise *)

Section ErrorFacts.

Variable float_repr : float → string.
Variable svc : Services.

(** The request of [_edit_design]: the stored image and the last
    message. *)
Lemma edit_design_head st a img :
  get (current_image st) = Some (String a img) →
  ∃ l,
    (_edit_design float_repr svc st).1
    = Enter edit :: EditImage (String a img) (edit_instructions_of st) :: l.
Proof.
  intros Hi. unfold _edit_design. rewrite bind_tell, Hi. cbn zeta.
  unfold edit_kitchen_image. rewrite bind_tell. cbv [mret M_ret].
  cbn [fst snd]. rewrite bind_pair. cbn [fst app].
  unfold edit_instructions_of, last_content.
  destruct (get_or (messages st) (Some [])) as [[|first rest]|]; by eexists.
Qed.

Lemma edit_design_request st base instr :
  EditImage base instr ∈ (_edit_design float_repr svc st).1 →
  get (current_image st) = Some base
  ∧ truthy_str base = true
  ∧ instr = edit_instructions_of st.
Proof.
  pose proof (edit_design_cases float_repr svc st) as Hc.
  pose proof (generate_design_log float_repr svc st) as Hg.
  destruct (get (current_image st)) as [[|a img]|] eqn:Hi.
  1,3: rewrite Hc; intros Hin; in_log Hin; [done|];
       by destruct (Hg _ Hin) as [?|[??]].
  destruct (edit_design_head _ _ _ Hi) as [l Hl].
  assert (Hrequest : ∀ instr0 l0,
            (_edit_design float_repr svc st).1
            = Enter edit :: EditImage (String a img) instr0 :: l0 →
            (∀ e, e ∈ l0 → e = Enter generate ∨ ∃ p, e = GenerateImage p) →
            EditImage base instr ∈ (_edit_design float_repr svc st).1 →
            Some (String a img) = Some base
            ∧ truthy_str base = true ∧ instr = edit_instructions_of st).
  { intros instr0 l0 Hl0 Hrest Hin.
    assert (instr0 = edit_instructions_of st) as ->
      by (rewrite Hl in Hl0; by injection Hl0).
    rewrite Hl0 in Hin. in_log Hin; [done| |].
    - by injection Hin as -> ->.
    - by destruct (Hrest _ Hin) as [?|[??]]. }
  destruct Hc as [instr0 Hc].
  destruct (edit_image svc _ instr0) as [[|new_image imgs] pu|e].
  - apply (Hrequest instr0 (_generate_design float_repr svc st).1);
      [by rewrite Hc|done].
  - destruct Hc as (out & Hc & _).
    apply (Hrequest instr0 []); [by rewrite Hc|].
    intros e' He. by apply elem_of_nil in He.
  - apply (Hrequest instr0 []); [by rewrite Hc|].
    intros e' He. by apply elem_of_nil in He.
Qed.

(** X10: an edit request of a turn carries the image the state held when
    the turn started, which is not empty, and as instructions the content
    of the last message, unprocessed: with a message, the instructions are
    the text that was sent to the classifier. *)
Theorem edit_request_arguments st log out base instr :
  invoke float_repr svc st = (log, out) →
  EditImage base instr ∈ log →
  get (current_image st) = Some base
  ∧ truthy_str base = true
  ∧ instr = edit_instructions_of st
  ∧ (truthy truthy_list (get_or (messages st) (Some [])) = true →
     AnalyzeRequest instr (context_of st) ∈ log).
Proof.
  intros Hrun Hin.
  destruct (invoke_edit_event _ _ _ _ _ _ _ Hrun Hin)
    as (l1 & u1 & l2 & o2 & Ha & He & Hin2 & Heq).
  destruct (analyze_input_inv _ _ _ _ Ha) as [_ Hu1].
  destruct (Hu1 u1 eq_refl) as (_ & Hi & _).
  pose proof (analyze_input_messages _ _ _ _ Ha) as Hm.
  assert (Hin2' : EditImage base instr
                  ∈ (_edit_design float_repr svc (apply_updates st u1)).1)
    by (by rewrite He).
  destruct (edit_design_request _ _ _ Hin2') as (Hbase & Htruthy & Hinstr).
  cbn in Hbase. rewrite Hi in Hbase.
  unfold edit_instructions_of in Hinstr |- *.
  cbn [apply_updates messages] in Hinstr. rewrite Hm in Hinstr.
  cbn [add_messages] in Hinstr.
  do 3 (split; [done|]). intros Hmsg.
  destruct (get_or (messages st) (Some [])) as [[|first rest]|] eqn:Hmsgs;
    [done| |done].
  rewrite (analyze_input_cases _ _ _ _ Hmsgs) in Ha. injection Ha as <- _.
  assert (Hlog : ∃ l, log = [Enter analyze;
                             AnalyzeRequest (last_content first rest) (context_of st)]
                            ++ l)
    by (destruct o2; injection Heq as -> _; by eexists).
  destruct Hlog as [l ->]. subst instr.
  apply list_elem_of_further, list_elem_of_here.
Qed.

(** The packing of a number raises nothing but the errors of its
    conversions. *)
Lemma pack_modules_raises x e :
  pack_modules (Some x) = inl e → e = ValueError ∨ e = OverflowError.
Proof.
  unfold pack_modules. cbv [mbind mret Exc_bind Exc_ret].
  destruct x as [n|x]; packing;
    intros Heq; simplify_eq; eauto using int_raises, float_of_int_raises.
Qed.

(** [_generate_specs] never raises [KeyError]. *)
Lemma generate_specs_raises lm sh sty mats e k :
  _generate_specs float_repr lm sh sty mats = inl e → e ≠ KeyError k.
Proof.
  unfold _generate_specs. cbv [mbind mret mthrow Exc_bind Exc_ret Exc_throw].
  destruct lm as [x|].
  - pose proof (pack_modules_raises x) as Hp.
    destruct (pack_modules (Some x)) as [e'|[[modules s60] s40]].
    + intros [= <-]. by destruct (Hp _ eq_refl) as [->| ->].
    + by destruct mats; intros [= <-].
  - by intros [= <-].
Qed.

(** A generation that raises: [KeyError] names a key the prompt reads and
    is raised before any request. *)
Lemma generate_design_raises st l e :
  _generate_design float_repr svc st = (l, inl e) →
  Enter generate ∈ l
  ∧ ∀ k, e = KeyError k → k ∈ required_materials ∧ l = [Enter generate].
Proof.
  pose proof (generate_design_cases float_repr svc st) as Hc.
  intros Hg. split.
  { destruct Hc as [[k Hc]|(p & out & Hc & _)]; rewrite Hc in Hg;
      injection Hg as <- _; apply list_elem_of_here. }
  intros k ->.
  destruct Hc as [[k' Hc]|(p & out & Hc & Hout)].
  - rewrite Hc in Hg. injection Hg as <- <-. split; [|done].
    revert Hc. unfold _generate_design. rewrite bind_tell.
    fold defaults_materials. cbn zeta.
    pose proof (generate_kitchen_image_missing float_repr svc
                  (get_or (linear_meters st) (Some (Float 3.0)))
                  (get_or (shape st) (Some "L"))
                  (get_or (style st) (Some "modern"))
                  (get_or (materials st) (Some defaults_materials))
                  (get_or (colors st) (Some ["white"; "gray"]))) as Hk.
    destruct (get_or (materials st) (Some defaults_materials)) as [m|];
      [destruct (truthy_dict m);
         [destruct (first_missing m) as [k0|] eqn:Hmiss|]|].
    2-4: destruct Hk as [p Hp]; by rewrite Hp, bind_pair.
    rewrite Hk. intros [= <-].
    unfold first_missing in Hmiss. apply head_Some_elem_of in Hmiss.
    apply list_elem_of_In, List.filter_In in Hmiss as [Hin _].
    by apply list_elem_of_In.
  - exfalso. rewrite Hc in Hg. injection Hg as _ ->.
    destruct (generate_image svc p) as [[|img imgs] pu|e0]; try done.
    cbn zeta in Hout.
    destruct (get_or (design_version st) (Some 0%Z)); [|done].
    destruct (_generate_specs _ _ _ _ _) as [e'|specs] eqn:Hs.
    + injection Hout as <-. by apply generate_specs_raises with (k := k) in Hs.
    + destruct (get_or (colors st) _); [|done].
      destruct (get_or (design_history st) _); [|done].
      by destruct Hout as (? & ? & ?).
Qed.

(** A branch that raises: a chat call of the respond node raised, or the
    generation raised, entered directly or from the edit node, or the edit
    node raised on the version counter after its request. *)
Lemma branch_raises st l e :
  node_fn float_repr svc (_route_action st) st = (l, inl e) →
  (∃ first rest,
     get_or (messages st) (Some []) = Some (first :: rest)
     ∧ ((l = [Enter respond; StartChat (history_of (first :: rest))]
         ∧ start_chat svc (history_of (first :: rest)) = inl e)
        ∨ (l = [Enter respond; StartChat (history_of (first :: rest));
                SendMessage (last_content first rest)]
           ∧ reply svc (history_of (first :: rest)) (last_content first rest)
             = inl e)))
  ∨ ∃ pre,
      (pre = [] ∨ pre = [Enter edit] ∨ ∃ b i, pre = [Enter edit; EditImage b i])
      ∧ ((∃ lg, l = pre ++ lg ∧ _generate_design float_repr svc st = (lg, inl e))
         ∨ (e = TypeError ∧ l = pre ∧ ∃ b i, pre = [Enter edit; EditImage b i])).
Proof.
  pose proof (route_action_range st) as Hr. intros H.
  in_log Hr; rewrite Hr in H; cbn [node_fn] in H.
  - destruct (ask_clarification_eq st) as [text Ht]. by rewrite Ht in H.
  - right. exists []. split; [by left|]. left. by exists l.
  - right. revert H.
    pose proof (edit_design_cases float_repr svc st) as Hc.
    destruct (_generate_design float_repr svc st) as [lg og] eqn:Hg.
    cbn [fst snd] in Hc.
    destruct (get (current_image st)) as [[|a img]|].
    + rewrite Hc. intros [= <- ->]. exists [Enter edit].
      split; [right; by left|]. left. by exists lg.
    + destruct Hc as [instr Hc].
      destruct (edit_image svc _ instr) as [[|new_image imgs] pu|e0].
      * rewrite Hc. intros [= <- ->].
        exists [Enter edit; EditImage (String a img) instr].
        split; [right; right; by eexists _, _|]. left. by exists lg.
      * destruct Hc as (out & -> & Hout). intros [= <- ->].
        exists [Enter edit; EditImage (String a img) instr].
        split; [right; right; by eexists _, _|]. right.
        destruct (get_or (design_version st) (Some 0%Z)).
        -- by destruct Hout as (? & ? & ?).
        -- injection Hout as <-. split; [done|]. split; [done|].
           by eexists _, _.
      * by rewrite Hc.
    + rewrite Hc. intros [= <- ->]. exists [Enter edit].
      split; [right; by left|]. left. by exists lg.
  - left.
    destruct (get_or (messages st) (Some [])) as [[|first rest]|] eqn:Hm.
    1,3: unfold _generate_response in H; by rewrite Hm, bind_tell in H.
    exists first, rest. split; [done|].
    rewrite (generate_response_message _ _ _ _ Hm) in H. cbn zeta in H.
    destruct (start_chat svc _) as [e0|[]]; [left; by injection H as <- <-|].
    destruct (reply svc _ _) as [e0|text]; [right; by injection H as <- <-|done].
Qed.

(** The analysis raises with the classifier, or on stored materials that
    are [None] under an extraction with materials. *)
Lemma analyze_input_raises st l e :
  _analyze_input svc st = (l, inl e) →
  ∃ first rest,
    get_or (messages st) (Some []) = Some (first :: rest)
    ∧ l = [Enter analyze;
           AnalyzeRequest (last_content first rest) (context_of st)]
    ∧ (analyze_request svc (last_content first rest) (context_of st) = inl e
       ∨ (e = AttributeError
          ∧ ∃ an,
              analyze_request svc (last_content first rest) (context_of st)
              = inr an)).
Proof.
  intros Ha.
  destruct (get_or (messages st) (Some [])) as [[|first rest]|] eqn:Hm.
  1,3: by rewrite analyze_input_empty in Ha by (by rewrite Hm).
  rewrite (analyze_input_cases _ _ _ _ Hm) in Ha. injection Ha as <- He.
  exists first, rest. split; [done|]. split; [done|].
  destruct (analyze_request svc _ _) as [e0|an]; [left; by injection He as ->|].
  right. split; [|by exists an].
  destruct (truthy truthy_dict (get (Analysis.materials an)));
    [destruct (get_or (materials st) (Some ∅))|]; by simplify_eq.
Qed.

(** X11: a turn that raises never reaches [format_output] and never
    entered the clarify node, and it raised in one of six places. The
    reducer of [messages] raised [TypeError] on an input whose messages
    are [None], before any node. The analysis raised after its request:
    the error of the classifier, or [AttributeError] after its answer.
    The respond node raised the error of the replay of the history, or
    that of the message it then sent, which is the message that was
    classified. Otherwise the respond node was not entered, and either
    the generator was entered, in which case a [KeyError] names one of the
    three material keys and precedes any generation request, or the edit
    node raised [TypeError] after its request. *)
Theorem turn_raises checkpoint input log e :
  ainvoke float_repr svc checkpoint input = (log, inl e) →
  (Enter format_output ∉ log)
  ∧ (Enter clarify ∉ log)
  ∧ ((log = [] ∧ e = TypeError ∧ messages input = Some None)
     ∨ (∃ m c,
          log = [Enter analyze; AnalyzeRequest m c]
          ∧ (analyze_request svc m c = inl e
             ∨ (e = AttributeError ∧ ∃ an, analyze_request svc m c = inr an)))
     ∨ (∃ m c h,
          log = [Enter analyze; AnalyzeRequest m c; Enter respond; StartChat h]
          ∧ start_chat svc h = inl e)
     ∨ (∃ m c h,
          log = [Enter analyze; AnalyzeRequest m c; Enter respond; StartChat h;
                 SendMessage m]
          ∧ reply svc h m = inl e)
     ∨ ((Enter generate ∈ log) ∧ (Enter respond ∉ log)
        ∧ ∀ k, e = KeyError k →
               k ∈ required_materials ∧ ∀ p, GenerateImage p ∉ log)
     ∨ (e = TypeError ∧ (Enter respond ∉ log) ∧ ∃ b i, EditImage b i ∈ log)).
Proof.
  rewrite ainvoke_eq.
  destruct (channels checkpoint input) as [e0|st] eqn:Hch.
  { intros [= <- <-]. destruct (channels_raises _ _ _ Hch) as [-> Hnone].
    split; [by intros ?%elem_of_nil|]. split; [by intros ?%elem_of_nil|].
    by left. }
  rewrite invoke_eq.
  destruct (_analyze_input svc st) as [l1 o1] eqn:Ha.
  destruct o1 as [e1|u1].
  - intros [= <- <-].
    destruct (analyze_input_raises _ _ _ Ha) as (first & rest & Hm & -> & He).
    split; [intros Hin; in_log Hin; done|].
    split; [intros Hin; in_log Hin; done|].
    right. left. by eexists _, _.
  - cbn zeta. destruct (analyze_input_inv _ _ _ _ Ha) as [Hl1 _].
    pose proof (analyze_input_messages _ _ _ _ Ha) as Hmu.
    destruct (node_fn _ _ _ _) as [l2 [e2|u2]] eqn:Hn; [|done].
    intros [= <- <-].
    destruct (branch_raises _ _ _ Hn)
      as [(first & rest & Hm & Hchat)|(pre & Hpre & Hcase)].
    { cbn [apply_updates messages] in Hm. rewrite Hmu in Hm.
      cbn [add_messages] in Hm.
      rewrite (analyze_input_cases _ _ _ _ Hm) in Ha. injection Ha as <- _.
      destruct Hchat as [[-> Hs]|[-> Hr]].
      - split; [intros Hin; in_log Hin; done|].
        split; [intros Hin; in_log Hin; done|].
        do 2 right. left. by eexists _, _, _.
      - split; [intros Hin; in_log Hin; done|].
        split; [intros Hin; in_log Hin; done|].
        do 3 right. left. by eexists _, _, _. }
    assert (Hpre' : ∀ ev : event, ev ∈ pre →
              ev = Enter edit ∨ ∃ b i, ev = EditImage b i).
    { intros ev Hev.
      destruct Hpre as [->|[->|(b & i & ->)]]; in_log Hev;
        [by left|by left|right; by eexists _, _]. }
    destruct Hcase as [(lg & -> & Hg)|(-> & -> & b & i & ->)].
    + destruct (generate_design_raises _ _ _ Hg) as [Hin Hkey].
      pose proof (generate_design_log float_repr svc (apply_updates st u1)) as Hlg.
      rewrite Hg in Hlg. cbn [fst] in Hlg.
      assert (Hlog : ∀ ev : event, ev ∈ l1 ++ pre ++ lg →
                ev = Enter analyze ∨ (∃ m c, ev = AnalyzeRequest m c)
                ∨ ev = Enter edit ∨ (∃ b i, ev = EditImage b i)
                ∨ ev = Enter generate ∨ ∃ p, ev = GenerateImage p).
      { intros ev Hev. apply elem_of_app in Hev as [Hev|Hev];
          [|apply elem_of_app in Hev as [Hev|Hev]].
        - destruct (Hl1 _ Hev); auto.
        - destruct (Hpre' _ Hev); auto.
        - destruct (Hlg _ Hev); auto 10. }
      assert (Hnot : ∀ n, n ≠ analyze → n ≠ edit → n ≠ generate →
                          Enter n ∉ l1 ++ pre ++ lg).
      { intros n ? ? ? Hev.
        destruct (Hlog _ Hev)
          as [?|[(?&?&?)|[?|[(?&?&?)|[?|(?&?)]]]]]; congruence. }
      do 2 (split; [by apply Hnot|]).
      do 4 right. left.
      split; [apply elem_of_app; right; apply elem_of_app; by right|].
      split; [by apply Hnot|].
      intros k ->. destruct (Hkey k eq_refl) as [Hk ->]. split; [done|].
      intros p Hev. apply elem_of_app in Hev as [Hev|Hev];
        [|apply elem_of_app in Hev as [Hev|Hev]].
      * by destruct (Hl1 _ Hev) as [?|(?&?&?)].
      * by destruct (Hpre' _ Hev) as [?|(?&?&?)].
      * in_log Hev. done.
    + assert (Hnot : ∀ n, n ≠ analyze → n ≠ edit →
                          Enter n ∉ l1 ++ [Enter edit; EditImage b i]).
      { intros n ? ? Hev. apply elem_of_app in Hev as [Hev|Hev].
        - destruct (Hl1 _ Hev) as [?|(?&?&?)]; congruence.
        - destruct (Hpre' _ Hev) as [?|(?&?&?)]; congruence. }
      do 2 (split; [by apply Hnot|]).
      do 5 right. split; [done|]. split; [by apply Hnot|]. exists b, i.
      apply elem_of_app. right. apply list_elem_of_further, list_elem_of_here.
Qed.

End ErrorFacts.

(** ** [run] *)

Section RunFacts.

Variable float_repr : float → string.
Variable svc : Services.

(** The input [run] hands to the graph always passes the reducer, and
    the last message of the channel is the one [run] appended. *)
Lemma run_channels checkpoint st l user_message :
  ∃ channel first rest,
    channels checkpoint
      (set_messages (Some (l ++ [user_says user_message])) st) = inr channel
    ∧ get_or (messages channel) (Some []) = Some (first :: rest)
    ∧ last_content first rest = user_message.
Proof.
  destruct (channels checkpoint _) as [e|channel] eqn:Hch;
    [by destruct (channels_raises _ _ _ Hch)|].
  destruct (channels_inv _ _ _ Hch) as (_ & Hm & _).
  unfold input_messages in Hm. cbn [set_messages messages] in Hm.
  rewrite app_assoc in Hm.
  destruct ((stored_messages checkpoint ++ l) ++ [user_says user_message])
    as [|first rest] eqn:Hmsgs; [by destruct (_ ++ l)|].
  exists channel, first, rest. split; [done|]. split; [by rewrite Hm|].
  unfold last_content. rewrite <- Hmsgs. by rewrite List.last_last.
Qed.

(** The context of the channels is that of the input where the input has
    the keys, and on a new thread. *)
Lemma channels_context checkpoint input channel :
  channels checkpoint input = inr channel →
  checkpoint = empty_dict ∨ has_context input →
  context_of channel = context_of input.
Proof.
  intros Hch Hk.
  destruct (channels_inv _ _ _ Hch)
    as (_ & _ & _ & _ & Hlm & Hsh & Hsty & Hmat & _ & _ & Hi & Hv & _).
  unfold context_of. rewrite Hlm, Hsh, Hsty, Hmat, Hi, Hv.
  destruct Hk as [->|(Klm & Ksh & Ksty & Kmat & Ki & Kv)].
  - cbn. by destruct (linear_meters input), (shape input), (style input),
      (materials input), (current_image input), (design_version input).
  - destruct Klm as [? ->], Ksh as [? ->], Ksty as [? ->], Kmat as [? ->],
      Ki as [? ->], Kv as [? ->]. done.
Qed.

(** X15: [run] either raises [TypeError] before the graph starts (the
    messages of the state it starts from are [None]) or starts the turn by
    classifying the very message it was given, whatever the checkpoint of
    the thread holds: a turn started by [run] never takes the path of an
    empty message list. The context of the classification is that of the
    channels, which is the context of the state [run] started from on a
    new thread and whenever that state has the keys the context reads, as
    the state of a new conversation has. *)
Theorem run_classifies_message user_message user_id conversation_id
    existing_state checkpoint log out :
  run float_repr svc user_message user_id conversation_id existing_state
    checkpoint
  = (log, out) →
  (log = [] ∧ out = inl TypeError
   ∧ get_or (messages (start_state user_id conversation_id existing_state))
       (Some []) = None)
  ∨ ∃ l channel rest,
      get_or (messages (start_state user_id conversation_id existing_state))
        (Some []) = Some l
      ∧ channels checkpoint
          (set_messages (Some (l ++ [user_says user_message]))
             (start_state user_id conversation_id existing_state))
        = inr channel
      ∧ log = Enter analyze
              :: AnalyzeRequest user_message (context_of channel) :: rest
      ∧ (checkpoint = empty_dict
         ∨ has_context (start_state user_id conversation_id existing_state) →
         context_of channel
         = context_of (start_state user_id conversation_id existing_state)).
Proof.
  unfold run. fold (start_state user_id conversation_id existing_state).
  set (st := start_state _ _ _). cbn zeta.
  destruct (get_or (messages st) (Some [])) as [l|] eqn:Hl.
  2: { rewrite bind_throw. intros [= <- <-]. by left. }
  rewrite bind_ret. fold (user_says user_message).
  destruct (run_channels checkpoint st l user_message)
    as (channel & first & rest & Hch & Hm & Hlast).
  rewrite ainvoke_eq, Hch.
  intros Hrun. right.
  assert (Hlog : ∃ rest', log = Enter analyze
                   :: AnalyzeRequest user_message (context_of channel) :: rest').
  { revert Hrun. rewrite invoke_eq, (analyze_input_cases _ _ _ _ Hm), Hlast.
    destruct (analyze_request svc _ _) as [e|an];
      [rewrite bind_pair; intros [= <- _]; by eexists|].
    match goal with
    | |- context [if ?c then _ else _] => destruct c
    end; [destruct (get_or (materials channel) (Some ∅))|];
      cbv beta iota zeta;
      try (destruct (node_fn _ _ _ _) as [l2 [e2|u2]]);
      rewrite bind_pair; intros [= <- _]; by eexists. }
  destruct Hlog as [rest' ->].
  exists l, channel, rest'. do 3 (split; [done|]).
  intros Hk. rewrite (channels_context _ _ _ Hch).
  - done.
  - destruct Hk as [?|Hk]; [by left|right]. exact Hk.
Qed.

End RunFacts.

(** ** A classifier that returns no JSON *)

Section ReasonerFacts.

Variable float_repr : float → string.
Variable context_repr : Context.t → string.
Variable send_message : string → Exc string.
Variable json_loads : string → option Analysis.t.
Variable replay : list Message.t → Exc ().
Variable chat : list Message.t → string → Exc string.
Variable generate : string → ImageResult.
Variable edit : string → string → ImageResult.

(** X13: when the classifier answers with a text that holds no JSON, or
    one that [json.loads] rejects, a turn with a message is a
    conversational one, and it returns as soon as the two chat calls of
    the respond node return: the fallback analysis has the action
    question, so the router selects respond, the history handed to
    [start_chat] is every message of the channels but the last (those of
    the checkpoint, then those of the input), the response text is the
    chat reply, and the fallback question is stored in [questions] but
    never shown. The design parameters are left as the channels hold
    them. *)
Theorem unparsed_reply_turn checkpoint input st first rest response text :
  channels checkpoint input = inr st →
  stored_messages checkpoint ++ input_messages input = first :: rest →
  send_message
    (analysis_prompt context_repr (last_content first rest)
       (Some (context_of st))) = inr response →
  json_span response ≫= json_loads = None →
  replay (history_of (first :: rest)) = inr () →
  chat (history_of (first :: rest)) (last_content first rest) = inr text →
  ∃ final,
    ainvoke float_repr
      (reasoner_services context_repr send_message json_loads replay chat
         generate edit)
      checkpoint input
    = ([Enter analyze;
        AnalyzeRequest (last_content first rest) (context_of st);
        Enter respond;
        StartChat (history_of (first :: rest));
        SendMessage (last_content first rest);
        Enter format_output],
       inr final)
    ∧ response_text final = Some text
    ∧ artifacts final = Some []
    ∧ action final = Some (Some "question")
    ∧ needs_clarification final = Some false
    ∧ questions final = Some (Some [fallback_question])
    ∧ linear_meters final = linear_meters st
    ∧ shape final = shape st
    ∧ style final = style st
    ∧ materials final = materials st
    ∧ colors final = colors st
    ∧ budget final = budget st.
Proof.
  intros Hch Hmsgs Hsend Hp Hreplay Hchat.
  set (svc := reasoner_services _ _ _ _ _ _ _).
  destruct (channels_inv _ _ _ Hch) as (_ & Hst & _).
  rewrite Hmsgs in Hst.
  assert (Hm : get_or (messages st) (Some []) = Some (first :: rest))
    by (by rewrite Hst).
  assert (Han : analyze_request svc (last_content first rest) (context_of st)
                = inr fallback_analysis).
  { cbn [svc reasoner_services analyze_request].
    unfold reasoner_analyze_request. rewrite Hsend.
    cbv [mbind Exc_bind] in Hp |- *. by rewrite Hp. }
  rewrite ainvoke_eq, Hch, invoke_eq, (analyze_input_cases _ _ _ _ Hm), Han.
  cbn [fallback_analysis Analysis.materials get truthy]. cbn zeta.
  set (u1 := analysis_updates st fallback_analysis None).
  assert (Hr : _route_action (apply_updates st u1) = respond) by done.
  rewrite Hr. cbn [node_fn].
  rewrite (generate_response_message _ _ first rest)
    by (cbn; by rewrite Hst).
  cbn zeta. cbn [svc reasoner_services start_chat reply].
  rewrite Hreplay, Hchat.
  eexists. split; [reflexivity|]. done.
Qed.

End ReasonerFacts.

(** ** The design iterations [chat] stores *)

Lemma sql_max_above column v :
  Some v ∈ column → ∃ m, sql_max column = Some m ∧ (v ≤ m)%Z.
Proof.
  induction column as [|x column IH]; intros Hin; [by apply elem_of_nil in Hin|].
  apply elem_of_cons in Hin as [<-|Hin]; cbn [sql_max foldr].
  - fold (sql_max column). destruct (sql_max column) as [b|];
      eexists; (split; [reflexivity|lia]).
  - fold (sql_max column). destruct (IH Hin) as (m & -> & Hle).
    destruct x as [a|]; eexists; (split; [reflexivity|lia]).
Qed.

Lemma sql_max_empty column :
  (∀ v, Some v ∉ column) → sql_max column = None.
Proof.
  induction column as [|x column IH]; intros Hno; [done|].
  cbn [sql_max foldr]. fold (sql_max column).
  rewrite IH by (intros v Hv; apply (Hno v); by apply list_elem_of_further).
  destruct x as [a|]; [|done]. destruct (Hno a). apply list_elem_of_here.
Qed.

Lemma sql_max_in column m : sql_max column = Some m → Some m ∈ column.
Proof.
  revert m. induction column as [|x column IH]; intros m; [done|].
  cbn [sql_max foldr]. fold (sql_max column).
  destruct x as [a|]; [|intros H; by apply list_elem_of_further, IH].
  destruct (sql_max column) as [b|] eqn:Hb.
  - intros [= <-]. destruct (Z.max_spec a b) as [[_ ->]|[_ ->]].
    + by apply list_elem_of_further, IH.
    + apply list_elem_of_here.
  - intros [= <-]. apply list_elem_of_here.
Qed.

(** X16: [save_design_iteration] appends exactly one row, for the
    conversation it is given. The version of the row is determined by the
    rows the SELECT read, and by those of the conversation alone: it is 1
    when none of them holds a version, and otherwise the largest version
    among them plus 1. Neither the rows of other conversations nor the
    rows the INSERT meets change it: two saves whose SELECTs read the same
    rows of the conversation store the same version. *)
Theorem save_design_iteration_version seen table conversation_id prompt
    image_data image_url parameters parent_id :
  let saved :=
    save_design_iteration seen table conversation_id prompt image_data
      image_url parameters parent_id in
  ∃ new_version,
    saved.1 = table ++ [saved.2]
    ∧ DesignIteration.conversation_id saved.2 = conversation_id
    ∧ DesignIteration.version saved.2 = Some new_version
    ∧ (((∀ row v,
           row ∈ seen →
           DesignIteration.conversation_id row = conversation_id →
           DesignIteration.version row ≠ Some v)
        ∧ new_version = 1%Z)
       ∨ ∃ row m,
           row ∈ seen
           ∧ DesignIteration.conversation_id row = conversation_id
           ∧ DesignIteration.version row = Some m
           ∧ (∀ row' v,
                row' ∈ seen →
                DesignIteration.conversation_id row' = conversation_id →
                DesignIteration.version row' = Some v →
                (v ≤ m)%Z)
           ∧ new_version = (m + 1)%Z)
    ∧ (∀ seen' table' prompt' image_data' image_url' parameters' parent_id',
         filter (λ it, DesignIteration.conversation_id it = conversation_id) seen'
         = filter (λ it, DesignIteration.conversation_id it = conversation_id) seen →
         DesignIteration.version
           (save_design_iteration seen' table' conversation_id prompt'
              image_data' image_url' parameters' parent_id').2
         = Some new_version).
Proof.
  cbn zeta. unfold save_design_iteration. cbn [fst snd DesignIteration.version
    DesignIteration.conversation_id].
  set (column := DesignIteration.version <$> filter _ seen).
  assert (Hcol : ∀ v, Some v ∈ column ↔
            ∃ row, row ∈ seen
                   ∧ DesignIteration.conversation_id row = conversation_id
                   ∧ DesignIteration.version row = Some v).
  { intros v. unfold column. rewrite list_elem_of_fmap. split.
    - intros (row & Hv & Hrow). apply list_elem_of_filter in Hrow as [Hc Hrow].
      by exists row.
    - intros (row & Hrow & Hc & Hv). exists row. split; [done|].
      by apply list_elem_of_filter. }
  eexists. split; [reflexivity|]. split; [reflexivity|]. split; [reflexivity|].
  split.
  - destruct (sql_max column) as [m|] eqn:Hmax.
    + right. pose proof (sql_max_in _ _ Hmax) as Hin.
      apply Hcol in Hin as (row & Hrow & Hc & Hv).
      exists row, m. do 3 (split; [done|]). split.
      * intros row' v Hrow' Hc' Hv'.
        destruct (sql_max_above column v) as (m' & Hm' & Hle);
          [apply Hcol; by exists row'|].
        congruence.
      * by case_bool_decide; subst.
    + left. split; [|done]. intros row v Hrow Hc Hv.
      destruct (sql_max_above column v) as (m' & Hm' & _);
        [apply Hcol; by exists row|]. congruence.
  - intros seen' table' prompt' image_data' image_url' parameters' parent_id' ->.
    reflexivity.
Qed.

(** Two requests for one conversation whose SELECTs both run before
    either INSERT: the table ends with two rows of version 1. *)
Example concurrent_saves_repeat_version :
  let first := save_design_iteration [] [] "c1" "una cocina" (Some "IMG1")
                 None None None in
  let second := save_design_iteration [] first.1 "c1" "otra cocina"
                  (Some "IMG2") None None None in
  DesignIteration.version <$> second.1 = [Some 1%Z; Some 1%Z].
Proof. reflexivity. Qed.

Section ChatFacts.

Variable float_repr : float → string.
Variable svc : Services.

(** A call of [run] that returns, in its steps. *)
Lemma run_returns user_message user_id conversation_id existing_state
    checkpoint log r :
  run float_repr svc user_message user_id conversation_id existing_state
    checkpoint
  = (log, inr r) →
  ∃ l channel final,
    get_or (messages (start_state user_id conversation_id existing_state))
      (Some []) = Some l
    ∧ channels checkpoint
        (set_messages (Some (l ++ [user_says user_message]))
           (start_state user_id conversation_id existing_state))
      = inr channel
    ∧ invoke float_repr svc channel = (log, inr final)
    ∧ get (current_image (reply_state r)) = get (current_image final)
    ∧ get (design_version (reply_state r)) = get (design_version final)
    ∧ get (design_history (reply_state r)) = get (design_history final).
Proof.
  unfold run. fold (start_state user_id conversation_id existing_state).
  set (st := start_state _ _ _). cbn zeta.
  destruct (get_or (messages st) (Some [])) as [l|]; [|by rewrite bind_throw].
  rewrite bind_ret. fold (user_says user_message).
  rewrite ainvoke_eq.
  destruct (channels checkpoint _) as [e|channel] eqn:Hch;
    [by rewrite bind_pair|].
  destruct (invoke _ _ _) as [l2 [e|final]] eqn:Hrun;
    rewrite bind_pair; [done|].
  cbv [mret M_ret]. cbn [fst snd]. rewrite app_nil_r. intros [= <- <-].
  by exists l, channel, final.
Qed.

(** A turn leaves the version as it was, with the image and the history,
    or raises it by one. *)
Lemma invoke_version_step st log final :
  invoke float_repr svc st = (log, inr final) →
  (design_version final = design_version st
   ∧ current_image final = current_image st
   ∧ design_history final = design_history st)
  ∨ ∃ n, get_or (design_version st) (Some 0%Z) = Some n
         ∧ design_version final = Some (Some (n + 1)%Z).
Proof.
  intros Hrun.
  destruct (invoke_returns _ _ _ _ _ Hrun)
    as (l1 & u1 & l2 & u2 & Ha & Hn & -> & ->).
  destruct (analyze_input_inv _ _ _ _ Ha) as [_ Hu1].
  destruct (Hu1 u1 eq_refl) as (Hv & Hi & Hh & _).
  destruct (branch_step _ _ _ _ _ _ (route_not_analyze _) Hn) as [_ Hs].
  destruct Hs as [(Hqv & Hqi & Hqh)|[Hg|He]].
  - left. cbn. by rewrite Hv, Hi, Hh, Hqv, Hqi, Hqh.
  - right.
    destruct Hg as (p & img & imgs & pu & n & hist & entry & _ & _ & Hn0 & _
                    & _ & Hgv & _).
    cbn in Hn0. rewrite Hv in Hn0. exists n. split; [done|].
    cbn. by rewrite Hgv.
  - right.
    destruct He as (b & i & img & imgs & pu & n & _ & _ & Hn0 & Hev & _).
    cbn in Hn0. rewrite Hv in Hn0. exists n. split; [done|].
    cbn. by rewrite Hev.
Qed.

(** X17: a call of [run] that returns with the design version it started
    from, on a state that holds an image, makes [chat] store one more
    design iteration all the same, whatever the checkpoint of the thread
    and the rows of the table: a row with the image the state already
    held and the message of this turn as its prompt. If that version is 1
    the title of the conversation is written again. The iterations stored
    for a conversation can therefore outnumber the versions of the agent. *)
Theorem idle_turn_saves_iteration seen table user_message user_id
    conversation_id existing_state checkpoint log r :
  run float_repr svc user_message user_id conversation_id existing_state
    checkpoint
  = (log, inr r) →
  truthy truthy_str
    (get (current_image (start_state user_id conversation_id existing_state)))
  = true →
  get (design_version (reply_state r))
  = get (design_version (start_state user_id conversation_id existing_state)) →
  ∃ image iteration,
    get (current_image (start_state user_id conversation_id existing_state))
    = Some image
    ∧ (chat_persist float_repr seen table conversation_id user_message r).1
      = table ++ [iteration]
    ∧ DesignIteration.image_data iteration = Some image
    ∧ DesignIteration.prompt_used iteration = user_message
    ∧ DesignIteration.conversation_id iteration = conversation_id
    ∧ (get (design_version (start_state user_id conversation_id existing_state))
       = Some 1%Z →
       ∃ new_title,
         (chat_persist float_repr seen table conversation_id user_message r).2
         = Some new_title).
Proof.
  intros Hrun Himage Hsame.
  destruct (run_returns _ _ _ _ _ _ _ Hrun)
    as (l & channel & final & Hl & Hch & Hinvoke & Hri & Hrv & _).
  set (st := start_state _ _ _) in *.
  destruct (channels_inv _ _ _ Hch)
    as (_ & _ & _ & _ & _ & _ & _ & _ & _ & _ & Hci & Hcv & _).
  cbn [set_messages current_image design_version] in Hci, Hcv.
  rewrite Hrv in Hsame.
  destruct (get (current_image st)) as [image|] eqn:Hst; [|done].
  assert (Himg : current_image st = Some (Some image))
    by (by destruct (current_image st) as [[?|]|]; simplify_eq/=).
  rewrite Himg in Hci. cbn [overwrite] in Hci.
  assert (Hi : current_image final = current_image channel).
  { destruct (invoke_version_step _ _ _ Hinvoke)
      as [(_ & Hi & _)|(n & Hn & Hv)]; [done|exfalso].
    rewrite Hv in Hsame. cbn in Hsame.
    destruct (design_version st) as [[v|]|]; [|done..].
    cbn in Hcv, Hsame. rewrite Hcv in Hn. cbn in Hn. simplify_eq. lia. }
  assert (Hr : get (current_image (reply_state r)) = Some image).
  { rewrite Hri. unfold get. by rewrite Hi, Hci. }
  exists image. eexists. split; [done|].
  unfold chat_persist. cbn zeta. rewrite Hr, Hrv, Hsame.
  cbn [truthy] in Himage |- *. rewrite Himage.
  cbn [fst snd save_design_iteration].
  do 4 (split; [reflexivity|]).
  intros ->. rewrite bool_decide_eq_true_2 by done. by eexists.
Qed.

End ChatFacts.

(** * Examples: the statements at concrete turns *)

Ltac in_list :=
  repeat first [apply list_elem_of_here | apply list_elem_of_further].

(** C3 at a state whose budget is ["premium"]. *)
Lemma specs_cost_ignores_budget_witness :
  budget (sized (Some "modern") (Some "premium") "una cocina de lujo")
  = Some (Some "premium")
  ∧ ∃ a doc,
      Artifact.type a = "specs"
      ∧ Artifact.content a = Some doc
      ∧ ends_with (cost_section "$25,000 - $45,000 MXN") doc.
Proof.
  split; [reflexivity|].
  pose (svc := services (classified (Some "generate") None None None)
                 (ImageSuccess ["IMG1"] "p") (ImageFailure "unused")).
  remember (_generate_design repr_3_0 svc
              (sized (Some "modern") (Some "premium") "una cocina de lujo"))
    as r eqn:Hg.
  symmetry in Hg.
  destruct r as [log [e|u]]; [vm_compute in Hg; discriminate Hg|].
  assert (∃ a, a ∈ get_or (artifacts u) [] ∧ Artifact.type a = "specs")
    as (a & Hin & Hty).
  { pose proof Hg as Hc. vm_compute in Hc. injection Hc as _ <-.
    eexists. split;
      [vm_compute; apply list_elem_of_further, list_elem_of_here|].
    reflexivity. }
  destruct (specs_cost_ignores_budget repr_3_0 svc _ log u a Hg Hin Hty)
    as (doc & Hdoc & Hend).
  exists a, doc. split; [exact Hty|]. split; [exact Hdoc|exact Hend].
Defined.

(** The whole document of that generation: the budget is ["premium"], the
    range printed is the one of ["medium"]. *)
Example premium_budget_document :
  _generate_specs repr_3_0 (Some (Float 3.0)) (Some "L") (Some "modern") (Some ∅)
  = inr
"## Especificaciones Técnicas

### Dimensiones
- **Metros lineales:** 3.0m
- **Configuración:** L
- **Altura muebles bajos:** 85 cm
- **Altura muebles altos:** 80 cm
- **Profundidad muebles bajos:** 60 cm

### Materiales
- **Gabinetes:** MDF lacado
- **Cubierta:** Cuarzo
- **Salpicadero:** Azulejo
- **Herrajes:** Cierre suave, bisagras de 110°

### Distribución de Módulos
- 1x Módulo fregadero (90cm)
- 1x Módulo estufa/parrilla (60cm)
- 1x Módulo refrigerador (60cm)
- 1x Módulo almacenamiento (60cm)

### Electrodomésticos Sugeridos
- Campana extractora
- Estufa/Parrilla 4 quemadores
- Horno empotrable (opcional)
- Refrigerador
- Microondas empotrable (opcional)
- Lavavajillas (opcional)

### Estimación de Inversión
Rango aproximado: $25,000 - $45,000 MXN

*Nota: Los precios son aproximados y pueden variar según proveedor y ubicación.*".
Proof. vm_compute. reflexivity. Qed.

(** C9 (counterexample to determinism in linear size, materials and
    budget alone): two calls with the same linear size and
    the same materials (the budget is no input) return different documents
    when the shapes differ. *)
Lemma generate_specs_depends_on_shape :
  ∃ doc_L doc_U,
    _generate_specs repr_3_0 (Some (Float 3.0)) (Some "L") (Some "modern") (Some ∅)
    = inr doc_L
    ∧ _generate_specs repr_3_0 (Some (Float 3.0)) (Some "U") (Some "modern") (Some ∅)
      = inr doc_U
    ∧ bool_decide (doc_L = doc_U) = false.
Proof. eexists _, _. split; [|split]; vm_compute; reflexivity. Qed.

(** C9 at two generations whose states agree on the linear size, the
    shape, the materials and the budget, and differ in the style and in
    the message. *)
Lemma specs_document_deterministic_witness :
  ∃ log1 log2 u1 u2 a1 a2 doc,
    _generate_design repr_3_0 generating
      (sized (Some "modern") (Some "low") "una cocina") = (log1, inr u1)
    ∧ _generate_design repr_3_0 generating
        (sized (Some "rustic") (Some "low") "otra cocina") = (log2, inr u2)
    ∧ a1 ∈ get_or (artifacts u1) [] ∧ Artifact.type a1 = "specs"
    ∧ a2 ∈ get_or (artifacts u2) [] ∧ Artifact.type a2 = "specs"
    ∧ Artifact.content a1 = Artifact.content a2
    ∧ Artifact.content a1 = Some doc.
Proof.
  remember (_generate_design repr_3_0 generating
              (sized (Some "modern") (Some "low") "una cocina")) as r1 eqn:H1.
  remember (_generate_design repr_3_0 generating
              (sized (Some "rustic") (Some "low") "otra cocina")) as r2 eqn:H2.
  symmetry in H1, H2.
  destruct r1 as [log1 [e1|u1]]; [vm_compute in H1; discriminate H1|].
  destruct r2 as [log2 [e2|u2]]; [vm_compute in H2; discriminate H2|].
  assert (∃ a1, a1 ∈ get_or (artifacts u1) [] ∧ Artifact.type a1 = "specs")
    as (a1 & Hin1 & Hty1).
  { pose proof H1 as Hc. vm_compute in Hc. injection Hc as _ <-.
    eexists. split;
      [vm_compute; apply list_elem_of_further, list_elem_of_here|].
    reflexivity. }
  assert (∃ a2, a2 ∈ get_or (artifacts u2) [] ∧ Artifact.type a2 = "specs")
    as (a2 & Hin2 & Hty2).
  { pose proof H2 as Hc. vm_compute in Hc. injection Hc as _ <-.
    eexists. split;
      [vm_compute; apply list_elem_of_further, list_elem_of_here|].
    reflexivity. }
  destruct (specs_document_deterministic repr_3_0 generating
              (sized (Some "modern") (Some "low") "una cocina")
              (sized (Some "rustic") (Some "low") "otra cocina")
              log1 log2 u1 u2 a1 a2 eq_refl eq_refl eq_refl eq_refl
              H1 H2 Hin1 Hty1 Hin2 Hty2)
    as [Heq [doc Hdoc]].
  exists log1, log2, u1, u2, a1, a2, doc.
  split; [reflexivity|]. split; [reflexivity|].
  split; [exact Hin1|]. split; [exact Hty1|].
  split; [exact Hin2|]. split; [exact Hty2|].
  split; [exact Heq|exact Hdoc].
Defined.

(** The linear size is printed as Python prints the number it holds: the
    integer 4 that [json.loads] yields for [4] and the float 4.0 are
    different linear sizes, and their documents differ. *)
Example generate_specs_int_size :
  ∃ doc_int doc_float,
    _generate_specs (λ _, "4.0") (Some (Int 4)) (Some "L") (Some "modern")
      (Some ∅) = inr doc_int
    ∧ _generate_specs (λ _, "4.0") (Some (Float 4.0)) (Some "L") (Some "modern")
        (Some ∅) = inr doc_float
    ∧ bool_decide (doc_int = doc_float) = false.
Proof. eexists _, _. split; [|split]; vm_compute; reflexivity. Qed.

(** C8 at a first generation whose image request fails. *)
Lemma generate_failure_turn_witness :
  ∃ final text e,
    (invoke repr_3_0
       (services (classified (Some "generate") (Some (Float 3.0)) None None)
          (ImageFailure "quota exceeded") (ImageFailure "unused"))
       (first_turn "una cocina de 3 metros")).2 = inr final
    ∧ apology text e
    ∧ response_text final = Some text
    ∧ artifacts final = Some []
    ∧ error final = Some (Some e)
    ∧ design_version final = Some (Some 0%Z)
    ∧ current_image final = Some None
    ∧ design_history final = Some (Some []).
Proof.
  eapply (generate_failure_turn repr_3_0
            (services (classified (Some "generate") (Some (Float 3.0)) None None)
               (ImageFailure "quota exceeded") (ImageFailure "unused"))
            (first_turn "una cocina de 3 metros")).
  - apply surjective_pairing.
  - vm_compute. in_list.
  - left. reflexivity.
Defined.

(** C2 at an edit of an existing design whose edit request fails: the whole
    turn, with no generation in it. *)
Lemma edit_failure_turn_witness :
  ∃ final,
    invoke repr_3_0
      (services (classified (Some "edit") None None None)
         (ImageSuccess ["IMG2"] "p") (ImageFailure "edit failed"))
      (designed "hazla azul")
    = ([Enter analyze;
        AnalyzeRequest "hazla azul" (context_of (designed "hazla azul"));
        Enter edit; EditImage "IMG1" "hazla azul"; Enter format_output],
       inr final)
    ∧ response_text final = Some edit_failure_text
    ∧ artifacts final = Some []
    ∧ design_version final = Some (Some 1%Z)
    ∧ current_image final = Some (Some "IMG1").
Proof.
  destruct (invoke repr_3_0 _ (designed "hazla azul")) as [log out] eqn:Hrun.
  destruct (edit_failure_turn repr_3_0 _ _ log out "IMG1" "hazla azul" Hrun)
    as (final & Hout & Hlog & _ & _ & Htext & Harts & _ & Hver & Himg).
  - pose proof Hrun as Hc. vm_compute in Hc. injection Hc as <- _.
    vm_compute. in_list.
  - reflexivity.
  - exists final. rewrite Hout, Hlog.
    split; [vm_compute; reflexivity|]. split; [exact Htext|].
    split; [exact Harts|]. split; [exact Hver|exact Himg].
Defined.

(** The same turn when the edit request succeeds with no image: the
    Design Generator runs, and the turn returns a new design. *)
Example edit_empty_success_turn :
  ∃ final image specs,
    invoke repr_3_0
      (services (classified (Some "edit") None None None)
         (ImageSuccess ["IMG2"] "p") (ImageSuccess [] "p"))
      (designed "hazla azul")
    = ([Enter analyze;
        AnalyzeRequest "hazla azul" (context_of (designed "hazla azul"));
        Enter edit; EditImage "IMG1" "hazla azul"; Enter generate;
        GenerateImage
"L-shaped corner kitchen design, 3.0 linear meters total

Style: modern kitchen with clean lines, minimalist hardware, integrated appliances
Cabinets: white lacquered MDF
Countertops: quartz
Backsplash: subway tiles
Color scheme: white, gray, wood tones


Features: functional layout, proper work triangle, adequate storage, integrated lighting";
        Enter format_output],
       inr final)
    ∧ artifacts final = Some [image; specs]
    ∧ design_version final = Some (Some 2%Z)
    ∧ current_image final = Some (Some "IMG2").
Proof.
  eexists _, _, _. split; [vm_compute; reflexivity|].
  split; [|split]; reflexivity.
Qed.

(** C1 at an edit of an existing design whose edit request succeeds: the
    version becomes 2, the history keeps its single entry. *)
Lemma edit_success_skips_history_witness :
  ∃ final,
    (invoke repr_3_0
       (services (classified (Some "edit") None None None)
          (ImageFailure "unused") (ImageSuccess ["IMG2"] "p"))
       (designed "hazla azul")).2 = inr final
    ∧ current_image final = Some (Some "IMG2")
    ∧ design_version final = Some (Some 2%Z)
    ∧ get_or (design_history final) (Some []) = Some [first_design].
Proof.
  apply (edit_success_skips_history repr_3_0
           (services (classified (Some "edit") None None None)
              (ImageFailure "unused") (ImageSuccess ["IMG2"] "p"))
           (designed "hazla azul") _ _ "IMG1" "hazla azul" "IMG2" [] "p"
           [first_design] (surjective_pairing _)).
  - vm_compute. in_list.
  - reflexivity.
  - reflexivity.
  - reflexivity.
Defined.

(** C10 at the state of a first turn, where [linear_meters] is bound to
    [None]. *)
Lemma generate_null_size_raises_witness :
  linear_meters (first_turn "hazla azul") = Some None
  ∧ (_generate_design repr_3_0
       (services (classified (Some "edit") None None None)
          (ImageSuccess ["IMG1"] "p") (ImageFailure "unused"))
       (first_turn "hazla azul")).2 = inl TypeError.
Proof.
  split; [reflexivity|].
  eapply (generate_null_size_raises repr_3_0
            (services (classified (Some "edit") None None None)
               (ImageSuccess ["IMG1"] "p") (ImageFailure "unused"))
            (first_turn "hazla azul")).
  - reflexivity.
  - apply surjective_pairing.
  - vm_compute. in_list.
  - reflexivity.
Defined.

(** The same through [run]: the first message of a conversation, classified
    as an edit. The edit node finds no image and calls the generator, the
    prompt reads "None linear meters", and the turn raises. *)
Example run_first_edit_raises :
  run repr_3_0
    (services (classified (Some "edit") None None None)
       (ImageSuccess ["IMG1"] "p") (ImageFailure "unused"))
    "hazla azul" "u1" "c1" None empty_dict
  = ([Enter analyze;
      AnalyzeRequest "hazla azul" (context_of (first_turn "hazla azul"));
      Enter edit; Enter generate;
      GenerateImage
"L-shaped kitchen design, None linear meters total

Style: None kitchen with modern aesthetics
Cabinets: white lacquered MDF
Countertops: quartz
Backsplash: subway tiles
Color scheme: white, gray, wood tones


Features: functional layout, proper work triangle, adequate storage, integrated lighting"],
     inl TypeError).
Proof. vm_compute. reflexivity. Qed.



(** C6 at a first request to generate that gives no linear size. *)
Lemma clarification_precedence_witness :
  ∃ u final,
    (_analyze_input
       (services (classified (Some "generate") None (Some "L") None)
          (ImageFailure "unused") (ImageFailure "unused"))
       (first_turn "quiero una cocina en L")).2 = inr u
    ∧ _route_action (apply_updates (first_turn "quiero una cocina en L") u)
      = clarify
    ∧ questions (apply_updates (first_turn "quiero una cocina en L") u)
      = Some (Some [size_question])
    ∧ invoke repr_3_0
        (services (classified (Some "generate") None (Some "L") None)
           (ImageFailure "unused") (ImageFailure "unused"))
        (first_turn "quiero una cocina en L")
      = ([Enter analyze;
          AnalyzeRequest "quiero una cocina en L"
            (context_of (first_turn "quiero una cocina en L"));
          Enter clarify; Enter format_output], inr final).
Proof.
  destruct (_analyze_input _ (first_turn "quiero una cocina en L"))
    as [log [e|u]] eqn:Ha; [vm_compute in Ha; discriminate Ha|].
  assert (Hlog : log = [Enter analyze;
                        AnalyzeRequest "quiero una cocina en L"
                          (context_of (first_turn "quiero una cocina en L"))]).
  { pose proof Ha as Hc. vm_compute in Hc. injection Hc as <- _.
    vm_compute. reflexivity. }
  destruct (clarification_precedence repr_3_0 _ _ log u
              "quiero una cocina en L"
              (context_of (first_turn "quiero una cocina en L")) Ha)
    as (an & Han & _ & Hgen & Hturn).
  - rewrite Hlog. in_list.
  - cbn [analyze_request services] in Han. injection Han as <-.
    destruct Hgen as [Hroute Hq]; [vm_compute; reflexivity..|].
    destruct (Hturn Hroute) as [final Hfinal].
    exists u, final. split; [reflexivity|]. split; [exact Hroute|].
    split; [exact Hq|]. rewrite Hlog in Hfinal. exact Hfinal.
Defined.

(** C5 at a state whose shape is L: an extraction with a null shape keeps
    L, an extraction with the shape U sets U. At a state with cabinets of
    oak and a countertop of quartz, an extraction that names a countertop
    of granite and no cabinets stores the granite and keeps the oak. *)
Lemma merge_is_additive_witness :
  (∃ u,
     (_analyze_input editing (designed "hazla azul")).2 = inr u
     ∧ shape (designed "hazla azul") = Some (Some "L")
     ∧ shape (apply_updates (designed "hazla azul") u)
       = shape (designed "hazla azul"))
  ∧ (∃ u,
       (_analyze_input
          (services (classified (Some "generate") None (Some "U") None)
             (ImageFailure "unused") (ImageFailure "unused"))
          (designed "mejor en U")).2 = inr u
       ∧ shape (apply_updates (designed "mejor en U") u) = Some (Some "U"))
  ∧ (∃ u merged,
       (_analyze_input
          (services new_countertop (ImageFailure "unused")
             (ImageFailure "unused"))
          (furnished "con granito")).2 = inr u
       ∧ materials (apply_updates (furnished "con granito") u)
         = Some (Some merged)
       ∧ merged !! "countertop" = Some "granito"
       ∧ merged !! "cabinets" = Some "roble").
Proof.
  split; [|split].
  - destruct (_analyze_input editing (designed "hazla azul"))
      as [log [e|u]] eqn:Ha; [vm_compute in Ha; discriminate Ha|].
    destruct (merge_is_additive editing _ log u "hazla azul"
                (context_of (designed "hazla azul")) Ha)
      as (an & Han & _ & (Hnull & _) & _).
    + pose proof Ha as Hc. vm_compute in Hc. injection Hc as <- _.
      vm_compute. in_list.
    + cbn [analyze_request services editing] in Han. injection Han as <-.
      exists u. split; [reflexivity|]. split; [reflexivity|].
      apply Hnull. reflexivity.
  - destruct (_analyze_input _ (designed "mejor en U"))
      as [log [e|u]] eqn:Ha; [vm_compute in Ha; discriminate Ha|].
    destruct (merge_is_additive _ _ log u "mejor en U"
                (context_of (designed "mejor en U")) Ha)
      as (an & Han & _ & (_ & _ & Hset) & _).
    + pose proof Ha as Hc. vm_compute in Hc. injection Hc as <- _.
      vm_compute. in_list.
    + cbn [analyze_request services] in Han. injection Han as <-.
      exists u. split; [reflexivity|].
      rewrite Hset; [|reflexivity]. reflexivity.
  - destruct (_analyze_input _ (furnished "con granito"))
      as [log [e|u]] eqn:Ha; [vm_compute in Ha; discriminate Ha|].
    destruct (merge_is_additive _ _ log u "con granito"
                (context_of (furnished "con granito")) Ha)
      as (an & Han & _ & _ & _ & _ & _ & _ & Hmerge).
    + pose proof Ha as Hc. vm_compute in Hc. injection Hc as <- _.
      vm_compute. in_list.
    + cbn [analyze_request services] in Han. injection Han as <-.
      destruct Hmerge as (extracted & stored & merged & Hex & Hst & Hm & Hkey);
        [vm_compute; reflexivity|].
      injection Hex as <-. injection Hst as <-.
      exists u, merged. split; [reflexivity|]. split; [exact Hm|].
      rewrite !Hkey. split; vm_compute; reflexivity.
Defined.

(** ** The further properties at concrete turns *)

(** X1 at an edit of the first design: the version goes from 1 to 2. *)
Lemma turn_design_step_witness :
  ∃ log final,
    invoke repr_3_0 editing (designed "hazla azul") = (log, inr final)
    ∧ ((design_version final = design_version (designed "hazla azul")
        ∧ current_image final = current_image (designed "hazla azul")
        ∧ design_history final = design_history (designed "hazla azul"))
       ∨ ∃ n img,
           get_or (design_version (designed "hazla azul")) (Some 0%Z) = Some n
           ∧ design_version final = Some (Some (n + 1)%Z)
           ∧ current_image final = Some (Some img)
           ∧ (design_history final = design_history (designed "hazla azul")
              ∨ ∃ hist entry,
                  get_or (design_history (designed "hazla azul")) (Some [])
                  = Some hist
                  ∧ design_history final = Some (Some (hist ++ [entry]))
                  ∧ History.version entry = (n + 1)%Z)).
Proof.
  remember (invoke repr_3_0 editing (designed "hazla azul")) as r eqn:Hr.
  destruct r as [log [e|final]]; symmetry in Hr;
    [vm_compute in Hr; discriminate Hr|].
  exists log, final. split; [reflexivity|].
  exact (turn_design_step repr_3_0 editing _ log final Hr).
Defined.

(** X2 at a first generation of 3.0 m in L. *)
Lemma generate_success_turn_witness :
  ∃ log final specs title,
    invoke repr_3_0 generating (sized (Some "modern") None "una cocina")
    = (log, inr final)
    ∧ _generate_specs repr_3_0 (Some (Float 3.0)) (Some "L") (Some "modern")
        (Some ∅) = inr specs
    ∧ design_version final = Some (Some 1%Z)
    ∧ current_image final = Some (Some "IMG1")
    ∧ artifacts final
      = Some [ {| Artifact.type := "image";
                  Artifact.title := title;
                  Artifact.image_data := Some "IMG1";
                  Artifact.content := None;
                  Artifact.meta :=
                    GeneratedMeta (Some (Float 3.0)) (Some "L") (Some "modern") 1 |};
               {| Artifact.type := "specs";
                  Artifact.title := "Especificaciones Técnicas";
                  Artifact.image_data := None;
                  Artifact.content := Some specs;
                  Artifact.meta := EmptyMeta |} ].
Proof.
  remember (invoke repr_3_0 generating (sized (Some "modern") None "una cocina"))
    as r eqn:Hr.
  destruct r as [log [e|final]]; symmetry in Hr;
    [vm_compute in Hr; discriminate Hr|].
  assert (Hin : ∃ p, GenerateImage p ∈ log).
  { pose proof Hr as Hc. vm_compute in Hc. injection Hc as <- _.
    eexists. in_list. }
  destruct Hin as [p Hin].
  destruct (generate_success_turn repr_3_0 generating _ log final p
              "IMG1" [] "p" Hr Hin eq_refl)
    as (n & specs & hist & title & Hn & Hh & Hspecs & Hv & Hi & Ha & _).
  injection Hn as <-.
  assert (Hparams : linear_meters final = Some (Some (Float 3.0))
                    ∧ shape final = Some (Some "L")
                    ∧ style final = Some (Some "modern")
                    ∧ materials final = Some (Some ∅)).
  { pose proof Hr as Hc. vm_compute in Hc. injection Hc as _ <-.
    repeat split. }
  destruct Hparams as (Hlm & Hsh & Hsty & Hmat).
  rewrite Hlm, Hsh, Hsty, Hmat in Hspecs. rewrite Hlm, Hsh, Hsty in Ha.
  exists log, final, specs, title. split; [reflexivity|].
  split; [exact Hspecs|]. split; [exact Hv|]. split; [exact Hi|]. exact Ha.
Defined.

(** X3 at the second turn of a conversation on the thread of its first
    turn: the turn ends with the message of the checkpoint followed by
    the two messages of the input. *)
Lemma turn_frame_witness :
  ∃ log final,
    ainvoke repr_3_0 asking greeted (second_turn "gracias") = (log, inr final)
    ∧ messages final
      = Some (Some [user_says "hola"; user_says "hola"; user_says "gracias"])
    ∧ user_id final = Some "u1".
Proof.
  remember (ainvoke repr_3_0 asking greeted (second_turn "gracias"))
    as r eqn:Hr.
  destruct r as [log [e|final]]; symmetry in Hr;
    [vm_compute in Hr; discriminate Hr|].
  destruct (turn_frame repr_3_0 asking greeted (second_turn "gracias")
              log final Hr)
    as (st & l1 & u1 & _ & _ & Hm & Hu & _).
  exists log, final. split; [reflexivity|].
  split; [rewrite Hm|rewrite Hu]; vm_compute; reflexivity.
Defined.

(** X4 at an edit request on a designed kitchen. *)
Lemma route_after_analysis_witness :
  ∃ u,
    (_analyze_input editing (designed "hazla azul")).2 = inr u
    ∧ _route_action (apply_updates (designed "hazla azul") u) = edit
    ∧ needs_clarification (apply_updates (designed "hazla azul") u)
      = Some false.
Proof.
  destruct (_analyze_input editing (designed "hazla azul"))
    as [log [e|u]] eqn:Ha; [vm_compute in Ha; discriminate Ha|].
  destruct (route_after_analysis editing _ log u "hazla azul"
              (context_of (designed "hazla azul")) Ha)
    as (an & Han & Hedit & _ & _ & Hneeds).
  - pose proof Ha as Hc. vm_compute in Hc. injection Hc as <- _.
    vm_compute. in_list.
  - cbn [analyze_request services editing] in Han. injection Han as <-.
    exists u. split; [reflexivity|].
    pose proof (Hedit eq_refl) as Hroute. split; [exact Hroute|].
    rewrite Hneeds, Hroute. reflexivity.
Defined.

(** X5 at the second turn of a conversation on the thread of its first
    turn: the first message is replayed twice. *)
Lemma converse_turn_witness :
  ∃ final,
    ainvoke repr_3_0 asking greeted (second_turn "gracias")
    = ([Enter analyze;
        AnalyzeRequest "gracias" (context_of (second_turn "gracias"));
        Enter respond; StartChat [user_says "hola"; user_says "hola"];
        SendMessage "gracias"; Enter format_output],
       inr final)
    ∧ response_text final = Some "Claro."
    ∧ artifacts final = Some [].
Proof.
  remember (ainvoke repr_3_0 asking greeted (second_turn "gracias"))
    as r eqn:Hr.
  destruct r as [log [e|final]]; symmetry in Hr;
    [vm_compute in Hr; discriminate Hr|].
  assert (Hin : Enter respond ∈ log).
  { pose proof Hr as Hc. vm_compute in Hc. injection Hc as <- _. in_list. }
  assert (Hmsgs : stored_messages greeted ++ input_messages (second_turn "gracias")
                  = user_says "hola" :: [user_says "hola"; user_says "gracias"])
    by (vm_compute; reflexivity).
  destruct (converse_turn repr_3_0 asking greeted (second_turn "gracias")
              (user_says "hola") [user_says "hola"; user_says "gracias"]
              log final Hmsgs Hr Hin)
    as (st & text & Hch & Hlog & _ & Hreply & Htext & Harts & _).
  vm_compute in Hch. injection Hch as <-.
  injection Hreply as <-.
  exists final. split; [|split; [exact Htext|exact Harts]].
  rewrite Hlog. vm_compute. reflexivity.
Defined.

(** X6 at a generation request without a linear size: the text is the
    size question, without the menu of shapes since the shape is known. *)
Lemma clarification_turn_witness :
  ∃ log final,
    invoke repr_3_0 unsized (first_turn "quiero una cocina en L")
    = (log, inr final)
    ∧ response_text final = Some size_question
    ∧ artifacts final = Some [].
Proof.
  remember (invoke repr_3_0 unsized (first_turn "quiero una cocina en L"))
    as r eqn:Hr.
  destruct r as [log [e|final]]; symmetry in Hr;
    [vm_compute in Hr; discriminate Hr|].
  assert (Hin : Enter clarify ∈ log).
  { pose proof Hr as Hc. vm_compute in Hc. injection Hc as <- _. in_list. }
  destruct (clarification_turn repr_3_0 unsized _ log final Hr Hin)
    as (lines & Htext & Harts & Hlines & _).
  assert (Hstate : questions final = Some (Some [size_question])
                   ∧ shape final = Some (Some "L")).
  { pose proof Hr as Hc. vm_compute in Hc. injection Hc as _ <-. by split. }
  destruct Hstate as [Hq Hsh].
  rewrite Hq in Hlines. rewrite Hsh in Htext. cbn in Hlines, Htext.
  subst lines. exists log, final. split; [reflexivity|].
  split; [exact Htext|exact Harts].
Defined.

(** X7 at a first turn classified as an edit: no image is stored yet. *)
Lemma edit_without_image_is_generate_witness :
  _edit_design repr_3_0 editing_first (first_turn "hazla azul")
  = (Enter edit
       :: (_generate_design repr_3_0 editing_first (first_turn "hazla azul")).1,
     (_generate_design repr_3_0 editing_first (first_turn "hazla azul")).2)
  ∧ count is_edit
      (_edit_design repr_3_0 editing_first (first_turn "hazla azul")).1 = 0.
Proof.
  apply (edit_without_image_is_generate repr_3_0 editing_first
           (first_turn "hazla azul")).
  reflexivity.
Defined.

(** X9 at a first generation. *)
Lemma turn_service_calls_witness :
  count is_generation
    (invoke repr_3_0 generating (sized (Some "modern") None "una cocina")).1
  ≤ 1
  ∧ count is_send
      (invoke repr_3_0 generating (sized (Some "modern") None "una cocina")).1
    ≤ 1.
Proof.
  destruct (turn_service_calls repr_3_0 generating _ _ _
              (surjective_pairing
                 (invoke repr_3_0 generating
                    (sized (Some "modern") None "una cocina"))))
    as (_ & Hgen & _ & Hsend & _).
  split; [exact Hgen|exact Hsend].
Defined.

(** X10 at an edit of the first design. *)
Lemma edit_request_arguments_witness :
  get (current_image (designed "hazla azul")) = Some "IMG1"
  ∧ "hazla azul" = edit_instructions_of (designed "hazla azul")
  ∧ AnalyzeRequest "hazla azul" (context_of (designed "hazla azul"))
    ∈ (invoke repr_3_0 editing (designed "hazla azul")).1.
Proof.
  assert (Hin : EditImage "IMG1" "hazla azul"
                ∈ (invoke repr_3_0 editing (designed "hazla azul")).1)
    by (vm_compute; in_list).
  destruct (edit_request_arguments repr_3_0 editing _ _ _ _ _
              (surjective_pairing _) Hin) as (Hbase & _ & Hinstr & Han).
  split; [exact Hbase|]. split; [exact Hinstr|]. apply Han. reflexivity.
Defined.

(** X11 at a first turn classified as an edit, whose generation raises on
    the null linear size. *)
Lemma turn_raises_witness :
  ∃ log,
    ainvoke repr_3_0 editing_first empty_dict (first_turn "hazla azul")
    = (log, inl TypeError)
    ∧ (Enter format_output ∉ log)
    ∧ (Enter clarify ∉ log).
Proof.
  remember (ainvoke repr_3_0 editing_first empty_dict (first_turn "hazla azul"))
    as r eqn:Hr.
  destruct r as [log [e|final]]; symmetry in Hr;
    [|vm_compute in Hr; discriminate Hr].
  assert (He : e = TypeError)
    by (pose proof Hr as Hc; vm_compute in Hc; by injection Hc as _ <-).
  subst e.
  destruct (turn_raises repr_3_0 editing_first empty_dict _ log TypeError Hr)
    as (Hformat & Hclarify & _).
  exists log. split; [reflexivity|]. split; [exact Hformat|exact Hclarify].
Defined.

(** A turn whose chat message raises: the error of the call ends the
    turn, after the classification and the replay. *)
Example chat_unavailable_turn :
  ainvoke repr_3_0 unreachable empty_dict (first_turn "hola")
  = ([Enter analyze; AnalyzeRequest "hola" (context_of (first_turn "hola"));
      Enter respond; StartChat []; SendMessage "hola"],
     inl (ServiceError "503 UNAVAILABLE")).
Proof. vm_compute. reflexivity. Qed.

(** An input whose messages are [None]: the reducer raises before any
    node. *)
Example null_messages_turn :
  ainvoke repr_3_0 asking empty_dict (set_messages None (fresh_state "u1" "c1"))
  = ([], inl TypeError).
Proof. reflexivity. Qed.

(** X13 at the second turn of a conversation, on the thread of its first
    turn, with a classifier whose reply holds no JSON. *)
Lemma unparsed_reply_turn_witness :
  ∃ final,
    ainvoke repr_3_0 mute greeted (second_turn "gracias")
    = ([Enter analyze;
        AnalyzeRequest "gracias" (context_of (second_turn "gracias"));
        Enter respond; StartChat [user_says "hola"; user_says "hola"];
        SendMessage "gracias"; Enter format_output],
       inr final)
    ∧ response_text final = Some "Claro."
    ∧ questions final = Some (Some [fallback_question]).
Proof.
  destruct (channels greeted (second_turn "gracias")) as [e|st] eqn:Hch;
    [vm_compute in Hch; discriminate Hch|].
  assert (Hmsgs : stored_messages greeted ++ input_messages (second_turn "gracias")
                  = user_says "hola" :: [user_says "hola"; user_says "gracias"])
    by (vm_compute; reflexivity).
  destruct (unparsed_reply_turn repr_3_0 (λ _, "{}") (λ _, inr "No entiendo.")
              (λ _, None) (λ _, inr ()) (λ _ _, inr "Claro.")
              (λ _, ImageFailure "unused") (λ _ _, ImageFailure "unused")
              greeted (second_turn "gracias") st
              (user_says "hola") [user_says "hola"; user_says "gracias"]
              "No entiendo." "Claro." Hch Hmsgs eq_refl eq_refl eq_refl eq_refl)
    as (final & Hrun & Htext & _ & _ & _ & Hq & _).
  vm_compute in Hch. injection Hch as <-.
  exists final. split; [|split; [exact Htext|exact Hq]].
  unfold mute. rewrite Hrun. vm_compute. reflexivity.
Defined.

(** X15 at the first call of a conversation. *)
Lemma run_classifies_message_witness :
  ∃ rest,
    (run repr_3_0 asking "hola" "u1" "c1" None empty_dict).1
    = Enter analyze
      :: AnalyzeRequest "hola" (context_of (start_state "u1" "c1" None))
      :: rest.
Proof.
  destruct (run_classifies_message repr_3_0 asking "hola" "u1" "c1" None
              empty_dict _ _ (surjective_pairing _))
    as [(Hlog & _)|(l & channel & rest & _ & _ & Hlog & Hctx)].
  - vm_compute in Hlog. discriminate Hlog.
  - exists rest. rewrite Hlog, (Hctx (or_introl eq_refl)). reflexivity.
Defined.

(** Two calls of [run] for one conversation, the second with the state the
    first returned and on the thread the first left: the chat is handed
    the first message twice. *)
Example second_turn_replays_first_message :
  ∃ r1,
    (run repr_3_0 asking "hola" "u1" "c1" None empty_dict).2 = inr r1
    ∧ (run repr_3_0 asking "gracias" "u1" "c1" (Some (reply_state r1))
         greeted).1
      = [Enter analyze;
         AnalyzeRequest "gracias" (context_of (second_turn "gracias"));
         Enter respond; StartChat [user_says "hola"; user_says "hola"];
         SendMessage "gracias"; Enter format_output].
Proof. eexists. split; [vm_compute; reflexivity|]. vm_compute. reflexivity. Qed.

(** X17 at a question asked after the first design: the handler stores a
    second iteration of the image of the first. *)
Lemma idle_turn_saves_iteration_witness :
  ∃ r iteration,
    (run repr_3_0 asking "gracias" "u1" "c1" (Some (designed "hola"))
       empty_dict).2
    = inr r
    ∧ get (design_version (reply_state r)) = Some 1%Z
    ∧ (chat_persist repr_3_0 [] [] "c1" "gracias" r).1 = [iteration]
    ∧ DesignIteration.image_data iteration = Some "IMG1".
Proof.
  remember (run repr_3_0 asking "gracias" "u1" "c1" (Some (designed "hola"))
              empty_dict)
    as p eqn:Hp.
  destruct p as [log [e|r]]; symmetry in Hp;
    [vm_compute in Hp; discriminate Hp|].
  assert (Hv : get (design_version (reply_state r)) = Some 1%Z).
  { pose proof Hp as Hc. vm_compute in Hc. injection Hc as _ <-. reflexivity. }
  destruct (idle_turn_saves_iteration repr_3_0 asking [] [] "gracias" "u1" "c1"
              (Some (designed "hola")) empty_dict log r Hp eq_refl Hv)
    as (image & iteration & Himage & Htable & Hdata & _).
  injection Himage as <-.
  exists r, iteration. split; [reflexivity|]. split; [exact Hv|].
  split; [exact Htable|exact Hdata].
Defined.
